(** * agents/windows/wmiHelper.cc: a shallow embedding

    The WMI helper of the Windows agent: the variant decoder
    ([Variant::get<T>]), the record wrapper ([ObjectWrapper]), the result
    cursor ([Result]), the COM initialisation guard ([COMManager]) and the
    session ([Helper]).

    Integers are [Z] with the wrap-around of their C++ type written out,
    pointers are addresses ([nullptr] is 0), [std::string] is [string] and
    [std::wstring] a list of UTF-16 code units.  Everything the file calls
    but does not define (COM, the WMI service, the runtime library) is the
    interface [WinApi]; the calls made through it are recorded in a trace. *)

From Stdlib Require Import ZArith String Ascii DecimalString HexadecimalString.
From stdpp Require Import base option list gmap strings.

Local Open Scope Z_scope.

(** ** Scalars and strings *)

Definition ptr := N.
Definition nullptr : ptr := 0%N.
Definition HRESULT := Z.
Definition wchar_t := N.
Definition wstring := list wchar_t.

(** A wide string literal [L"..."]. *)
Definition Lstr (s : string) : wstring :=
  map N_of_ascii (list_ascii_of_string s).

(** The two's complement readings of the low [w] bits of a stored value. *)
Definition unsigned_of (w : Z) (x : Z) : Z := x mod 2 ^ w.

Definition signed_of (w : Z) (x : Z) : Z :=
  let u := x mod 2 ^ w in
  if u <? 2 ^ (w - 1) then u else u - 2 ^ w.

(** [std::to_string] and [std::to_wstring] on an integer: decimal digits,
    a minus sign for a negative number. *)
Definition to_string (n : Z) : string :=
  DecimalString.NilZero.string_of_int (Z.to_int n).

Definition to_wstring (n : Z) : wstring := Lstr (to_string n).

(** [ComException::toStringHex]: [out << hex << res] on a [HRESULT], a 32-bit
    [long]: the digits of its unsigned reading, lower case, no prefix. *)
Definition toStringHex (res : HRESULT) : string :=
  HexadecimalString.NilZero.string_of_uint
    (N.to_hex_uint (Z.to_N (unsigned_of 32 res))).

(** [FAILED(hr)]: the sign bit of the 32-bit status. *)
Definition FAILED (hr : HRESULT) : bool := signed_of 32 hr <? 0.

(** The double quote character, for messages that quote their argument. *)
Definition dquote : string := String (ascii_of_nat 34) EmptyString.

(** ** Failures

    The three exception classes of the file, each a [runtime_error] carrying
    its message, and the outcome of a call: a value, a thrown exception, or
    the dereference of a null pointer. *)

Inductive exn : Type :=
| ComException (what : string)
| ComTypeException (what : string)
| Timeout (what : string).

Inductive outcome (A : Type) : Type :=
| Ok (a : A)
| Throw (e : exn)
| NullDeref.

Arguments Ok {A} a.
Arguments Throw {A} e.
Arguments NullDeref {A}.

(** ** VARIANT

    The type tags of [wtypes.h] and the [VARIANT] union of [oaidl.h].  All the
    scalar members of the union start at its first byte, so each is a reading
    of the same storage ([raw], little endian).  [bstr] is what [bstrVal]
    gives under the tag [VT_BSTR]: the characters it points to, or [None]
    when it is the null pointer, as it may be for an empty [BSTR]. *)

Definition VT_EMPTY : Z := 0.
Definition VT_NULL : Z := 1.
Definition VT_I2 : Z := 2.
Definition VT_I4 : Z := 3.
Definition VT_R4 : Z := 4.
Definition VT_R8 : Z := 5.
Definition VT_BSTR : Z := 8.
Definition VT_BOOL : Z := 11.
Definition VT_I1 : Z := 16.
Definition VT_UI1 : Z := 17.
Definition VT_UI2 : Z := 18.
Definition VT_UI4 : Z := 19.
Definition VT_UI8 : Z := 21.
Definition VT_VECTOR : Z := 4096.
Definition VT_ARRAY : Z := 8192.

Record VARIANT : Type := mkVARIANT {
  vt : Z;
  raw : Z;
  bstr : option wstring
}.

(** [CHAR cVal] is the member of [VT_I1], [BYTE bVal] that of [VT_UI1]. *)
Definition cVal (v : VARIANT) : Z := signed_of 8 (raw v).
Definition bVal (v : VARIANT) : Z := unsigned_of 8 (raw v).
Definition iVal (v : VARIANT) : Z := signed_of 16 (raw v).
Definition uiVal (v : VARIANT) : Z := unsigned_of 16 (raw v).
Definition intVal (v : VARIANT) : Z := signed_of 32 (raw v).
Definition ulVal (v : VARIANT) : Z := unsigned_of 32 (raw v).
Definition ullVal (v : VARIANT) : Z := unsigned_of 64 (raw v).
Definition boolVal (v : VARIANT) : Z := signed_of 16 (raw v).
Definition fltVal (v : VARIANT) : Z := unsigned_of 32 (raw v).
Definition dblVal (v : VARIANT) : Z := unsigned_of 64 (raw v).
Definition bstrVal (v : VARIANT) : option wstring := bstr v.

(** A value as the service stores it under each integer tag: the tag, and the
    value written through the member that belongs to the tag. *)
Definition stored_I1 (x : Z) : VARIANT := mkVARIANT VT_I1 (unsigned_of 8 x) None.
Definition stored_UI1 (x : Z) : VARIANT := mkVARIANT VT_UI1 (unsigned_of 8 x) None.
Definition stored_I2 (x : Z) : VARIANT := mkVARIANT VT_I2 (unsigned_of 16 x) None.
Definition stored_UI2 (x : Z) : VARIANT := mkVARIANT VT_UI2 (unsigned_of 16 x) None.
Definition stored_I4 (x : Z) : VARIANT := mkVARIANT VT_I4 (unsigned_of 32 x) None.
Definition stored_UI4 (x : Z) : VARIANT := mkVARIANT VT_UI4 (unsigned_of 32 x) None.

(** ** The runtime library and the headers

    What the file takes from the C++ runtime, from [stringutil.h] and from
    its own header: the UTF-16 to UTF-8 transcoder, on the characters of a
    string ([to_utf8]) and on the null pointer ([to_utf8_null]: what it does
    there, return, throw or read through the pointer, is its own), the
    floating point conversions (a [float] and a [double] are carried as their
    IEEE bit patterns), and the value [Result::_last_error] holds before any
    advance has set it (no constructor of this file initialises the member,
    so it is what the member's declaration gives it). *)

Class Externals : Type := {
  to_utf8 : wstring -> string;
  to_utf8_null : outcome string;
  float_to_double : Z -> Z;
  float_to_wstring : Z -> wstring;
  double_to_wstring : Z -> wstring;
  last_error_unset : HRESULT
}.

(** ** Variant::get<T>

    One specialisation per requested type, each a [switch] over the tag with
    a [default] that throws. *)

Inductive cpp_type : Type :=
| T_int | T_bool | T_ULONG | T_ULONGLONG
| T_string | T_float | T_double | T_wstring.

Definition cpp_value (T : cpp_type) : Type :=
  match T with
  | T_int | T_ULONG | T_ULONGLONG | T_float | T_double => Z
  | T_bool => bool
  | T_string => string
  | T_wstring => wstring
  end.

(** The conversions a [return] applies to reach the function's return type. *)
Definition as_int (x : Z) : Z := signed_of 32 x.
Definition as_ULONG (x : Z) : Z := unsigned_of 32 x.
Definition as_bool (x : Z) : bool := negb (x =? 0).

Definition outcome_map {A B : Type} (f : A -> B) (o : outcome A) : outcome B :=
  match o with
  | Ok a => Ok (f a)
  | Throw e => Throw e
  | NullDeref => NullDeref
  end.

Definition wrong_value_type {A : Type} (v : VARIANT) : outcome A :=
  Throw (ComTypeException ("wrong value type requested: " +:+ to_string (vt v))).

Definition Variant_get_int (v : VARIANT) : outcome Z :=
  if vt v =? VT_I1 then Ok (as_int (bVal v))
  else if vt v =? VT_I2 then Ok (as_int (iVal v))
  else if vt v =? VT_I4 then Ok (as_int (intVal v))
  else if vt v =? VT_UI1 then Ok (as_int (cVal v))
  else if vt v =? VT_UI2 then Ok (as_int (uiVal v))
  else if vt v =? VT_UI4 then Ok (as_int (intVal v))
  else wrong_value_type v.

Definition Variant_get_bool (v : VARIANT) : outcome bool :=
  if vt v =? VT_BOOL then Ok (as_bool (boolVal v))
  else wrong_value_type v.

Definition Variant_get_ULONG (v : VARIANT) : outcome Z :=
  if vt v =? VT_UI1 then Ok (as_ULONG (cVal v))
  else if vt v =? VT_UI2 then Ok (as_ULONG (uiVal v))
  else if vt v =? VT_UI4 then Ok (as_ULONG (ulVal v))
  else wrong_value_type v.

Definition Variant_get_ULONGLONG (v : VARIANT) : outcome Z :=
  if vt v =? VT_UI8 then Ok (ullVal v)
  else wrong_value_type v.

(** [get<string>]: [bstrVal] goes to the transcoder as it is, null or not. *)
Definition Variant_get_string `{Externals} (v : VARIANT) : outcome string :=
  if vt v =? VT_BSTR then
    match bstrVal v with
    | Some chars => Ok (to_utf8 chars)
    | None => to_utf8_null
    end
  else wrong_value_type v.

Definition Variant_get_float (v : VARIANT) : outcome Z :=
  if vt v =? VT_R4 then Ok (fltVal v)
  else wrong_value_type v.

Definition Variant_get_double `{Externals} (v : VARIANT) : outcome Z :=
  if vt v =? VT_R4 then Ok (float_to_double (fltVal v))
  else if vt v =? VT_R8 then Ok (dblVal v)
  else wrong_value_type v.

Definition Variant_type (v : VARIANT) : Z := vt v.

(** [std::to_wstring(get<bool>())]: the [bool] is promoted to [int]. *)
Definition bool_to_wstring (b : bool) : wstring :=
  to_wstring (if b then 1 else 0).

(** [get<wstring>]: [wstring(bstrVal)] reads the characters through the
    pointer, so a null [bstrVal] is dereferenced. *)
Definition Variant_get_wstring `{Externals} (v : VARIANT) : outcome wstring :=
  if negb (Z.land (vt v) VT_ARRAY =? 0) then Ok (Lstr "<array>")
  else if negb (Z.land (vt v) VT_VECTOR =? 0) then Ok (Lstr "<vector>")
  else if vt v =? VT_BSTR then
    match bstrVal v with
    | Some chars => Ok chars
    | None => NullDeref
    end
  else if vt v =? VT_R4 then outcome_map float_to_wstring (Variant_get_float v)
  else if vt v =? VT_R8 then outcome_map double_to_wstring (Variant_get_double v)
  else if (vt v =? VT_I1) || (vt v =? VT_I2) || (vt v =? VT_I4)
    then outcome_map to_wstring (Variant_get_int v)
  else if (vt v =? VT_UI1) || (vt v =? VT_UI2) || (vt v =? VT_UI4)
    then outcome_map to_wstring (Variant_get_ULONG v)
  else if vt v =? VT_UI8 then outcome_map to_wstring (Variant_get_ULONGLONG v)
  else if vt v =? VT_BOOL then outcome_map bool_to_wstring (Variant_get_bool v)
  else if vt v =? VT_NULL then Ok (Lstr "")
  else wrong_value_type v.

(** [get<T>()], by requested type. *)
Definition Variant_get `{Externals} (T : cpp_type) (v : VARIANT)
  : outcome (cpp_value T) :=
  match T with
  | T_int => Variant_get_int v
  | T_bool => Variant_get_bool v
  | T_ULONG => Variant_get_ULONG v
  | T_ULONGLONG => Variant_get_ULONGLONG v
  | T_string => Variant_get_string v
  | T_float => Variant_get_float v
  | T_double => Variant_get_double v
  | T_wstring => Variant_get_wstring v
  end.

(** The accepted tags of each requested type, as the decoder's contract
    lists them. *)
Definition is_one_of (tags : list Z) (t : Z) : bool :=
  existsb (Z.eqb t) tags.

Definition accepted (T : cpp_type) (t : Z) : bool :=
  match T with
  | T_int => is_one_of [VT_I1; VT_I2; VT_I4; VT_UI1; VT_UI2; VT_UI4] t
  | T_bool => is_one_of [VT_BOOL] t
  | T_ULONG => is_one_of [VT_UI1; VT_UI2; VT_UI4] t
  | T_ULONGLONG => is_one_of [VT_UI8] t
  | T_string => is_one_of [VT_BSTR] t
  | T_float => is_one_of [VT_R4] t
  | T_double => is_one_of [VT_R4; VT_R8] t
  | T_wstring =>
      negb (Z.land t VT_ARRAY =? 0) || negb (Z.land t VT_VECTOR =? 0)
      || is_one_of [VT_BSTR; VT_I1; VT_I2; VT_I4; VT_UI1; VT_UI2; VT_UI4;
                    VT_UI8; VT_R4; VT_R8; VT_BOOL; VT_NULL] t
  end.

(** ** Calls, outcomes and state

    A computation runs on a state and ends in an [outcome]; the state it
    leaves is kept whatever the outcome, so that what a throwing call did
    before the throw stays visible. *)

Definition M (St A : Type) : Type := St -> outcome A * St.

#[global] Instance M_ret {St : Type} : MRet (M St) :=
  fun A a s => (Ok a, s).

#[global] Instance M_bind {St : Type} : MBind (M St) :=
  fun A B k m s =>
    match m s with
    | (Ok a, s') => k a s'
    | (Throw e, s') => (Throw e, s')
    | (NullDeref, s') => (NullDeref, s')
    end.

Definition throw {St A : Type} (e : exn) : M St A := fun s => (Throw e, s).
Definition null_deref {St A : Type} : M St A := fun s => (NullDeref, s).

(** A method runs on its object and the world; these move between the two. *)
Definition on_world {T W A : Type} (m : M W A) : M (T * W) A :=
  fun s => let '(o, w') := m (snd s) in (o, (fst s, w')).

Definition get_this {T W : Type} : M (T * W) T := fun s => (Ok (fst s), s).

Definition set_this {T W : Type} (t : T) : M (T * W) unit :=
  fun s => (Ok tt, (t, snd s)).

(** ** The platform

    The calls the file makes into COM and the WMI service, with the arguments
    that vary; [Sys] is the state of everything behind them. *)

Inductive Call : Type :=
| Call_Next (enumerator : ptr) (timeout count : Z)
| Call_Release (p : ptr)
| Call_Get (object : ptr) (key : wstring)
| Call_VariantClear (v : VARIANT)
| Call_GetErrorInfo
| Call_ErrorMessage (hr : HRESULT) (info : ptr)
| Call_CoInitializeEx (dwCoInit : Z)
| Call_CoInitializeSecurity (cAuthSvc authn_level imp_level capabilities : Z)
| Call_CoUninitialize
| Call_CoCreateInstance
| Call_ConnectServer (locator : ptr) (path : wstring)
| Call_ExecQuery (services : ptr) (language query : wstring) (flags : Z)
| Call_CreateInstanceEnum (services : ptr) (class_name : wstring) (flags : Z).

Class WinApi (Sys : Type) : Type := {
  (** [IEnumWbemClassObject::Next]: the status and the object returned. *)
  Enum_Next : ptr -> Z -> Z -> Sys -> HRESULT * ptr * Sys;
  (** [IUnknown::Release]. *)
  Unknown_Release : ptr -> Sys -> Sys;
  (** [IWbemClassObject::Get]: the status and the value fetched. *)
  Object_Get : ptr -> wstring -> Sys -> HRESULT * VARIANT * Sys;
  VariantClear : VARIANT -> Sys -> Sys;
  GetErrorInfo : Sys -> ptr * Sys;
  (** [_com_error(hr, info).ErrorMessage()], temporary included. *)
  com_error_ErrorMessage : HRESULT -> ptr -> Sys -> string * Sys;
  CoInitializeEx : Z -> Sys -> HRESULT * Sys;
  CoInitializeSecurity : Z -> Z -> Z -> Z -> Sys -> HRESULT * Sys;
  CoUninitialize : Sys -> Sys;
  CoCreateInstance : Sys -> HRESULT * ptr * Sys;
  Locator_ConnectServer : ptr -> wstring -> Sys -> HRESULT * ptr * Sys;
  Services_ExecQuery : ptr -> wstring -> wstring -> Z -> Sys -> HRESULT * ptr * Sys;
  Services_CreateInstanceEnum : ptr -> wstring -> Z -> Sys -> HRESULT * ptr * Sys
}.

(** The world: the platform's state, the control blocks of the live
    [shared_ptr]s (use counts) and the trace of calls made so far. *)
Record World (Sys : Type) : Type := mkWorld {
  os : Sys;
  blocks : gmap N nat;
  next_block : N;
  trace : list Call
}.

Arguments mkWorld {Sys} os blocks next_block trace.
Arguments os {Sys} w.
Arguments blocks {Sys} w.
Arguments next_block {Sys} w.
Arguments trace {Sys} w.

(** Status codes of [wbemcli.h] and flags of the COM headers. *)
Definition WBEM_NO_ERROR : Z := 0.
Definition WBEM_S_FALSE : Z := 1.
Definition WBEM_S_TIMEDOUT : Z := 0x40004.
Definition WBEM_E_ACCESS_DENIED : Z := 0x80041003.
Definition WBEM_E_OUT_OF_MEMORY : Z := 0x80041006.
Definition WBEM_E_INVALID_PARAMETER : Z := 0x80041008.
Definition WBEM_E_INVALID_NAMESPACE : Z := 0x8004100E.
Definition WBEM_E_INVALID_CLASS : Z := 0x80041010.
Definition WBEM_E_TRANSPORT_FAILURE : Z := 0x80041015.
Definition WBEM_E_INVALID_QUERY : Z := 0x80041017.
Definition WBEM_E_UNEXPECTED : Z := 0x8004101D.
Definition WBEM_FLAG_RETURN_IMMEDIATELY : Z := 0x10.
Definition WBEM_FLAG_FORWARD_ONLY : Z := 0x20.
Definition COINIT_MULTITHREADED : Z := 0.
Definition RPC_C_AUTHN_LEVEL_DEFAULT : Z := 0.
Definition RPC_C_IMP_LEVEL_IMPERSONATE : Z := 3.
Definition EOAC_NONE : Z := 0.

Section Program.

Context {Sys : Type} `{WinApi Sys} `{Externals}.

(** A call into the platform: it answers, moves the platform's state, and is
    recorded. *)
Definition platform_call {A : Type} (c : Call) (f : Sys -> A * Sys)
  : M (World Sys) A :=
  fun w =>
    let '(a, s') := f (os w) in
    (Ok a, mkWorld s' (blocks w) (next_block w) (trace w ++ [c])).

Definition call_Next (e : ptr) (timeout count : Z) : M (World Sys) (HRESULT * ptr) :=
  platform_call (Call_Next e timeout count)
    (fun s => let '(res, obj, s') := Enum_Next e timeout count s in ((res, obj), s')).

Definition call_Release (p : ptr) : M (World Sys) unit :=
  platform_call (Call_Release p) (fun s => (tt, Unknown_Release p s)).

Definition call_Get (o : ptr) (key : wstring) : M (World Sys) (HRESULT * VARIANT) :=
  platform_call (Call_Get o key)
    (fun s => let '(res, value, s') := Object_Get o key s in ((res, value), s')).

Definition call_VariantClear (v : VARIANT) : M (World Sys) unit :=
  platform_call (Call_VariantClear v) (fun s => (tt, VariantClear v s)).

(** ** shared_ptr with [releaseInterface] as deleter *)

Record shared_ptr : Type := mk_shared_ptr {
  sp_get : ptr;
  sp_block : option N
}.

(** [releaseInterface]. *)
Definition releaseInterface (p : ptr) : M (World Sys) unit :=
  if (p =? nullptr)%N then mret tt else call_Release p.

(** [shared_ptr(p, releaseInterface)]: a new control block, also for null. *)
Definition sp_new (p : ptr) : M (World Sys) shared_ptr :=
  fun w =>
    let b := next_block w in
    (Ok (mk_shared_ptr p (Some b)),
     mkWorld (os w) (<[b := 1%nat]> (blocks w)) (N.succ b) (trace w)).

(** The empty pointer a [shared_ptr] becomes when assigned [nullptr]. *)
Definition sp_empty : shared_ptr := mk_shared_ptr nullptr None.

(** Copy construction: one more owner. *)
Definition sp_copy (p : shared_ptr) : M (World Sys) shared_ptr :=
  fun w =>
    match sp_block p with
    | None => (Ok p, w)
    | Some b =>
        (Ok p, mkWorld (os w) (alter S b (blocks w)) (next_block w) (trace w))
    end.

(** One owner less; the last one runs the deleter. *)
Definition sp_release (p : shared_ptr) : M (World Sys) unit :=
  fun w =>
    match sp_block p with
    | None => (Ok tt, w)
    | Some b =>
        match blocks w !! b with
        | Some (S (S n)) =>
            (Ok tt, mkWorld (os w) (<[b := S n]> (blocks w))
                      (next_block w) (trace w))
        | Some _ =>
            releaseInterface (sp_get p)
              (mkWorld (os w) (delete b (blocks w)) (next_block w) (trace w))
        | None => (Ok tt, w)
        end
    end.

(** [p.reset(obj, releaseInterface)]: the new block first, then the old
    object let go. *)
Definition sp_reset (p : shared_ptr) (obj : ptr) : M (World Sys) shared_ptr :=
  q ← sp_new obj; sp_release p;; mret q.

(** [p = nullptr]. *)
Definition sp_assign_null (p : shared_ptr) : M (World Sys) shared_ptr :=
  sp_release p;; mret sp_empty.

(** [p->...]: the object a call goes to. *)
Definition deref (p : ptr) : M (World Sys) ptr :=
  if (p =? nullptr)%N then null_deref else mret p.

(** ** ComException *)

Definition getErrorInfo : M (World Sys) ptr :=
  platform_call Call_GetErrorInfo GetErrorInfo.

Definition resolveError (result : HRESULT) : M (World Sys) string :=
  let code := unsigned_of 32 result in
  if code =? WBEM_E_INVALID_NAMESPACE then mret "Invalid Namespace"%string
  else if code =? WBEM_E_ACCESS_DENIED then mret "Access Denied"%string
  else if code =? WBEM_E_INVALID_CLASS then mret "Invalid Class"%string
  else if code =? WBEM_E_INVALID_QUERY then mret "Invalid Query"%string
  else
    info ← getErrorInfo;
    platform_call (Call_ErrorMessage result info)
      (com_error_ErrorMessage result info).

(** The constructor; the exception it builds is then thrown by the caller. *)
Definition ComException_new (message : string) (result : HRESULT)
  : M (World Sys) exn :=
  reason ← resolveError result;
  mret (ComException
          (message +:+ ": " +:+ reason +:+ " (" +:+ toStringHex result +:+ ")")).

Definition throw_ComException {A : Type} (message : string) (result : HRESULT)
  : M (World Sys) A :=
  e ← ComException_new message result; throw e.

(** ** ObjectWrapper *)

Record ObjectWrapper : Type := mkObjectWrapper {
  _current : shared_ptr
}.

(** [ObjectWrapper(const ObjectWrapper &)]. *)
Definition ObjectWrapper_copy (reference : ObjectWrapper)
  : M (World Sys) ObjectWrapper :=
  cur ← sp_copy (_current reference);
  mret (mkObjectWrapper cur).

Definition ObjectWrapper_contains (this : ObjectWrapper) (key : wstring)
  : M (World Sys) bool :=
  o ← deref (sp_get (_current this));
  '(res, value) ← call_Get o key;
  if FAILED res then mret false
  else
    let not_null := negb (vt value =? VT_NULL) in
    call_VariantClear value;;
    mret not_null.

Definition ObjectWrapper_typeId (this : ObjectWrapper) (key : wstring)
  : M (World Sys) Z :=
  o ← deref (sp_get (_current this));
  '(res, value) ← call_Get o key;
  if FAILED res then mret 0
  else
    let type_id := vt value in
    call_VariantClear value;;
    mret type_id.

Definition ObjectWrapper_getVarByKey (this : ObjectWrapper) (key : wstring)
  : M (World Sys) VARIANT :=
  o ← deref (sp_get (_current this));
  '(res, value) ← call_Get o key;
  if FAILED res
  then throw_ComException ("Failed to retrieve key: " +:+ to_utf8 key) res
  else mret value.

(** ** Result *)

Record Result : Type := mkResult {
  Result_base : ObjectWrapper;
  _enumerator : shared_ptr;
  _last_error : HRESULT
}.

Definition set_current (cur : shared_ptr) : M (Result * World Sys) unit :=
  this ← get_this;
  set_this (mkResult (mkObjectWrapper cur) (_enumerator this) (_last_error this)).

Definition set_enumerator (en : shared_ptr) : M (Result * World Sys) unit :=
  this ← get_this;
  set_this (mkResult (Result_base this) en (_last_error this)).

Definition set_last_error (res : HRESULT) : M (Result * World Sys) unit :=
  this ← get_this;
  set_this (mkResult (Result_base this) (_enumerator this) res).

(** The world once [Next] has been called on [e] and left the platform in
    [s']: nothing else moves. *)
Definition after_Next (w : World Sys) (e : ptr) (s' : Sys) : World Sys :=
  mkWorld s' (blocks w) (next_block w) (trace w ++ [Call_Next e 2500 1]).

Definition Result_valid (this : Result) : bool :=
  negb (sp_get (_current (Result_base this)) =? nullptr)%N.

Definition Result_next : M (Result * World Sys) bool :=
  this ← get_this;
  if (sp_get (_enumerator this) =? nullptr)%N then mret false
  else
    '(res, obj) ← on_world (call_Next (sp_get (_enumerator this)) 2500 1);
    if res =? WBEM_NO_ERROR then
      cur ← on_world (sp_reset (_current (Result_base this)) obj);
      set_current cur;;
      mret true
    else if res =? WBEM_S_FALSE then mret false
    else if res =? WBEM_S_TIMEDOUT then throw (Timeout "WMItimeout")
    else
      set_last_error res;;
      mret false.

(** The destructors of the members, in the order they run. *)
Definition Result_destroy (this : Result) : M (World Sys) unit :=
  sp_release (_enumerator this);;
  sp_release (_current (Result_base this)).

(** A constructor: the member initialisers, then the body on the new object;
    a body that throws has the members destroyed and no object built. *)
Definition construct {T : Type} (members : M (World Sys) T)
    (body : M (T * World Sys) unit) (destroy : T -> M (World Sys) unit)
  : M (World Sys) T :=
  fun w =>
    match members w with
    | (Ok this, w1) =>
        match body (this, w1) with
        | (Ok _, (this', w2)) => (Ok this', w2)
        | (Throw e, (this', w2)) => (Throw e, snd (destroy this' w2))
        | (NullDeref, (this', w2)) => (NullDeref, w2)
        end
    | (Throw e, w1) => (Throw e, w1)
    | (NullDeref, w1) => (NullDeref, w1)
    end.

(** [Result(const WinApiAdaptor &)]. *)
Definition Result_empty : M (World Sys) Result :=
  cur ← sp_new nullptr;
  en ← sp_new nullptr;
  mret (mkResult (mkObjectWrapper cur) en last_error_unset).

(** [Result(const Result &)]. *)
Definition Result_copy (reference : Result) : M (World Sys) Result :=
  base ← ObjectWrapper_copy (Result_base reference);
  en ← sp_copy (_enumerator reference);
  mret (mkResult base en (_last_error reference)).

(** [Result(IEnumWbemClassObject *, const WinApiAdaptor &)]: the member
    initialisers, the body, and the two together. *)
Definition Result_members (enumerator : ptr) : M (World Sys) Result :=
  cur ← sp_new nullptr;
  en ← sp_new enumerator;
  mret (mkResult (mkObjectWrapper cur) en last_error_unset).

Definition Result_body : M (Result * World Sys) unit :=
  more ← Result_next;
  if negb more then
    this ← get_this;
    en ← on_world (sp_assign_null (_enumerator this));
    set_enumerator en
  else mret tt.

Definition Result_new (enumerator : ptr) : M (World Sys) Result :=
  construct (Result_members enumerator) Result_body Result_destroy.

(** [n] advances in a row, stopping at the first that does not return; the
    answers of those that returned, oldest first. *)
Fixpoint advances (n : nat) : M (Result * World Sys) (list bool) :=
  match n with
  | O => mret []
  | S n' => b ← Result_next; bs ← advances n'; mret (b :: bs)
  end.

(** ** COMManager

    [init] holds the manager in a function-local static: the constructor runs
    when control first passes the declaration, and again on the next pass if
    it left by an exception (the static is then not initialised). *)

Record Statics : Type := mkStatics {
  s_Instance_initialised : bool
}.

Definition COMManager_new : M (World Sys) unit :=
  res ← platform_call (Call_CoInitializeEx COINIT_MULTITHREADED)
          (CoInitializeEx COINIT_MULTITHREADED);
  if FAILED res then throw_ComException "Failed to initialize COM" res
  else
    res ← platform_call
            (Call_CoInitializeSecurity (-1) RPC_C_AUTHN_LEVEL_DEFAULT
               RPC_C_IMP_LEVEL_IMPERSONATE EOAC_NONE)
            (CoInitializeSecurity (-1) RPC_C_AUTHN_LEVEL_DEFAULT
               RPC_C_IMP_LEVEL_IMPERSONATE EOAC_NONE);
    if FAILED res then throw_ComException "Failed to initialize COM security" res
    else mret tt.

Definition COMManager_init : M (Statics * World Sys) unit :=
  statics ← get_this;
  if s_Instance_initialised statics then mret tt
  else
    on_world COMManager_new;;
    set_this (mkStatics true).

(** [~COMManager], run at process exit for a static that was initialised. *)
Definition COMManager_delete : M (World Sys) unit :=
  platform_call Call_CoUninitialize (fun s => (tt, CoUninitialize s)).

Definition process_exit : M (Statics * World Sys) unit :=
  statics ← get_this;
  if s_Instance_initialised statics then on_world COMManager_delete
  else mret tt.

(** Calls of [init] one after the other, each caller keeping to itself the
    exception it may get; the outcomes, oldest first. *)
Fixpoint init_calls (n : nat) (s : Statics * World Sys)
  : list (outcome unit) * (Statics * World Sys) :=
  match n with
  | O => ([], s)
  | S n' =>
      let '(o, s1) := COMManager_init s in
      let '(rest, s2) := init_calls n' s1 in
      (o :: rest, s2)
  end.

(** The calls of the initialisation, in order, and how often a trace has
    each of them. *)
Definition init_sequence : list Call :=
  [Call_CoInitializeEx COINIT_MULTITHREADED;
   Call_CoInitializeSecurity (-1) RPC_C_AUTHN_LEVEL_DEFAULT
     RPC_C_IMP_LEVEL_IMPERSONATE EOAC_NONE].

Definition is_CoInitializeEx (c : Call) : bool :=
  match c with Call_CoInitializeEx _ => true | _ => false end.

Definition is_CoInitializeSecurity (c : Call) : bool :=
  match c with Call_CoInitializeSecurity _ _ _ _ => true | _ => false end.

Definition count_calls (p : Call -> bool) (t : list Call) : nat :=
  length (filter (fun c => p c = true) t).

(** ** Helper *)

Record Helper : Type := mkHelper {
  _locator : ptr;
  _services : ptr;
  _path : wstring
}.

Definition Helper_getWBEMLocator : M (World Sys) ptr :=
  '(res, locator) ← platform_call Call_CoCreateInstance
      (fun s => let '(res, p, s') := CoCreateInstance s in ((res, p), s'));
  if FAILED res then throw_ComException "Failed to create locator object" res
  else mret locator.

Definition Helper_connectServer (path : wstring) (locator : ptr)
  : M (World Sys) ptr :=
  l ← deref locator;
  '(res, services) ← platform_call (Call_ConnectServer l path)
      (fun s => let '(res, p, s') := Locator_ConnectServer l path s in ((res, p), s'));
  if FAILED res then throw_ComException "Failed to connect" res
  else mret services.

Definition Helper_new (path : wstring) : M (Statics * World Sys) Helper :=
  COMManager_init;;
  locator ← on_world Helper_getWBEMLocator;
  services ← on_world (Helper_connectServer path locator);
  mret (mkHelper locator services path).

Definition query_flags : Z :=
  Z.lor WBEM_FLAG_FORWARD_ONLY WBEM_FLAG_RETURN_IMMEDIATELY.

Definition Helper_query (this : Helper) (query : wstring) : M (World Sys) Result :=
  sv ← deref (_services this);
  '(res, enumerator) ← platform_call (Call_ExecQuery sv (Lstr "WQL") query query_flags)
      (fun s => let '(res, p, s') := Services_ExecQuery sv (Lstr "WQL") query query_flags s
                in ((res, p), s'));
  if FAILED res
  then throw_ComException
         ("Failed to execute query " +:+ dquote +:+ to_utf8 query +:+ dquote) res
  else Result_new enumerator.

Definition Helper_getClass (this : Helper) (className : wstring)
  : M (World Sys) Result :=
  sv ← deref (_services this);
  '(res, enumerator) ← platform_call (Call_CreateInstanceEnum sv className query_flags)
      (fun s => let '(res, p, s') := Services_CreateInstanceEnum sv className query_flags s
                in ((res, p), s'));
  if FAILED res
  then throw_ComException
         ("Failed to enum class " +:+ dquote +:+ to_utf8 className +:+ dquote) res
  else Result_new enumerator.

End Program.

(** ** A scripted platform

    A platform that answers from a script, to run the program on examples:
    [Next] hands out [next_replies] one by one and reports the end after the
    last, [Get] looks the key up in [fields], [CoInitializeSecurity] gives
    the statuses of [cosec_replies] one by one and succeeds after the last,
    the other calls give their scripted status. *)

Definition WBEM_E_NOT_FOUND : Z := 0x80041002.
Definition RPC_E_CHANGED_MODE : Z := 0x80010106.
Definition E_OUTOFMEMORY : Z := 0x8007000E.

Record Script : Type := mkScript {
  next_replies : list (HRESULT * ptr);
  fields : list (wstring * VARIANT);
  coinit_reply : HRESULT;
  cosec_replies : list HRESULT;
  request_reply : HRESULT * ptr
}.

Fixpoint lookup_field (key : wstring) (fs : list (wstring * VARIANT))
  : HRESULT * VARIANT :=
  match fs with
  | [] => (signed_of 32 WBEM_E_NOT_FOUND, mkVARIANT VT_EMPTY 0 None)
  | (k, v) :: rest =>
      if bool_decide (k = key) then (WBEM_NO_ERROR, v) else lookup_field key rest
  end.

#[global] Instance Script_WinApi : WinApi Script := {|
  Enum_Next := fun _ _ _ s =>
    match next_replies s with
    | [] => (WBEM_S_FALSE, nullptr, s)
    | (res, obj) :: rest =>
        (res, obj,
         mkScript rest (fields s) (coinit_reply s) (cosec_replies s) (request_reply s))
    end;
  Unknown_Release := fun _ s => s;
  Object_Get := fun _ key s =>
    let '(res, v) := lookup_field key (fields s) in (res, v, s);
  VariantClear := fun _ s => s;
  GetErrorInfo := fun s => (nullptr, s);
  com_error_ErrorMessage := fun _ _ s => ("Unknown error"%string, s);
  CoInitializeEx := fun _ s => (coinit_reply s, s);
  CoInitializeSecurity := fun _ _ _ _ s =>
    match cosec_replies s with
    | [] => (WBEM_NO_ERROR, s)
    | res :: rest =>
        (res,
         mkScript (next_replies s) (fields s) (coinit_reply s) rest (request_reply s))
    end;
  CoUninitialize := fun s => s;
  CoCreateInstance := fun s => (WBEM_NO_ERROR, 1%N, s);
  Locator_ConnectServer := fun _ _ s => (WBEM_NO_ERROR, 2%N, s);
  Services_ExecQuery := fun _ _ _ _ s =>
    (fst (request_reply s), snd (request_reply s), s);
  Services_CreateInstanceEnum := fun _ _ _ s =>
    (fst (request_reply s), snd (request_reply s), s)
|}.

(** The transcoder on plain ASCII; the examples use no floating point. *)
#[global] Instance Script_Externals : Externals := {|
  to_utf8 := fun ws => string_of_list_ascii (map ascii_of_N ws);
  to_utf8_null := Ok EmptyString;
  float_to_double := fun bits => bits;
  float_to_wstring := fun _ => [];
  double_to_wstring := fun _ => [];
  last_error_unset := 0
|}.

Definition script_world (s : Script) : World Script := mkWorld s ∅ 0%N [].

(** One record, then the end. *)
Definition one_record : Script :=
  mkScript [(WBEM_NO_ERROR, 7%N)]
    [(Lstr "Name", mkVARIANT VT_BSTR 0 (Some (Lstr "System")));
     (Lstr "Parent", mkVARIANT VT_NULL 0 None)]
    0 [] (WBEM_NO_ERROR, 5%N).

(** An enumeration whose first advance gives the status [res]. *)
Definition first_reply (res : HRESULT) : Script :=
  mkScript [(res, nullptr)] [] 0 [] (WBEM_NO_ERROR, 5%N).

(** No record at all. *)
Definition no_record : Script :=
  mkScript [] [] 0 [] (WBEM_NO_ERROR, 5%N).

(** A thread that COM already runs in the other mode: [CoInitializeEx]
    fails. *)
Definition wrong_mode : Script :=
  mkScript [] [] (signed_of 32 RPC_E_CHANGED_MODE) [] (WBEM_NO_ERROR, 5%N).

(** The security call fails once, for want of memory, and then succeeds. *)
Definition failing_once : Script :=
  mkScript [] [] 0 [signed_of 32 E_OUTOFMEMORY] (WBEM_NO_ERROR, 5%N).

(** The service rejects the request with the status [res]. *)
Definition rejecting (res : HRESULT) : Script :=
  mkScript [] [] 0 [] (res, nullptr).

Definition a_helper : Helper := mkHelper 1%N 2%N (Lstr "Root\cimv2").

(** The cursor the constructor's member initialisers build over [e] in a
    fresh world, and that world. *)
Definition a_cursor (e : ptr) : Result :=
  mkResult (mkObjectWrapper (mk_shared_ptr nullptr (Some 0%N)))
    (mk_shared_ptr e (Some 1%N)) 0.

Definition cursor_world (s : Script) : World Script :=
  mkWorld s (<[1%N := 1%nat]> (<[0%N := 1%nat]> ∅)) 2%N [].

(** The same cursor and world once an advance has run. *)
Definition advanced (e : ptr) (s : Script) : Result * World Script :=
  snd (Result_next (a_cursor e, cursor_world s)).

(** The record the scripted enumeration hands out, held by a wrapper. *)
Definition a_record : ObjectWrapper := mkObjectWrapper (mk_shared_ptr 7%N None).

(** The status of a transport failure, as [Next] returns it. *)
Definition hard_error : HRESULT := signed_of 32 WBEM_E_TRANSPORT_FAILURE.

(** A query on the scripted platform, and the cursor and world it leaves
    when it returns one. *)
Definition queried (s : Script) : outcome Result * World Script :=
  Helper_query a_helper (Lstr "SELECT Name FROM Win32_Process WHERE ProcessId=4")
    (script_world s).

Definition query_state (s : Script) : Result * World Script :=
  match queried s with
  | (Ok r, w) => (r, w)
  | (_, w) => (a_cursor nullptr, w)
  end.

(** A scripted enumeration whose first advance times out. *)
Definition timing_out : Script :=
  mkScript [(WBEM_S_TIMEDOUT, nullptr)] [] 0 [] (WBEM_NO_ERROR, 5%N).

(** ** Assignment, destruction and the session's life

    The members of the classes that the constructors and [next] leave out. *)

Section Lifetimes.

Context {Sys : Type} `{WinApi Sys} `{Externals}.

(** [p = q] on shared pointers: a copy of [q] takes the place of [p], and
    what [p] held is let go. *)
Definition sp_assign (p q : shared_ptr) : M (World Sys) shared_ptr :=
  q' ← sp_copy q; sp_release p;; mret q'.

(** [ObjectWrapper(IWbemClassObject *, const WinApiAdaptor &)] and
    [~ObjectWrapper]. *)
Definition ObjectWrapper_new (object : ptr) : M (World Sys) ObjectWrapper :=
  cur ← sp_new object;
  mret (mkObjectWrapper cur).

Definition ObjectWrapper_delete (this : ObjectWrapper) : M (World Sys) unit :=
  sp_release (_current this).

(** [~Result]: its body is empty, the members go. *)
Definition Result_delete (this : Result) : M (World Sys) unit :=
  Result_destroy this.

(** [Result::operator=]; [same] tells whether [reference] is the object
    assigned to. *)
Definition Result_assign (same : bool) (reference : Result)
  : M (Result * World Sys) unit :=
  if same then mret tt
  else
    this ← get_this;
    (if (sp_get (_enumerator this) =? nullptr)%N then mret tt
     else on_world (call_Release (sp_get (_enumerator this))));;
    en ← on_world (sp_assign (_enumerator this) (_enumerator reference));
    set_enumerator en;;
    cur ← on_world (sp_assign (_current (Result_base this))
                      (_current (Result_base reference)));
    set_current cur;;
    set_last_error (_last_error reference).

(** [Variant(const VARIANT &, const WinApiAdaptor &)] and [~Variant]. *)
Record Variant : Type := mkVariant {
  _value : VARIANT
}.

Definition Variant_new (val : VARIANT) : M (World Sys) Variant :=
  mret (mkVariant val).

Definition Variant_delete (this : Variant) : M (World Sys) unit :=
  call_VariantClear (_value this).

(** [~Helper]. *)
Definition Helper_delete (this : Helper) : M (World Sys) unit :=
  (if (_locator this =? nullptr)%N then mret tt
   else call_Release (_locator this));;
  (if (_services this =? nullptr)%N then mret tt
   else call_Release (_services this)).


Definition is_Release_of (p : ptr) (c : Call) : bool :=
  match c with Call_Release q => (q =? p)%N | _ => false end.

Definition is_CoUninitialize (c : Call) : bool :=
  match c with Call_CoUninitialize => true | _ => false end.

Definition is_Next (c : Call) : bool :=
  match c with Call_Next _ _ _ => true | _ => false end.

(** The calls that look the reason of a failure up, when any are made. *)
Definition only_lookup (calls : list Call) : Prop :=
  calls = [] \/
  exists hr info, calls = [Call_GetErrorInfo; Call_ErrorMessage hr info].

(** A shared pointer that owns its object in [w], alone or with others. *)
Definition sp_live (p : shared_ptr) (w : World Sys) : Prop :=
  match sp_block p with
  | None => True
  | Some b => exists n, blocks w !! b = Some (S n)
  end.

(** The control blocks still to come are not in use. *)
Definition blocks_fresh (w : World Sys) : Prop :=
  forall b, (next_block w <= b)%N -> blocks w !! b = None.

End Lifetimes.

(** ** Property names, methods and the proxy blanket

    The calls that [names], [call] and [setProxyBlanket] make: those of
    [oleauto.h] on arrays and strings, and three more of the service.  They
    are recorded in a trace of their own.  An out-parameter that the program
    goes on to read whatever the status of the call is passed in as it was
    and comes back as the call left it. *)

Inductive OleCall : Type :=
| Call_GetNames (object : ptr) (flags : Z)
| Call_SafeArrayGetLBound (array : ptr) (dim : Z)
| Call_SafeArrayGetUBound (array : ptr) (dim : Z)
| Call_SafeArrayGetElement (array : ptr) (index : Z)
| Call_SysFreeString (chars : ptr)
| Call_SafeArrayDestroy (array : ptr)
| Call_GetMethodOrigin (object : ptr) (method : wstring)
| Call_SysAllocString (chars : wstring)
| Call_ExecMethod (services class_name method : ptr) (flags : Z) (in_params : ptr)
| Call_CoSetProxyBlanket (proxy : ptr) (authn authz level impersonation caps : Z).

Class OleApi (Sys : Type) : Type := {
  (** [IWbemClassObject::GetNames]: the status and the array returned. *)
  Object_GetNames : ptr -> Z -> Sys -> HRESULT * ptr * Sys;
  (** The array, the dimension and the bound as it was; the bound as it is. *)
  SafeArrayGetLBound : ptr -> Z -> Z -> Sys -> HRESULT * Z * Sys;
  SafeArrayGetUBound : ptr -> Z -> Z -> Sys -> HRESULT * Z * Sys;
  (** The array, the index and the element as it was; the element as it is. *)
  SafeArrayGetElement : ptr -> Z -> ptr -> Sys -> HRESULT * ptr * Sys;
  (** The characters at an address, up to the terminator. *)
  characters_at : ptr -> Sys -> wstring;
  SysFreeString : ptr -> Sys -> Sys;
  SafeArrayDestroy : ptr -> Sys -> HRESULT * Sys;
  (** [IWbemClassObject::GetMethodOrigin]: the object, the method and the
      class name as it was; the class name as it is. *)
  Object_GetMethodOrigin : ptr -> wstring -> ptr -> Sys -> HRESULT * ptr * Sys;
  SysAllocString : wstring -> Sys -> ptr * Sys;
  (** [IWbemServices::ExecMethod]: the status and the out-parameters
      object. *)
  Services_ExecMethod : ptr -> ptr -> ptr -> Z -> ptr -> Sys -> HRESULT * ptr * Sys;
  CoSetProxyBlanket : ptr -> Z -> Z -> Z -> Z -> Z -> Sys -> HRESULT * Sys
}.

(** The world with the second trace beside it. *)
Record OleWorld (Sys : Type) : Type := mkOleWorld {
  com : World Sys;
  ole_trace : list OleCall
}.

Arguments mkOleWorld {Sys} com ole_trace.
Arguments com {Sys} _.
Arguments ole_trace {Sys} _.

Definition WBEM_FLAG_ALWAYS : Z := 0.
Definition WBEM_FLAG_NONSYSTEM_ONLY : Z := 0x40.
Definition RPC_C_AUTHN_WINNT : Z := 10.
Definition RPC_C_AUTHZ_NONE : Z := 0.
Definition RPC_C_AUTHN_LEVEL_CALL : Z := 3.
Definition LONG_MAX : Z := 2147483647.

Section Automation.

Context {Sys : Type} `{WinApi Sys} `{OleApi Sys} `{Externals}.

(** A step that makes none of these calls. *)
Definition in_com {A : Type} (m : M (World Sys) A) : M (OleWorld Sys) A :=
  fun v => let '(o, w') := m (com v) in (o, mkOleWorld w' (ole_trace v)).

Definition ole_call {A : Type} (c : OleCall) (f : Sys -> A * Sys)
  : M (OleWorld Sys) A :=
  fun v =>
    let '(a, s') := f (os (com v)) in
    (Ok a,
     mkOleWorld (mkWorld s' (blocks (com v)) (next_block (com v)) (trace (com v)))
       (ole_trace v ++ [c])).

Definition call_SysFreeString (p : ptr) : M (OleWorld Sys) unit :=
  ole_call (Call_SysFreeString p) (fun s => (tt, SysFreeString p s)).

(** [wstring(p)]: the characters at [p] are read; a null [p] is
    dereferenced. *)
Definition wstring_of (p : ptr) : M (OleWorld Sys) wstring :=
  if (p =? nullptr)%N then null_deref
  else fun v => (Ok (characters_at p (os (com v))), v).

Definition names_flags : Z := Z.lor WBEM_FLAG_ALWAYS WBEM_FLAG_NONSYSTEM_ONLY.

(** The loop of [names] with [count] indices from [i] on still to visit.  The
    status of [SafeArrayGetElement] is assigned and not read. *)
Fixpoint names_loop (count : nat) (names : ptr) (i : Z) (propName : ptr)
    (result : list wstring) : M (OleWorld Sys) (list wstring) :=
  match count with
  | O => mret result
  | S count' =>
      '(_, propName') ← ole_call (Call_SafeArrayGetElement names i)
          (fun s => let '(res, p, s') := SafeArrayGetElement names i propName s
                    in ((res, p), s'));
      name ← wstring_of propName';
      call_SysFreeString propName';;
      names_loop count' names (i + 1) propName' (result ++ [name])
  end.

(** [Result::names].  [lLower0] and [lUpper0] are what the two bounds, locals
    without an initialiser, hold before the calls that are to set them.  The
    loop visits the indices from the lower bound to the upper one; the index
    is a [long], and an upper bound below [LONG_MAX] keeps its increment in
    range. *)
Definition Result_names (this : Result) (lLower0 lUpper0 : Z)
  : M (OleWorld Sys) (list wstring) :=
  o ← in_com (deref (sp_get (_current (Result_base this))));
  '(res, names) ← ole_call (Call_GetNames o names_flags)
      (fun s => let '(res, p, s') := Object_GetNames o names_flags s in ((res, p), s'));
  if FAILED res
  then in_com (throw_ComException "Failed to retrieve field names" res)
  else
    '(_, lLower) ← ole_call (Call_SafeArrayGetLBound names 1)
        (fun s => let '(res, b, s') := SafeArrayGetLBound names 1 lLower0 s
                  in ((res, b), s'));
    '(_, lUpper) ← ole_call (Call_SafeArrayGetUBound names 1)
        (fun s => let '(res, b, s') := SafeArrayGetUBound names 1 lUpper0 s
                  in ((res, b), s'));
    result ← names_loop (Z.to_nat (lUpper - lLower + 1)) names lLower nullptr [];
    ole_call (Call_SafeArrayDestroy names)
      (fun s => let '(res, s') := SafeArrayDestroy names s in (res, s'));;
    mret result.

(** [Helper::setProxyBlanket]. *)
Definition Helper_setProxyBlanket (services : ptr) : M (OleWorld Sys) unit :=
  res ← ole_call
      (Call_CoSetProxyBlanket services RPC_C_AUTHN_WINNT RPC_C_AUTHZ_NONE
         RPC_C_AUTHN_LEVEL_CALL RPC_C_IMP_LEVEL_IMPERSONATE EOAC_NONE)
      (CoSetProxyBlanket services RPC_C_AUTHN_WINNT RPC_C_AUTHZ_NONE
         RPC_C_AUTHN_LEVEL_CALL RPC_C_IMP_LEVEL_IMPERSONATE EOAC_NONE);
  if FAILED res then in_com (throw_ComException "Failed to set proxy blanket" res)
  else mret tt.

(** [Helper::call].  [className0] is what the class name, a local without an
    initialiser, holds before [GetMethodOrigin].  The status of [ExecMethod]
    is assigned and not read. *)
Definition Helper_call (this : Helper) (result : ObjectWrapper) (method : wstring)
    (className0 : ptr) : M (OleWorld Sys) ObjectWrapper :=
  o ← in_com (deref (sp_get (_current result)));
  '(res, className) ← ole_call (Call_GetMethodOrigin o method)
      (fun s => let '(res, p, s') := Object_GetMethodOrigin o method className0 s
                in ((res, p), s'));
  if FAILED res
  then in_com (throw_ComException
                 ("Failed to determine method origin: " +:+ to_utf8 method) res)
  else
    methodName ← ole_call (Call_SysAllocString method) (SysAllocString method);
    sv ← in_com (deref (_services this));
    '(_, outParams) ← ole_call
        (Call_ExecMethod sv className methodName 0 (sp_get (_current result)))
        (fun s => let '(res, p, s') :=
                    Services_ExecMethod sv className methodName 0
                      (sp_get (_current result)) s
                  in ((res, p), s'));
    call_SysFreeString methodName;;
    in_com (ObjectWrapper_new outParams).

(** The calls of the loop on an array whose elements come out at the
    addresses [ps], from the index [i] on: each element is fetched and then
    freed. *)
Fixpoint element_calls (a : ptr) (i : Z) (ps : list ptr) : list OleCall :=
  match ps with
  | [] => []
  | p :: rest =>
      Call_SafeArrayGetElement a i :: Call_SysFreeString p
        :: element_calls a (i + 1) rest
  end.

End Automation.

(** ** The scripted platform's arrays, strings and methods

    The names of a record are the names of [fields], in an array from index
    0; the element at an index comes out at the address 100 plus the index; a
    field with an empty name cannot be fetched, and a record without fields
    gives no names.  The only method is [Create]; executing it fails. *)

Definition WBEM_E_FAILED : Z := 0x80041001.
Definition DISP_E_BADINDEX : Z := 0x8002000B.

#[global] Instance Script_OleApi : OleApi Script := {|
  Object_GetNames := fun _ _ s =>
    match fields s with
    | [] => (signed_of 32 WBEM_E_FAILED, nullptr, s)
    | _ :: _ => (WBEM_NO_ERROR, 9%N, s)
    end;
  SafeArrayGetLBound := fun _ _ _ s => (0, 0, s);
  SafeArrayGetUBound := fun _ _ _ s => (0, Z.of_nat (length (fields s)) - 1, s);
  SafeArrayGetElement := fun _ i old s =>
    match fields s !! Z.to_nat i with
    | Some ([], _) => (signed_of 32 E_OUTOFMEMORY, old, s)
    | Some (_ :: _, _) => (0, Z.to_N (100 + i), s)
    | None => (signed_of 32 DISP_E_BADINDEX, old, s)
    end;
  characters_at := fun p s =>
    match fields s !! N.to_nat (p - 100) with
    | Some (name, _) => name
    | None => []
    end;
  SysFreeString := fun _ s => s;
  SafeArrayDestroy := fun _ s => (0, s);
  Object_GetMethodOrigin := fun _ method old s =>
    if bool_decide (method = Lstr "Create") then (0, 50%N, s)
    else (signed_of 32 WBEM_E_NOT_FOUND, old, s);
  SysAllocString := fun _ s => (60%N, s);
  Services_ExecMethod := fun _ _ _ _ _ s => (signed_of 32 WBEM_E_FAILED, nullptr, s);
  CoSetProxyBlanket := fun _ _ _ _ _ _ s => (0, s)
|}.

Definition ole_world (w : World Script) : OleWorld Script := mkOleWorld w [].

(** A cursor over [e] that holds the record [obj], in the world of
    [cursor_world]. *)
Definition held_cursor (e obj : ptr) : Result :=
  mkResult (mkObjectWrapper (mk_shared_ptr obj (Some 0%N)))
    (mk_shared_ptr e (Some 1%N)) 0.

(** The cursor that owns nothing. *)
Definition idle_cursor : Result := mkResult (mkObjectWrapper sp_empty) sp_empty 0.

(** A transport failure, then a record. *)
Definition failing_then_record : Script :=
  mkScript [(hard_error, nullptr); (WBEM_NO_ERROR, 7%N)] [] 0 [] (WBEM_NO_ERROR, 5%N).

(** The script once its next reply was handed out. *)
Definition script_tail (s : Script) : Script :=
  mkScript (tl (next_replies s)) (fields s) (coinit_reply s) (cosec_replies s)
    (request_reply s).

(** One more record, at the address 8. *)
Definition another_record : Script :=
  mkScript [(WBEM_NO_ERROR, 8%N)] [] 0 [] (WBEM_NO_ERROR, 5%N).

(** A record whose second field has no name. *)
Definition unnamed_second : Script :=
  mkScript [] [(Lstr "Name", mkVARIANT VT_BSTR 0 (Some (Lstr "System")));
               ([], mkVARIANT VT_NULL 0 None)]
    0 [] (WBEM_NO_ERROR, 5%N).

(** The world once [init] has run in a fresh one. *)
Definition initialised (s : Script) : Statics * World Script :=
  snd (COMManager_init (mkStatics false, script_world s)).

(** The outcomes and the state after [n] calls of [init] in a fresh world. *)
Definition inits (n : nat) (s : Script) : list (outcome unit) * (Statics * World Script) :=
  init_calls n (mkStatics false, script_world s).


(** * Properties *)

(** ** The decoder *)

Lemma is_one_of_cons (c : Z) (tags : list Z) (t : Z) :
  is_one_of (c :: tags) t = false -> (t =? c) = false /\ is_one_of tags t = false.
Proof.
  unfold is_one_of. simpl. intros Hor.
  apply orb_false_iff in Hor. exact Hor.
Qed.

Ltac split_tags :=
  repeat match goal with
         | H : is_one_of (_ :: _) _ = false |- _ =>
             let Hc := fresh "Hc" in
             apply is_one_of_cons in H; destruct H as [Hc H]
         | H : (_ || _)%bool = false |- _ =>
             let Hc := fresh "Hc" in
             apply orb_false_iff in H; destruct H as [Hc H]
         end.

Section Decoder.

Context `{Externals}.

(** C2. A request for a type whose accepted tags do not include the value's
    tag throws [ComTypeException], the decode failure, and never returns a
    value; its message ends with the tag in decimal. *)
Theorem Variant_get_rejects_unlisted (T : cpp_type) (v : VARIANT) :
  accepted T (vt v) = false ->
  Variant_get T v =
    Throw (ComTypeException ("wrong value type requested: " +:+ to_string (vt v))).
Proof.
  intros Hacc.
  destruct T; simpl in Hacc; simpl;
    [ unfold Variant_get_int | unfold Variant_get_bool
    | unfold Variant_get_ULONG | unfold Variant_get_ULONGLONG
    | unfold Variant_get_string | unfold Variant_get_float
    | unfold Variant_get_double | unfold Variant_get_wstring ];
    split_tags;
    repeat match goal with
           | Hc : (_ =? _) = false |- _ => rewrite Hc; clear Hc
           | Hc : negb _ = false |- _ => rewrite Hc; clear Hc
           end;
    reflexivity.
Qed.

End Decoder.

(** ** The decoder on stored integers *)

Lemma signed_of_16 (x : Z) : -32768 <= x < 32768 -> signed_of 16 (unsigned_of 16 x) = x.
Proof.
  unfold signed_of, unsigned_of.
  change (2 ^ 16) with 65536. change (2 ^ (16 - 1)) with 32768.
  intros Hx. rewrite Z.mod_mod by lia.
  destruct (x mod 65536 <? 32768) eqn:Hlt;
    [apply Z.ltb_lt in Hlt | apply Z.ltb_ge in Hlt];
    Z.div_mod_to_equations; lia.
Qed.

Lemma signed_of_32 (x : Z) :
  -2147483648 <= x < 2147483648 -> signed_of 32 x = x.
Proof.
  unfold signed_of.
  change (2 ^ 32) with 4294967296. change (2 ^ (32 - 1)) with 2147483648.
  intros Hx.
  destruct (x mod 4294967296 <? 2147483648) eqn:Hlt;
    [apply Z.ltb_lt in Hlt | apply Z.ltb_ge in Hlt];
    Z.div_mod_to_equations; lia.
Qed.

Lemma unsigned_of_small (w x : Z) : 0 <= x < 2 ^ w -> unsigned_of w x = x.
Proof. intros Hx. unfold unsigned_of. apply Z.mod_small. exact Hx. Qed.

Lemma unsigned_of_idem (w x : Z) :
  0 < w -> unsigned_of w (unsigned_of w x) = unsigned_of w x.
Proof.
  intros Hw. unfold unsigned_of. apply Z.mod_mod.
  apply Z.pow_nonzero; lia.
Qed.

Lemma signed_of_unsigned_of (w x : Z) :
  0 < w -> signed_of w (unsigned_of w x) = signed_of w x.
Proof.
  intros Hw. unfold signed_of, unsigned_of.
  rewrite Z.mod_mod by (apply Z.pow_nonzero; lia). reflexivity.
Qed.

(** Settle the [switch] over a tag that is known. *)
Ltac switch_on_tag :=
  cbn [vt raw bstr];
  repeat match goal with
         | |- context [?a =? ?b] =>
             let r := eval vm_compute in (a =? b) in
             change (a =? b) with r
         end;
  cbv iota.

(** C1. What [get<int>] and [get<ULONG>] give on the 8-bit tags: a value
    stored as signed comes out by its unsigned reading, so -1 comes out as
    255; a value stored as unsigned comes out by its signed reading, so 200
    comes out as -56, and as 4294967240 when asked for as [ULONG].  The 16-bit
    unsigned value 300 comes out as 300. *)
Theorem Variant_get_8bit_members_swapped :
  (forall x, Variant_get_int (stored_I1 x) = Ok (unsigned_of 8 x)) /\
  Variant_get_int (stored_I1 (-1)) = Ok 255 /\
  (forall x, Variant_get_int (stored_UI1 x) = Ok (signed_of 8 x)) /\
  Variant_get_int (stored_UI1 200) = Ok (-56) /\
  Variant_get_ULONG (stored_UI1 200) = Ok 4294967240 /\
  Variant_get_int (stored_UI2 300) = Ok 300.
Proof.
  split; [| split; [reflexivity | split; [| repeat split; reflexivity]]].
  - intros x. unfold Variant_get_int, stored_I1. switch_on_tag. unfold bVal, as_int. cbn [raw].
    rewrite unsigned_of_idem by lia.
    rewrite signed_of_32; [reflexivity |].
    pose proof (Z.mod_pos_bound x (2 ^ 8) eq_refl) as Hb.
    unfold unsigned_of. change (2 ^ 8) with 256 in *. lia.
  - intros x. unfold Variant_get_int, stored_UI1. switch_on_tag. unfold cVal, as_int. cbn [raw].
    rewrite signed_of_unsigned_of by lia. rewrite signed_of_32; [reflexivity |].
    unfold signed_of. change (2 ^ 8) with 256. change (2 ^ (8 - 1)) with 128.
    pose proof (Z.mod_pos_bound x 256 eq_refl) as Hb.
    destruct (x mod 256 <? 128); lia.
Qed.

(** X1. The decoder on the wider integer tags: a stored value in the range of
    its tag comes out as it is, as [int] and as [ULONG]; a 32-bit unsigned
    value asked for as [int] comes out by its signed reading. *)
Theorem Variant_get_wide_integers (x : Z) :
  (-32768 <= x < 32768 -> Variant_get_int (stored_I2 x) = Ok x) /\
  (-2147483648 <= x < 2147483648 -> Variant_get_int (stored_I4 x) = Ok x) /\
  (0 <= x < 65536 -> Variant_get_int (stored_UI2 x) = Ok x) /\
  (0 <= x < 65536 -> Variant_get_ULONG (stored_UI2 x) = Ok x) /\
  (0 <= x < 4294967296 -> Variant_get_ULONG (stored_UI4 x) = Ok x) /\
  Variant_get_int (stored_UI4 x) = Ok (signed_of 32 x).
Proof.
  repeat split.
  - intros Hx. unfold Variant_get_int, stored_I2. switch_on_tag. unfold iVal, as_int. cbn [raw].
    rewrite signed_of_16 by exact Hx. rewrite signed_of_32 by lia. reflexivity.
  - intros Hx. unfold Variant_get_int, stored_I4. switch_on_tag. unfold intVal, as_int. cbn [raw].
    rewrite signed_of_unsigned_of by lia.
    rewrite (signed_of_32 x) by lia. rewrite (signed_of_32 x) by lia. reflexivity.
  - intros Hx. unfold Variant_get_int, stored_UI2. switch_on_tag. unfold uiVal, as_int. cbn [raw].
    rewrite unsigned_of_idem by lia.
    rewrite (unsigned_of_small 16 x) by exact Hx.
    rewrite signed_of_32 by lia. reflexivity.
  - intros Hx. unfold Variant_get_ULONG, stored_UI2. switch_on_tag. unfold uiVal, as_ULONG. cbn [raw].
    rewrite unsigned_of_idem by lia.
    rewrite (unsigned_of_small 16 x) by exact Hx.
    rewrite (unsigned_of_small 32 x) by lia. reflexivity.
  - intros Hx. unfold Variant_get_ULONG, stored_UI4. switch_on_tag. unfold ulVal, as_ULONG. cbn [raw].
    rewrite !unsigned_of_idem by lia.
    rewrite (unsigned_of_small 32 x) by exact Hx. reflexivity.
  - unfold Variant_get_int, stored_UI4. switch_on_tag. unfold intVal, as_int. cbn [raw].
    rewrite signed_of_unsigned_of by lia. rewrite signed_of_32; [reflexivity |].
    unfold signed_of.
    change (2 ^ 32) with 4294967296. change (2 ^ (32 - 1)) with 2147483648.
    pose proof (Z.mod_pos_bound x 4294967296 eq_refl) as Hb.
    destruct (x mod 4294967296 <? 2147483648) eqn:Hlt;
      [apply Z.ltb_lt in Hlt | apply Z.ltb_ge in Hlt]; lia.
Qed.

Section Accepts.

Context `{Externals}.

Ltac tag_is t c :=
  destruct (Z.eqb_spec t c) as [-> | ?];
  [ try (eexists; reflexivity); try discriminate | ].

Ltac no_tag_left :=
  exfalso;
  repeat match goal with
         | Hne : ?t <> ?c |- _ => apply Z.eqb_neq in Hne
         end;
  match goal with
  | Hacc : _ = true |- _ =>
      unfold is_one_of in Hacc; cbn [existsb] in Hacc;
      repeat match goal with
             | Hne : (_ =? _) = false |- _ => rewrite Hne in Hacc; clear Hne
             end;
      try discriminate Hacc
  end.

(** X2. The accepted tags are all that is accepted: a request for a type whose
    accepted tags include the value's tag returns a value, unless the value
    is a string whose pointer is null.  A string with a null pointer asked
    for as a wide string is read through that pointer, and asked for as a
    string it is handed to the transcoder as it is. *)
Theorem Variant_get_accepts_listed (T : cpp_type) (v : VARIANT) :
  accepted T (vt v) = true ->
  (vt v <> VT_BSTR \/ bstrVal v <> None -> exists x, Variant_get T v = Ok x) /\
  (vt v = VT_BSTR -> bstrVal v = None ->
   (T = T_string \/ T = T_wstring) /\
   Variant_get T_wstring v = NullDeref /\
   Variant_get T_string v = to_utf8_null).
Proof.
  destruct v as [t r b]. cbn [vt bstrVal bstr]. intros Hacc. split.
  - intros Hstring.
    assert (Hb : t = VT_BSTR -> exists chars, b = Some chars).
    { intros ->. destruct b as [chars |]; [exists chars; reflexivity |].
      exfalso. destruct Hstring as [Hne | Hne]; apply Hne; reflexivity. }
    clear Hstring.
    destruct T; cbn [accepted] in Hacc; cbn [Variant_get];
      [ unfold Variant_get_int | unfold Variant_get_bool
      | unfold Variant_get_ULONG | unfold Variant_get_ULONGLONG
      | unfold Variant_get_string | unfold Variant_get_float
      | unfold Variant_get_double
      | unfold Variant_get_wstring ]; cbn [vt bstrVal bstr].
    8: { destruct (Z.land t VT_ARRAY =? 0) eqn:Harr; cbn [negb];
           [| eexists; reflexivity].
         destruct (Z.land t VT_VECTOR =? 0) eqn:Hvec; cbn [negb];
           [| eexists; reflexivity].
         cbn [negb orb] in Hacc.
         unfold Variant_get_float, Variant_get_double, Variant_get_int,
           Variant_get_ULONG, Variant_get_ULONGLONG, Variant_get_bool.
         cbn [vt].
         destruct (Z.eqb_spec t VT_BSTR) as [Hstring | ?];
           [destruct (Hb Hstring) as [chars ->]; eexists; reflexivity |].
         tag_is t VT_I1. tag_is t VT_I2. tag_is t VT_I4.
         tag_is t VT_UI1. tag_is t VT_UI2. tag_is t VT_UI4. tag_is t VT_UI8.
         tag_is t VT_R4. tag_is t VT_R8. tag_is t VT_BOOL. tag_is t VT_NULL.
         no_tag_left. }
    5: { destruct (Z.eqb_spec t VT_BSTR) as [Hstring | ?];
           [destruct (Hb Hstring) as [chars ->]; eexists; reflexivity |].
         no_tag_left. }
    all: clear Hb;
      tag_is t VT_I1; tag_is t VT_I2; tag_is t VT_I4; tag_is t VT_UI1; tag_is t VT_UI2;
      tag_is t VT_UI4; tag_is t VT_UI8; tag_is t VT_R4; tag_is t VT_R8; tag_is t VT_BSTR;
      tag_is t VT_BOOL; no_tag_left.
  - intros -> ->. split; [| split; reflexivity].
    destruct T; cbn [accepted] in Hacc; try discriminate Hacc; auto.
Qed.

End Accepts.

(** The accepted tags at two inputs: a 16-bit unsigned value asked for as a
    wide string, and a string with a null pointer. *)
Lemma Variant_get_accepts_listed_run :
  accepted T_wstring VT_UI2 = true /\
  (exists x, Variant_get T_wstring (stored_UI2 300) = Ok x) /\
  accepted T_string VT_BSTR = true /\
  Variant_get T_wstring (mkVARIANT VT_BSTR 0 None) = NullDeref /\
  Variant_get T_string (mkVARIANT VT_BSTR 0 None) = to_utf8_null.
Proof.
  split; [reflexivity |]. split.
  - apply (Variant_get_accepts_listed T_wstring (stored_UI2 300) eq_refl).
    left. discriminate.
  - split; [reflexivity |].
    exact (proj2 (proj2 (Variant_get_accepts_listed T_string (mkVARIANT VT_BSTR 0 None)
                           eq_refl)
                    eq_refl eq_refl)).
Defined.

(** The wider integer tags at one input. *)
Lemma Variant_get_wide_integers_run :
  Variant_get_int (stored_I2 (-300)) = Ok (-300) /\
  Variant_get_ULONG (stored_UI4 4000000000) = Ok 4000000000 /\
  Variant_get_int (stored_UI4 4000000000) = Ok (-294967296).
Proof.
  split; [| split].
  - apply (proj1 (Variant_get_wide_integers (-300))). lia.
  - apply (Variant_get_wide_integers 4000000000). lia.
  - apply (Variant_get_wide_integers 4000000000).
Defined.

(** ** The cursor *)

Section Cursor.

Context {Sys : Type} `{WinApi Sys} `{Externals}.

Lemma releaseInterface_returns (p : ptr) (w : World Sys) :
  exists w', releaseInterface p w = (Ok tt, w').
Proof.
  unfold releaseInterface.
  destruct (p =? nullptr)%N; [exists w; reflexivity |].
  unfold call_Release, platform_call. eexists. reflexivity.
Qed.

Lemma sp_release_returns (p : shared_ptr) (w : World Sys) :
  exists w', sp_release p w = (Ok tt, w').
Proof.
  unfold sp_release.
  destruct (sp_block p) as [b|]; [| exists w; reflexivity].
  destruct (blocks w !! b) as [[|[|n]]|];
    try apply releaseInterface_returns; eexists; reflexivity.
Qed.

Lemma sp_reset_returns (p : shared_ptr) (obj : ptr) (w : World Sys) :
  exists cur w', sp_reset p obj w = (Ok cur, w') /\ sp_get cur = obj.
Proof.
  unfold sp_reset, mbind, M_bind, sp_new.
  match goal with
  | |- context [sp_release p ?w1] =>
      destruct (sp_release_returns p w1) as [w' Hrel]; rewrite Hrel
  end.
  eexists; eexists; split; reflexivity.
Qed.

(** An advance on a collapsed cursor: nothing is asked, nothing moves. *)
Lemma Result_next_null (r : Result) (w : World Sys) :
  sp_get (_enumerator r) = nullptr ->
  Result_next (r, w) = (Ok false, (r, w)).
Proof.
  intros Hnull. unfold Result_next, get_this, mbind, M_bind. simpl.
  rewrite Hnull. reflexivity.
Qed.

(** What an advance does, by the status [Next] answers with. *)
Lemma Result_next_asks (r : Result) (w : World Sys) :
  sp_get (_enumerator r) <> nullptr ->
  forall res obj s',
    Enum_Next (sp_get (_enumerator r)) 2500 1 (os w) = (res, obj, s') ->
    let w1 := after_Next w (sp_get (_enumerator r)) s' in
    Result_next (r, w) =
      if res =? WBEM_NO_ERROR then
        match sp_reset (_current (Result_base r)) obj w1 with
        | (Ok cur, w2) =>
            (Ok true,
             (mkResult (mkObjectWrapper cur) (_enumerator r) (_last_error r), w2))
        | (Throw e, w2) => (Throw e, (r, w2))
        | (NullDeref, w2) => (NullDeref, (r, w2))
        end
      else if res =? WBEM_S_FALSE then (Ok false, (r, w1))
      else if res =? WBEM_S_TIMEDOUT then (Throw (Timeout "WMItimeout"), (r, w1))
      else (Ok false, (mkResult (Result_base r) (_enumerator r) res, w1)).
Proof.
  intros Hen res obj s' Hreply w1.
  unfold Result_next, get_this, mbind, M_bind. simpl.
  apply N.eqb_neq in Hen. rewrite Hen.
  unfold on_world, call_Next, platform_call. simpl. rewrite Hreply.
  fold (after_Next w (sp_get (_enumerator r)) s'). fold w1.
  destruct (res =? WBEM_NO_ERROR).
  - cbn [fst snd].
    destruct (sp_reset (_current (Result_base r)) obj w1) as [[cur| e |] w2];
      reflexivity.
  - destruct (res =? WBEM_S_FALSE); [reflexivity |].
    destruct (res =? WBEM_S_TIMEDOUT); reflexivity.
Qed.

(** An advance that reports no more leaves the record and the enumeration
    handle as they were, and lets go of nothing. *)
Lemma Result_next_false_frame (r r' : Result) (w w' : World Sys) :
  Result_next (r, w) = (Ok false, (r', w')) ->
  Result_base r' = Result_base r /\ _enumerator r' = _enumerator r /\
  blocks w' = blocks w.
Proof.
  intros Hnext.
  destruct (N.eq_dec (sp_get (_enumerator r)) nullptr) as [Hnull | Hen].
  - rewrite (Result_next_null r w Hnull) in Hnext.
    injection Hnext as <- <-. auto.
  - destruct (Enum_Next (sp_get (_enumerator r)) 2500 1 (os w))
      as [[res obj] s'] eqn:Hreply.
    rewrite (Result_next_asks r w Hen res obj s' Hreply) in Hnext.
    destruct (res =? WBEM_NO_ERROR).
    + destruct (sp_reset_returns (_current (Result_base r)) obj
                  (after_Next w (sp_get (_enumerator r)) s'))
        as (cur & w2 & Hreset & _).
      rewrite Hreset in Hnext. discriminate Hnext.
    + destruct (res =? WBEM_S_FALSE).
      * injection Hnext as <- <-. auto.
      * destruct (res =? WBEM_S_TIMEDOUT); [discriminate Hnext |].
        injection Hnext as <- <-. auto.
Qed.

(** The constructor on an enumeration whose first advance reports no more:
    the handle is dropped and no record is current. *)
Lemma Result_new_no_more (e : ptr) (w w1 w2 : World Sys) (r0 r1 : Result) :
  Result_members e w = (Ok r0, w1) ->
  Result_next (r0, w1) = (Ok false, (r1, w2)) ->
  exists r w',
    Result_new e w = (Ok r, w') /\
    _enumerator r = sp_empty /\
    sp_get (_current (Result_base r)) = nullptr /\
    _last_error r = _last_error r1.
Proof.
  intros Hmembers Hnext.
  destruct (Result_next_false_frame r0 r1 w1 w2 Hnext) as (Hbase & _ & _).
  destruct (sp_release_returns (_enumerator r1) w2) as [w' Hrel].
  exists (mkResult (Result_base r1) sp_empty (_last_error r1)), w'.
  split.
  - unfold Result_new, construct. rewrite Hmembers.
    unfold Result_body, mbind, M_bind. rewrite Hnext. simpl.
    unfold on_world, sp_assign_null, mbind, M_bind. simpl.
    rewrite Hrel. reflexivity.
  - repeat split. simpl. rewrite Hbase.
    unfold Result_members, mbind, M_bind, sp_new in Hmembers. simpl in Hmembers.
    injection Hmembers as <- _. reflexivity.
Qed.

Lemma advances_collapsed (r : Result) (w : World Sys) (n : nat) :
  sp_get (_enumerator r) = nullptr ->
  advances n (r, w) = (Ok (repeat false n), (r, w)).
Proof.
  intros Hnull. induction n as [| n IH]; [reflexivity |].
  simpl. unfold mbind, M_bind.
  rewrite (Result_next_null r w Hnull). fold (@mbind (M (Result * World Sys)) _).
  unfold mbind, M_bind. rewrite IH. reflexivity.
Qed.

(** The object the constructor's first advance runs on. *)
Lemma first_advance_asks (e : ptr) (w : World Sys) :
  exists r0 w1,
    Result_members e w = (Ok r0, w1) /\ os w1 = os w /\
    sp_get (_enumerator r0) = e /\
    sp_get (_current (Result_base r0)) = nullptr.
Proof.
  unfold Result_members, mbind, M_bind, sp_new. simpl.
  eexists; eexists. repeat split.
Qed.

(** C3. When the first advance made by the constructor reports no more,
    whatever the reason, the cursor it builds has a null enumeration handle
    and no current record, [valid] is false, and any number of further
    advances report no more and change neither the cursor nor the world; the
    last error is what the first advance left.  A cursor built over an
    enumeration that [Next] ends at once answers [valid] and every advance
    the same way, with the same handle and record. *)
Theorem Result_new_collapses (e : ptr) (w w1 w2 : World Sys) (r0 r1 : Result)
    (e' obj' : ptr) (v : World Sys) (s' : Sys) :
  Result_members e w = (Ok r0, w1) ->
  Result_next (r0, w1) = (Ok false, (r1, w2)) ->
  e' <> nullptr ->
  Enum_Next e' 2500 1 (os v) = (WBEM_S_FALSE, obj', s') ->
  exists r w' q v',
    Result_new e w = (Ok r, w') /\
    _enumerator r = sp_empty /\
    Result_valid r = false /\
    _last_error r = _last_error r1 /\
    (forall n, advances n (r, w') = (Ok (repeat false n), (r, w'))) /\
    Result_new e' v = (Ok q, v') /\
    Result_valid q = Result_valid r /\
    _enumerator q = _enumerator r /\
    sp_get (_current (Result_base q)) = sp_get (_current (Result_base r)) /\
    (forall n, fst (advances n (q, v')) = fst (advances n (r, w'))).
Proof.
  intros Hmembers Hnext He' Hreply.
  destruct (Result_new_no_more e w w1 w2 r0 r1 Hmembers Hnext)
    as (r & w' & Hnew & Hen & Hcur & Hlast).
  destruct (first_advance_asks e' v) as (q0 & v1 & Hq0 & Hos & Hqe & _).
  assert (Hqnext : Result_next (q0, v1) = (Ok false, (q0, after_Next v1 e' s'))).
  { rewrite <- Hqe in He'. rewrite <- Hos, <- Hqe in Hreply.
    rewrite (Result_next_asks q0 v1 He' _ _ _ Hreply). rewrite Hqe. reflexivity. }
  destruct (Result_new_no_more e' v v1 _ q0 q0 Hq0 Hqnext)
    as (q & v' & Hqnew & Hqen & Hqcur & _).
  assert (Hrnull : sp_get (_enumerator r) = nullptr) by (rewrite Hen; reflexivity).
  assert (Hqnull : sp_get (_enumerator q) = nullptr) by (rewrite Hqen; reflexivity).
  exists r, w', q, v'.
  repeat split; try assumption.
  - unfold Result_valid. rewrite Hcur. reflexivity.
  - intros n. apply advances_collapsed, Hrnull.
  - unfold Result_valid. rewrite Hcur, Hqcur. reflexivity.
  - rewrite Hen, Hqen. reflexivity.
  - rewrite Hcur, Hqcur. reflexivity.
  - intros n. rewrite (advances_collapsed r w' n Hrnull).
    rewrite (advances_collapsed q v' n Hqnull). reflexivity.
Qed.

(** C4. With an enumeration handle, a status from [Next] that is neither
    success, nor the end, nor the timeout makes the advance return false
    without throwing: the status becomes the last error, the current record
    and the handle stay, and the call to [Next] is all that happened. *)
Theorem Result_next_records_hard_error (r : Result) (w : World Sys)
    (res : HRESULT) (obj : ptr) (s' : Sys) :
  sp_get (_enumerator r) <> nullptr ->
  Enum_Next (sp_get (_enumerator r)) 2500 1 (os w) = (res, obj, s') ->
  res <> WBEM_NO_ERROR -> res <> WBEM_S_FALSE -> res <> WBEM_S_TIMEDOUT ->
  exists r',
    Result_next (r, w) = (Ok false, (r', after_Next w (sp_get (_enumerator r)) s')) /\
    _last_error r' = res /\
    Result_base r' = Result_base r /\
    _enumerator r' = _enumerator r.
Proof.
  intros Hen Hreply Hne0 Hne1 Hne2.
  exists (mkResult (Result_base r) (_enumerator r) res).
  rewrite (Result_next_asks r w Hen res obj s' Hreply).
  apply Z.eqb_neq in Hne0, Hne1, Hne2.
  rewrite Hne0, Hne1, Hne2. auto.
Qed.

(** C5. With an enumeration handle, the timeout status from [Next] makes the
    advance throw [Timeout], which is neither of the other two failures, and
    the cursor is as it was: record, handle and last error.  An advance made
    again asks [Next] again, and takes the record if it now gets one. *)
Theorem Result_next_timeout (r : Result) (w : World Sys) (obj : ptr) (s' : Sys) :
  sp_get (_enumerator r) <> nullptr ->
  Enum_Next (sp_get (_enumerator r)) 2500 1 (os w) = (WBEM_S_TIMEDOUT, obj, s') ->
  Result_next (r, w) =
    (Throw (Timeout "WMItimeout"), (r, after_Next w (sp_get (_enumerator r)) s')) /\
  (forall what, Timeout "WMItimeout" <> ComException what /\
                Timeout "WMItimeout" <> ComTypeException what) /\
  (forall obj2 s2,
     Enum_Next (sp_get (_enumerator r)) 2500 1 s' = (WBEM_NO_ERROR, obj2, s2) ->
     exists r2 w2,
       Result_next (r, after_Next w (sp_get (_enumerator r)) s') = (Ok true, (r2, w2)) /\
       sp_get (_current (Result_base r2)) = obj2).
Proof.
  intros Hen Hreply. split; [| split].
  - rewrite (Result_next_asks r w Hen _ _ _ Hreply). reflexivity.
  - intros what. split; discriminate.
  - intros obj2 s2 Hagain.
    set (w' := after_Next w (sp_get (_enumerator r)) s').
    assert (Hos : os w' = s') by reflexivity.
    rewrite <- Hos in Hagain.
    rewrite (Result_next_asks r w' Hen _ _ _ Hagain). simpl.
    destruct (sp_reset_returns (_current (Result_base r)) obj2
                (after_Next w' (sp_get (_enumerator r)) s2))
      as (cur & w2 & Hreset & Hcur).
    rewrite Hreset.
    exists (mkResult (mkObjectWrapper cur) (_enumerator r) (_last_error r)), w2.
    split; [reflexivity | exact Hcur].
Qed.

(** A fetch on a record that is there: the three readers by what [Get]
    answers. *)
Lemma ObjectWrapper_reads (this : ObjectWrapper) (key : wstring) (w : World Sys)
    (res : HRESULT) (value : VARIANT) (s' : Sys) :
  sp_get (_current this) <> nullptr ->
  Object_Get (sp_get (_current this)) key (os w) = (res, value, s') ->
  fst (ObjectWrapper_contains this key w) =
    Ok (negb (FAILED res) && negb (vt value =? VT_NULL)) /\
  fst (ObjectWrapper_typeId this key w) = Ok (if FAILED res then 0 else vt value) /\
  (FAILED res = false -> fst (ObjectWrapper_getVarByKey this key w) = Ok value).
Proof.
  intros Hcur Hget. apply N.eqb_neq in Hcur.
  unfold ObjectWrapper_contains, ObjectWrapper_typeId, ObjectWrapper_getVarByKey.
  unfold deref, mbind, M_bind. rewrite Hcur. simpl.
  unfold call_Get, platform_call. rewrite Hget.
  destruct (FAILED res); simpl.
  - repeat split. intros Hfalse. discriminate Hfalse.
  - repeat split.
Qed.

(** An advance that returned true left a cursor with its enumeration handle. *)
Lemma Result_next_true_keeps_handle (r r' : Result) (w w' : World Sys) :
  Result_next (r, w) = (Ok true, (r', w')) ->
  _enumerator r' = _enumerator r /\ sp_get (_enumerator r) <> nullptr.
Proof.
  intros Hnext.
  destruct (N.eq_dec (sp_get (_enumerator r)) nullptr) as [Hnull | Hen].
  - rewrite (Result_next_null r w Hnull) in Hnext. discriminate Hnext.
  - split; [| exact Hen].
    destruct (Enum_Next (sp_get (_enumerator r)) 2500 1 (os w))
      as [[res obj] s'] eqn:Hreply.
    rewrite (Result_next_asks r w Hen res obj s' Hreply) in Hnext.
    destruct (res =? WBEM_NO_ERROR).
    + destruct (sp_reset (_current (Result_base r)) obj
                  (after_Next w (sp_get (_enumerator r)) s')) as [[cur | e |] w2];
        try discriminate Hnext.
      injection Hnext as <- _. reflexivity.
    + destruct (res =? WBEM_S_FALSE); [discriminate Hnext |].
      destruct (res =? WBEM_S_TIMEDOUT); discriminate Hnext.
Qed.

(** C6. After an advance that returned true and left a record, an advance
    that [Next] answers with the end returns false and leaves the cursor as
    it was, the current record included; no handle is let go of, the call to
    [Next] is all that happened, and [contains], [typeId] and [getVarByKey]
    still go to that record and give what its [Get] answers. *)
Theorem Result_next_end_keeps_record (r0 r1 : Result) (w0 w1 : World Sys)
    (obj : ptr) (s2 : Sys) :
  Result_next (r0, w0) = (Ok true, (r1, w1)) ->
  Result_valid r1 = true ->
  Enum_Next (sp_get (_enumerator r1)) 2500 1 (os w1) = (WBEM_S_FALSE, obj, s2) ->
  let w2 := after_Next w1 (sp_get (_enumerator r1)) s2 in
  Result_next (r1, w1) = (Ok false, (r1, w2)) /\
  blocks w2 = blocks w1 /\
  forall key res value s3,
    Object_Get (sp_get (_current (Result_base r1))) key (os w2) = (res, value, s3) ->
    fst (ObjectWrapper_contains (Result_base r1) key w2) =
      Ok (negb (FAILED res) && negb (vt value =? VT_NULL)) /\
    fst (ObjectWrapper_typeId (Result_base r1) key w2) =
      Ok (if FAILED res then 0 else vt value) /\
    (FAILED res = false ->
     fst (ObjectWrapper_getVarByKey (Result_base r1) key w2) = Ok value).
Proof.
  intros Hfirst Hvalid Hreply w2.
  destruct (Result_next_true_keeps_handle r0 r1 w0 w1 Hfirst) as [Hsame Hen].
  rewrite <- Hsame in Hen.
  split; [| split].
  - rewrite (Result_next_asks r1 w1 Hen _ _ _ Hreply). reflexivity.
  - reflexivity.
  - intros key res value s3 Hget.
    apply ObjectWrapper_reads with (s' := s3); [| exact Hget].
    unfold Result_valid in Hvalid. apply negb_true_iff in Hvalid.
    apply N.eqb_neq. exact Hvalid.
Qed.

(** The constructor on an enumeration whose first advance times out. *)
Lemma Result_new_timeout (e obj : ptr) (w : World Sys) (s' : Sys) :
  e <> nullptr ->
  Enum_Next e 2500 1 (os w) = (WBEM_S_TIMEDOUT, obj, s') ->
  exists w', Result_new e w = (Throw (Timeout "WMItimeout"), w').
Proof.
  intros He Hreply.
  destruct (first_advance_asks e w) as (r0 & w1 & Hmembers & Hos & Hr0e & _).
  rewrite <- Hr0e in He. rewrite <- Hos, <- Hr0e in Hreply.
  unfold Result_new, construct. rewrite Hmembers.
  unfold Result_body, mbind, M_bind.
  rewrite (Result_next_asks r0 w1 He _ _ _ Hreply). simpl.
  eexists. reflexivity.
Qed.

(** C10. The constructor does not catch what its first advance throws: on
    the timeout status it leaves by [Timeout], and so do [query] and
    [getClass], whose request the service accepted, when the first [Next] on
    the enumeration they got times out. *)
Theorem first_advance_timeout_propagates (this : Helper) (text : wstring)
    (w : World Sys) (res : HRESULT) (e obj : ptr) (s1 s2 : Sys) :
  _services this <> nullptr ->
  FAILED res = false ->
  e <> nullptr ->
  Enum_Next e 2500 1 s1 = (WBEM_S_TIMEDOUT, obj, s2) ->
  (forall w0, os w0 = s1 ->
     exists w', Result_new e w0 = (Throw (Timeout "WMItimeout"), w')) /\
  (Services_ExecQuery (_services this) (Lstr "WQL") text query_flags (os w)
     = (res, e, s1) ->
   exists w', Helper_query this text w = (Throw (Timeout "WMItimeout"), w')) /\
  (Services_CreateInstanceEnum (_services this) text query_flags (os w)
     = (res, e, s1) ->
   exists w', Helper_getClass this text w = (Throw (Timeout "WMItimeout"), w')).
Proof.
  intros Hsv Hok He Hreply.
  assert (Hnew : forall w0, os w0 = s1 ->
            exists w', Result_new e w0 = (Throw (Timeout "WMItimeout"), w')).
  { intros w0 Hos. rewrite <- Hos in Hreply.
    exact (Result_new_timeout e obj w0 s2 He Hreply). }
  apply N.eqb_neq in Hsv.
  split; [exact Hnew | split]; intros Hrequest.
  - unfold Helper_query, deref, mbind, M_bind. rewrite Hsv. simpl.
    unfold platform_call. rewrite Hrequest, Hok. apply Hnew. reflexivity.
  - unfold Helper_getClass, deref, mbind, M_bind. rewrite Hsv. simpl.
    unfold platform_call. rewrite Hrequest, Hok. apply Hnew. reflexivity.
Qed.

End Cursor.

(** ** The record wrapper and the failures *)

Section Failures.

Context {Sys : Type} `{WinApi Sys} `{Externals}.

(** C7. On a record, [contains] returns and never throws, whatever [Get]
    answers: false when the fetch failed, false when the value fetched has
    the null tag, true otherwise. *)
Theorem ObjectWrapper_contains_total (this : ObjectWrapper) (key : wstring)
    (w : World Sys) (res : HRESULT) (value : VARIANT) (s' : Sys) :
  sp_get (_current this) <> nullptr ->
  Object_Get (sp_get (_current this)) key (os w) = (res, value, s') ->
  exists b w',
    ObjectWrapper_contains this key w = (Ok b, w') /\
    (FAILED res = true -> b = false) /\
    (FAILED res = false -> vt value = VT_NULL -> b = false) /\
    (FAILED res = false -> vt value <> VT_NULL -> b = true).
Proof.
  intros Hcur Hget. apply N.eqb_neq in Hcur.
  unfold ObjectWrapper_contains, deref, mbind, M_bind. rewrite Hcur. simpl.
  unfold call_Get, platform_call. rewrite Hget.
  destruct (FAILED res) eqn:Hfailed; simpl.
  - eexists; eexists. split; [reflexivity |].
    repeat split; intros; try reflexivity; discriminate.
  - eexists; eexists. split; [reflexivity |].
    split; [intros Hno; discriminate Hno |].
    split; intros _ Htag.
    + rewrite Htag. reflexivity.
    + apply Z.eqb_neq in Htag. rewrite Htag. reflexivity.
Qed.

(** The reason of a protocol failure is always found, with no call to the
    platform or with the two calls of the lookup. *)
Lemma resolveError_returns (result : HRESULT) (w : World Sys) :
  exists reason w' calls,
    resolveError result w = (Ok reason, w') /\ trace w' = trace w ++ calls /\
    (calls = [] \/
     exists info, calls = [Call_GetErrorInfo; Call_ErrorMessage result info]).
Proof.
  unfold resolveError.
  repeat match goal with
         | |- context [if ?c then _ else _] =>
             destruct c;
             [eexists; exists w, []; split;
              [reflexivity | split; [rewrite app_nil_r; reflexivity | left; reflexivity]] |]
         end.
  unfold getErrorInfo, platform_call, mbind, M_bind.
  destruct (GetErrorInfo (os w)) as [info s1]. simpl.
  destruct (com_error_ErrorMessage result info s1) as [msg s2].
  eexists; eexists; exists [Call_GetErrorInfo; Call_ErrorMessage result info].
  split; [reflexivity |]. split.
  - simpl. rewrite <- app_assoc. reflexivity.
  - right. exists info. reflexivity.
Qed.

(** Throwing a protocol failure always throws one, and calls the platform
    at most to look the reason up. *)
Lemma throw_ComException_throws {A : Type} (message : string) (result : HRESULT)
    (w : World Sys) :
  exists what w' calls,
    throw_ComException (A := A) message result w = (Throw (ComException what), w') /\
    trace w' = trace w ++ calls /\
    count_calls is_CoInitializeEx calls = 0%nat.
Proof.
  unfold throw_ComException, ComException_new, mbind, M_bind.
  destruct (resolveError_returns result w)
    as (reason & w' & calls & Hres & Htrace & Hcalls).
  rewrite Hres. simpl. eexists; exists w', calls.
  split; [reflexivity |]. split; [exact Htrace |].
  destruct Hcalls as [-> | (info & ->)]; reflexivity.
Qed.

(** X4. On a record, [typeId] gives the tag of the value fetched, and 0 when the
    fetch failed; [getVarByKey] gives the value fetched, and when the fetch
    failed throws a protocol failure whose message names the key, the reason
    and the status. *)
Theorem ObjectWrapper_typeId_getVarByKey (this : ObjectWrapper) (key : wstring)
    (w : World Sys) (res : HRESULT) (value : VARIANT) (s' : Sys) :
  sp_get (_current this) <> nullptr ->
  Object_Get (sp_get (_current this)) key (os w) = (res, value, s') ->
  fst (ObjectWrapper_typeId this key w) = Ok (if FAILED res then 0 else vt value) /\
  (FAILED res = false ->
   fst (ObjectWrapper_getVarByKey this key w) = Ok value) /\
  (FAILED res = true ->
   exists reason,
     fst (ObjectWrapper_getVarByKey this key w) =
       Throw (ComException
                (("Failed to retrieve key: " +:+ to_utf8 key)
                   +:+ ": " +:+ reason +:+ " (" +:+ toStringHex res +:+ ")"))).
Proof.
  intros Hcur Hget. apply N.eqb_neq in Hcur.
  unfold ObjectWrapper_typeId, ObjectWrapper_getVarByKey.
  unfold deref, mbind, M_bind. rewrite Hcur. simpl.
  unfold call_Get, platform_call. rewrite Hget.
  destruct (FAILED res); simpl.
  - split; [reflexivity |]. split; [intros Hno; discriminate Hno |].
    intros _. unfold throw_ComException, ComException_new, mbind, M_bind.
    match goal with
    | |- context [resolveError res ?w0] =>
        destruct (resolveError_returns res w0) as (reason & w' & calls & Hres & _)
    end.
    rewrite Hres. simpl. exists reason. reflexivity.
  - split; [reflexivity |]. split; [reflexivity |].
    intros Hyes. discriminate Hyes.
Qed.

Lemma append_assoc (a b c : string) : ((a +:+ b) +:+ c = a +:+ (b +:+ c))%string.
Proof.
  induction a as [| ch a IH]; [reflexivity |].
  change (String ch ((a +:+ b) +:+ c) = String ch (a +:+ (b +:+ c)))%string.
  f_equal. exact IH.
Qed.

(** A status whose 32 bits are a code with the top bit set is a failure, and
    prints as that code. *)
Lemma FAILED_of_code (hr : HRESULT) (code : Z) :
  unsigned_of 32 hr = code -> 2 ^ 31 <= code -> FAILED hr = true.
Proof.
  unfold FAILED, signed_of, unsigned_of. intros Hcode Hhigh.
  simpl. rewrite Hcode.
  assert (Hrange : 0 <= code < 2 ^ 32).
  { rewrite <- Hcode. apply Z.mod_pos_bound. reflexivity. }
  destruct (code <? 2 ^ (32 - 1)) eqn:Hlt.
  - apply Z.ltb_lt in Hlt. simpl in Hlt. lia.
  - apply Z.ltb_lt. lia.
Qed.

Ltac known_reason :=
  eexists; eexists; split; [reflexivity |]; split; [reflexivity |];
  unfold WBEM_E_INVALID_NAMESPACE, WBEM_E_ACCESS_DENIED,
    WBEM_E_INVALID_CLASS, WBEM_E_INVALID_QUERY in *;
  repeat split; intros; try reflexivity; exfalso; congruence.

(** C8. The message of a protocol failure is the description, a colon, the
    reason, and the status in hexadecimal between brackets; the reason is one
    of four fixed texts for the four known statuses and what the system's
    lookup gives for any other.  A query the service rejects with the
    invalid-query status makes [query] throw a protocol failure whose message
    has the text for it. *)
Theorem ComException_message (message : string) (result : HRESULT) (w : World Sys) :
  (exists reason w',
     resolveError result w = (Ok reason, w') /\
     ComException_new message result w =
       (Ok (ComException
              (message +:+ ": " +:+ reason +:+ " (" +:+ toStringHex result +:+ ")")),
        w') /\
     (unsigned_of 32 result = WBEM_E_INVALID_NAMESPACE ->
      reason = "Invalid Namespace"%string) /\
     (unsigned_of 32 result = WBEM_E_ACCESS_DENIED ->
      reason = "Access Denied"%string) /\
     (unsigned_of 32 result = WBEM_E_INVALID_CLASS ->
      reason = "Invalid Class"%string) /\
     (unsigned_of 32 result = WBEM_E_INVALID_QUERY ->
      reason = "Invalid Query"%string) /\
     (unsigned_of 32 result <> WBEM_E_INVALID_NAMESPACE ->
      unsigned_of 32 result <> WBEM_E_ACCESS_DENIED ->
      unsigned_of 32 result <> WBEM_E_INVALID_CLASS ->
      unsigned_of 32 result <> WBEM_E_INVALID_QUERY ->
      reason =
        fst (com_error_ErrorMessage result (fst (GetErrorInfo (os w)))
               (snd (GetErrorInfo (os w)))))) /\
  (forall (this : Helper) (text : wstring) (e : ptr) (s' : Sys),
     _services this <> nullptr ->
     Services_ExecQuery (_services this) (Lstr "WQL") text query_flags (os w)
       = (result, e, s') ->
     unsigned_of 32 result = WBEM_E_INVALID_QUERY ->
     exists what w',
       Helper_query this text w = (Throw (ComException what), w') /\
       what = (("Failed to execute query " +:+ dquote +:+ to_utf8 text +:+ dquote)
                 +:+ ": " +:+ "Invalid Query" +:+ " (" +:+ "80041017" +:+ ")")%string /\
       exists before after,
         what = (before +:+ "Invalid Query" +:+ after)%string).
Proof.
  split.
  - unfold ComException_new, mbind, M_bind, resolveError.
    destruct (Z.eqb_spec (unsigned_of 32 result) WBEM_E_INVALID_NAMESPACE) as [Hns | Hns];
      [known_reason |].
    destruct (Z.eqb_spec (unsigned_of 32 result) WBEM_E_ACCESS_DENIED) as [Had | Had];
      [known_reason |].
    destruct (Z.eqb_spec (unsigned_of 32 result) WBEM_E_INVALID_CLASS) as [Hcl | Hcl];
      [known_reason |].
    destruct (Z.eqb_spec (unsigned_of 32 result) WBEM_E_INVALID_QUERY) as [Hqu | Hqu];
      [known_reason |].
    unfold getErrorInfo, platform_call, mbind, M_bind.
    destruct (GetErrorInfo (os w)) as [info s1]. simpl.
    destruct (com_error_ErrorMessage result info s1) as [msg s2]. simpl.
    known_reason.
  - intros this text e s' Hsv Hrequest Hcode.
    assert (Hfailed : FAILED result = true).
    { apply (FAILED_of_code result WBEM_E_INVALID_QUERY Hcode). discriminate. }
    apply N.eqb_neq in Hsv.
    unfold Helper_query, deref, mbind, M_bind. rewrite Hsv. simpl.
    unfold platform_call. rewrite Hrequest, Hfailed.
    unfold throw_ComException, ComException_new, resolveError, mbind, M_bind.
    rewrite Hcode. simpl.
    unfold toStringHex. rewrite Hcode.
    eexists; eexists. split; [reflexivity |]. split; [reflexivity |].
    exists (("Failed to execute query " +:+ dquote +:+ to_utf8 text +:+ dquote)
              +:+ ": ")%string,
           " (80041017)"%string.
    rewrite !append_assoc. reflexivity.
Qed.

End Failures.

(** ** The initialisation guard *)

Section Guard.

Context {Sys : Type} `{WinApi Sys} `{Externals}.

Lemma count_calls_app (p : Call -> bool) (t1 t2 : list Call) :
  count_calls p (t1 ++ t2) = (count_calls p t1 + count_calls p t2)%nat.
Proof.
  unfold count_calls. rewrite filter_app, length_app. reflexivity.
Qed.

(** A protocol failure thrown: its message, and the calls made for it. *)
Lemma throw_ComException_message {A : Type} (message : string) (result : HRESULT)
    (w : World Sys) :
  exists reason w' calls,
    throw_ComException (A := A) message result w =
      (Throw (ComException
                (message +:+ ": " +:+ reason +:+ " (" +:+ toStringHex result +:+ ")")),
       w') /\
    trace w' = trace w ++ calls /\ only_lookup calls /\ blocks w' = blocks w.
Proof.
  unfold throw_ComException, ComException_new, mbind, M_bind.
  assert (Hres : exists reason w' calls,
            resolveError result w = (Ok reason, w') /\
            trace w' = trace w ++ calls /\ only_lookup calls /\
            blocks w' = blocks w).
  { unfold resolveError.
    repeat match goal with
           | |- context [if ?c then _ else _] =>
               destruct c;
               [eexists; exists w, []; split; [reflexivity |];
                split; [rewrite app_nil_r; reflexivity |];
                split; [left; reflexivity | reflexivity] |]
           end.
    unfold getErrorInfo, platform_call, mbind, M_bind.
    destruct (GetErrorInfo (os w)) as [info s1]. simpl.
    destruct (com_error_ErrorMessage result info s1) as [msg s2].
    eexists; eexists; exists [Call_GetErrorInfo; Call_ErrorMessage result info].
    split; [reflexivity |]. split; [simpl; rewrite <- app_assoc; reflexivity |].
    split; [right; exists result, info; reflexivity | reflexivity]. }
  destruct Hres as (reason & w' & calls & Hres & Htrace & Hcalls & Hblocks).
  rewrite Hres. simpl. exists reason, w', calls. auto.
Qed.

(** The constructor of the manager either throws a protocol failure, having
    made the first call of the initialisation once, or returns having made
    its two calls, in order, and nothing else. *)
Lemma COMManager_new_outcome (w : World Sys) :
  (exists what w' calls,
     COMManager_new w = (Throw (ComException what), w') /\
     trace w' = trace w ++ Call_CoInitializeEx COINIT_MULTITHREADED :: calls /\
     count_calls is_CoInitializeEx calls = 0%nat) \/
  (exists w', COMManager_new w = (Ok tt, w') /\
              trace w' = trace w ++ init_sequence /\ blocks w' = blocks w).
Proof.
  unfold COMManager_new, mbind, M_bind, platform_call.
  destruct (CoInitializeEx COINIT_MULTITHREADED (os w)) as [res1 s1].
  destruct (FAILED res1).
  - left.
    match goal with
    | |- context [throw_ComException ?m ?r ?w0] =>
        destruct (throw_ComException_throws (A := unit) m r w0)
          as (what & w' & calls & Hthrow & Htrace & Hnone)
    end.
    exists what, w', calls. split; [exact Hthrow |]. split; [| exact Hnone].
    rewrite Htrace. simpl. rewrite <- app_assoc. reflexivity.
  - simpl.
    destruct (CoInitializeSecurity (-1) RPC_C_AUTHN_LEVEL_DEFAULT
                RPC_C_IMP_LEVEL_IMPERSONATE EOAC_NONE s1) as [res2 s2].
    destruct (FAILED res2).
    + left.
      match goal with
      | |- context [throw_ComException ?m ?r ?w0] =>
          destruct (throw_ComException_throws (A := unit) m r w0)
            as (what & w' & calls & Hthrow & Htrace & Hnone)
      end.
      exists what, w', (Call_CoInitializeSecurity (-1) RPC_C_AUTHN_LEVEL_DEFAULT
                          RPC_C_IMP_LEVEL_IMPERSONATE EOAC_NONE :: calls).
      split; [exact Hthrow |]. split.
      * rewrite Htrace. simpl. rewrite <- !app_assoc. reflexivity.
      * change (count_calls is_CoInitializeEx
                  (Call_CoInitializeSecurity (-1) RPC_C_AUTHN_LEVEL_DEFAULT
                     RPC_C_IMP_LEVEL_IMPERSONATE EOAC_NONE :: calls))
          with (count_calls is_CoInitializeEx calls).
        exact Hnone.
    + right. eexists. split; [reflexivity |]. simpl.
      rewrite <- app_assoc. split; reflexivity.
Qed.

(** A call of [init], by how the constructor ends. *)
Lemma COMManager_init_unset (w : World Sys) :
  COMManager_init (mkStatics false, w) =
    match COMManager_new w with
    | (Ok _, w') => (Ok tt, (mkStatics true, w'))
    | (Throw e, w') => (Throw e, (mkStatics false, w'))
    | (NullDeref, w') => (NullDeref, (mkStatics false, w'))
    end.
Proof.
  unfold COMManager_init, get_this, set_this, on_world, mbind, M_bind. simpl.
  destruct (COMManager_new w) as [[[] | e |] w']; reflexivity.
Qed.

Lemma COMManager_init_done (st : Statics) (w : World Sys) :
  s_Instance_initialised st = true ->
  COMManager_init (st, w) = (Ok tt, (st, w)).
Proof.
  intros Hdone. unfold COMManager_init, get_this, mbind, M_bind. simpl.
  rewrite Hdone. reflexivity.
Qed.

Lemma init_calls_done (n : nat) (st : Statics) (w : World Sys) :
  s_Instance_initialised st = true ->
  init_calls n (st, w) = (repeat (Ok tt) n, (st, w)).
Proof.
  intros Hdone. induction n as [| n IH]; [reflexivity |].
  simpl. rewrite (COMManager_init_done st w Hdone), IH. reflexivity.
Qed.

(** Any number of calls of [init], from a static not yet initialised: some
    calls throw, then the first that completes and all after it return; the
    first step of the initialisation has been made once by each call that
    threw and once by the call that completed. *)
Lemma init_calls_shape (n : nat) (w : World Sys) :
  exists failures,
    fst (init_calls n (mkStatics false, w)) =
      map Throw failures ++ repeat (Ok tt) (n - length failures) /\
    (length failures <= n)%nat /\
    Forall (fun e => exists what, e = ComException what) failures /\
    count_calls is_CoInitializeEx (trace (snd (snd (init_calls n (mkStatics false, w))))) =
      (count_calls is_CoInitializeEx (trace w) + length failures
       + (if (length failures <? n)%nat then 1 else 0))%nat.
Proof.
  revert w. induction n as [| n IH]; intros w.
  - exists []. simpl. repeat split; [lia | constructor | lia].
  - change (init_calls (S n) (mkStatics false, w)) with
      (let '(o, s1) := COMManager_init (mkStatics false, w) in
       let '(rest, s2) := init_calls n s1 in (o :: rest, s2)).
    rewrite COMManager_init_unset.
    destruct (COMManager_new_outcome w)
      as [(what & w' & calls & Hnew & Htrace & Hnone) | (w' & Hnew & Htrace & _)];
      rewrite Hnew.
    + destruct (IH w') as (failures & Houts & Hlen & Hkind & Hcount).
      destruct (init_calls n (mkStatics false, w')) as [rest s2].
      simpl in Houts, Hcount. simpl.
      exists (ComException what :: failures). simpl.
      split; [rewrite Houts; reflexivity |].
      split; [lia |].
      split; [constructor; [exists what; reflexivity | exact Hkind] |].
      rewrite Hcount, Htrace, count_calls_app.
      change (count_calls is_CoInitializeEx
                (Call_CoInitializeEx COINIT_MULTITHREADED :: calls))
        with (S (count_calls is_CoInitializeEx calls)).
      rewrite Hnone.
      change (S (length failures) <? S n)%nat with (length failures <? n)%nat.
      lia.
    + rewrite (init_calls_done n (mkStatics true) w' eq_refl).
      exists []. simpl.
      split; [reflexivity |]. split; [lia |]. split; [constructor |].
      rewrite Htrace, count_calls_app.
      change (count_calls is_CoInitializeEx init_sequence) with 1%nat. lia.
Qed.

(** C9, as the code has it. Calls of [init] taken one after the other, from
    a static not yet initialised: the calls that fail throw a protocol
    failure and leave the static uninitialised, the first call that completes
    and all after it return, and the first step of the initialisation has
    been made once by each call that failed and once by the call that
    completed, never after it.  When the first call completes, the two calls
    of the initialisation have been made, in order, once, however many calls
    of [init] follow.  A call fails exactly when a step does: when
    [CoInitializeEx] gives a failure status the call throws "Failed to
    initialize COM" with the reason and the status, without the security
    call; when [CoInitializeSecurity] gives one it throws "Failed to
    initialize COM security"; either way the static stays uninitialised.
    When neither does, the call returns and the static is initialised. *)
Theorem COMManager_init_once (n : nat) (w : World Sys) :
  (exists failures,
     fst (init_calls n (mkStatics false, w)) =
       map Throw failures ++ repeat (Ok tt) (n - length failures) /\
     (length failures <= n)%nat /\
     Forall (fun e => exists what, e = ComException what) failures /\
     count_calls is_CoInitializeEx
       (trace (snd (snd (init_calls n (mkStatics false, w))))) =
       (count_calls is_CoInitializeEx (trace w) + length failures
        + (if (length failures <? n)%nat then 1 else 0))%nat) /\
  (forall (st st' : Statics) (v v' : World Sys) (e : exn),
     COMManager_init (st, v) = (Throw e, (st', v')) ->
     st' = st /\ s_Instance_initialised st = false /\
     (exists what, e = ComException what) /\
     (exists calls,
        trace v' = trace v ++ Call_CoInitializeEx COINIT_MULTITHREADED :: calls)) /\
  (forall (st1 : Statics) (w1 : World Sys),
     COMManager_init (mkStatics false, w) = (Ok tt, (st1, w1)) ->
     s_Instance_initialised st1 = true /\
     trace w1 = trace w ++ init_sequence /\
     init_calls (S n) (mkStatics false, w) = (repeat (Ok tt) (S n), (st1, w1)) /\
     count_calls is_CoInitializeEx (trace w1) =
       S (count_calls is_CoInitializeEx (trace w)) /\
     count_calls is_CoInitializeSecurity (trace w1) =
       S (count_calls is_CoInitializeSecurity (trace w))) /\
  (forall (v : World Sys) (res1 : HRESULT) (s1 : Sys),
     CoInitializeEx COINIT_MULTITHREADED (os v) = (res1, s1) ->
     (FAILED res1 = true ->
      exists reason v' calls,
        COMManager_init (mkStatics false, v) =
          (Throw (ComException
                    ("Failed to initialize COM" +:+ ": " +:+ reason
                       +:+ " (" +:+ toStringHex res1 +:+ ")")),
           (mkStatics false, v')) /\
        trace v' = trace v ++ Call_CoInitializeEx COINIT_MULTITHREADED :: calls /\
        only_lookup calls) /\
     (FAILED res1 = false ->
      forall (res2 : HRESULT) (s2 : Sys),
        CoInitializeSecurity (-1) RPC_C_AUTHN_LEVEL_DEFAULT
          RPC_C_IMP_LEVEL_IMPERSONATE EOAC_NONE s1 = (res2, s2) ->
        (FAILED res2 = true ->
         exists reason v' calls,
           COMManager_init (mkStatics false, v) =
             (Throw (ComException
                       ("Failed to initialize COM security" +:+ ": " +:+ reason
                          +:+ " (" +:+ toStringHex res2 +:+ ")")),
              (mkStatics false, v')) /\
           trace v' = trace v ++ init_sequence ++ calls /\
           only_lookup calls) /\
        (FAILED res2 = false ->
         COMManager_init (mkStatics false, v) =
           (Ok tt,
            (mkStatics true,
             mkWorld s2 (blocks v) (next_block v) (trace v ++ init_sequence)))))).
Proof.
  split; [exact (init_calls_shape n w) | split; [| split]].
  - intros st st' v v' e Hfail.
    destruct (s_Instance_initialised st) eqn:Hst.
    + rewrite (COMManager_init_done st v Hst) in Hfail. discriminate Hfail.
    + destruct st as [flag]. simpl in Hst. subst flag.
      rewrite COMManager_init_unset in Hfail.
      destruct (COMManager_new_outcome v)
        as [(what & w' & calls & Hnew & Htrace & _) | (w' & Hnew & _)];
        rewrite Hnew in Hfail; [| discriminate Hfail].
      injection Hfail as <- <- <-.
      split; [reflexivity |]. split; [reflexivity |].
      split; [exists what; reflexivity |]. exists calls. exact Htrace.
  - intros st1 w1 Hfirst.
    rewrite COMManager_init_unset in Hfirst.
    destruct (COMManager_new_outcome w)
      as [(what & w' & calls & Hnew & _) | (w' & Hnew & Htrace & _)];
      rewrite Hnew in Hfirst; [discriminate Hfirst |].
    injection Hfirst as <- <-.
    split; [reflexivity |]. split; [exact Htrace |]. split; [| split].
    + change (init_calls (S n) (mkStatics false, w)) with
        (let '(o, s1) := COMManager_init (mkStatics false, w) in
         let '(rest, s2) := init_calls n s1 in (o :: rest, s2)).
      rewrite COMManager_init_unset, Hnew.
      rewrite (init_calls_done n (mkStatics true) w' eq_refl). reflexivity.
    + rewrite Htrace, count_calls_app.
      change (count_calls is_CoInitializeEx init_sequence) with 1%nat. lia.
    + rewrite Htrace, count_calls_app.
      change (count_calls is_CoInitializeSecurity init_sequence) with 1%nat. lia.
  - intros v res1 s1 Hex.
    set (v1 := mkWorld s1 (blocks v) (next_block v)
                 (trace v ++ [Call_CoInitializeEx COINIT_MULTITHREADED])).
    assert (Hnew :
      COMManager_new v =
        if FAILED res1 then throw_ComException "Failed to initialize COM" res1 v1
        else
          let '(res2, s2) :=
            CoInitializeSecurity (-1) RPC_C_AUTHN_LEVEL_DEFAULT
              RPC_C_IMP_LEVEL_IMPERSONATE EOAC_NONE s1 in
          if FAILED res2
          then throw_ComException "Failed to initialize COM security" res2
                 (mkWorld s2 (blocks v) (next_block v) (trace v ++ init_sequence))
          else (Ok tt, mkWorld s2 (blocks v) (next_block v) (trace v ++ init_sequence))).
    { unfold COMManager_new. unfold mbind at 1, M_bind at 1.
      unfold platform_call at 1. rewrite Hex.
      destruct (FAILED res1); [reflexivity |].
      unfold mbind at 1, M_bind at 1. unfold platform_call at 1. cbn [os].
      destruct (CoInitializeSecurity (-1) RPC_C_AUTHN_LEVEL_DEFAULT
                  RPC_C_IMP_LEVEL_IMPERSONATE EOAC_NONE s1) as [res2 s2].
      cbn [trace blocks next_block]. rewrite <- app_assoc.
      destruct (FAILED res2); reflexivity. }
    rewrite COMManager_init_unset, Hnew.
    split; intros Hres1; rewrite Hres1.
    + destruct (throw_ComException_message (A := unit) "Failed to initialize COM"
                  res1 v1)
        as (reason & v' & calls & Hthrow & Htrace & Hcalls & _).
      rewrite Hthrow. exists reason, v', calls.
      split; [reflexivity |]. split; [| exact Hcalls].
      rewrite Htrace. unfold v1. cbn [trace]. rewrite <- app_assoc. reflexivity.
    + intros res2 s2 Hsec. rewrite Hsec.
      split; intros Hres2; rewrite Hres2; [| reflexivity].
      destruct (throw_ComException_message (A := unit)
                  "Failed to initialize COM security" res2
                  (mkWorld s2 (blocks v) (next_block v) (trace v ++ init_sequence)))
        as (reason & v' & calls & Hthrow & Htrace & Hcalls & _).
      rewrite Hthrow. exists reason, v', calls.
      split; [reflexivity |]. split; [| exact Hcalls].
      rewrite Htrace. cbn [trace]. rewrite <- app_assoc. reflexivity.
Qed.

End Guard.

(** ** Runs on the scripted platform *)

(** C2 at one input: a string value asked for as an [int]. *)
Lemma Variant_get_rejects_unlisted_run :
  accepted T_int VT_BSTR = false /\
  Variant_get T_int (mkVARIANT VT_BSTR 0 (Some (Lstr "System"))) =
    Throw (ComTypeException "wrong value type requested: 8").
Proof.
  split; [reflexivity |].
  exact (Variant_get_rejects_unlisted T_int (mkVARIANT VT_BSTR 0 (Some (Lstr "System"))) eq_refl).
Defined.

(** C3 at one input: a first advance that fails in transport, beside an
    enumeration with no record. *)
Lemma Result_new_collapses_run :
  Result_members 5%N (script_world (first_reply hard_error))
    = (Ok (a_cursor 5%N), cursor_world (first_reply hard_error)) /\
  fst (Result_next (a_cursor 5%N, cursor_world (first_reply hard_error))) = Ok false /\
  exists r w' q v',
    Result_new 5%N (script_world (first_reply hard_error)) = (Ok r, w') /\
    _enumerator r = sp_empty /\
    Result_valid r = false /\
    _last_error r = hard_error /\
    (forall n, advances n (r, w') = (Ok (repeat false n), (r, w'))) /\
    Result_new 6%N (script_world no_record) = (Ok q, v') /\
    Result_valid q = Result_valid r /\
    _enumerator q = _enumerator r /\
    sp_get (_current (Result_base q)) = sp_get (_current (Result_base r)) /\
    (forall n, fst (advances n (q, v')) = fst (advances n (r, w'))).
Proof.
  split; [reflexivity |]. split; [reflexivity |].
  apply (Result_new_collapses 5%N (script_world (first_reply hard_error))
           (cursor_world (first_reply hard_error))
           (snd (advanced 5%N (first_reply hard_error)))
           (a_cursor 5%N)
           (fst (advanced 5%N (first_reply hard_error)))
           6%N nullptr (script_world no_record) no_record).
  - reflexivity.
  - reflexivity.
  - discriminate.
  - reflexivity.
Defined.

(** C4 at one input: a transport failure on the first advance. *)
Lemma Result_next_records_hard_error_run :
  exists r',
    Result_next (a_cursor 5%N, cursor_world (first_reply hard_error)) =
      (Ok false, (r', after_Next (cursor_world (first_reply hard_error)) 5%N no_record)) /\
    _last_error r' = hard_error /\
    Result_base r' = Result_base (a_cursor 5%N) /\
    _enumerator r' = _enumerator (a_cursor 5%N).
Proof.
  apply (Result_next_records_hard_error (a_cursor 5%N)
           (cursor_world (first_reply hard_error)) hard_error nullptr no_record);
    [discriminate | reflexivity | discriminate | discriminate | discriminate].
Defined.

(** C5 at one input: a timeout on the first advance. *)
Lemma Result_next_timeout_run :
  Result_next (a_cursor 5%N, cursor_world timing_out) =
    (Throw (Timeout "WMItimeout"),
     (a_cursor 5%N, after_Next (cursor_world timing_out) 5%N no_record)).
Proof.
  apply (Result_next_timeout (a_cursor 5%N) (cursor_world timing_out) nullptr no_record);
    [discriminate | reflexivity].
Defined.

(** C6 at one input: one record, then the end; its field [Name] is read
    after the end was reported. *)
Lemma Result_next_end_keeps_record_run :
  Result_next (a_cursor 5%N, cursor_world one_record) = (Ok true, advanced 5%N one_record) /\
  Result_valid (fst (advanced 5%N one_record)) = true /\
  fst (Result_next (advanced 5%N one_record)) = Ok false /\
  fst (snd (Result_next (advanced 5%N one_record))) = fst (advanced 5%N one_record) /\
  fst (ObjectWrapper_contains (Result_base (fst (advanced 5%N one_record))) (Lstr "Name")
         (snd (snd (Result_next (advanced 5%N one_record))))) = Ok true.
Proof.
  pose proof (Result_next_end_keeps_record (a_cursor 5%N) (fst (advanced 5%N one_record))
                (cursor_world one_record) (snd (advanced 5%N one_record))
                nullptr (os (snd (advanced 5%N one_record)))
                eq_refl eq_refl eq_refl) as (Hnext & _ & Hread).
  split; [reflexivity |]. split; [reflexivity |].
  change (advanced 5%N one_record) with
    (fst (advanced 5%N one_record), snd (advanced 5%N one_record)) at 1 4.
  rewrite Hnext. split; [reflexivity |]. split; [reflexivity |].
  apply (Hread (Lstr "Name") WBEM_NO_ERROR (mkVARIANT VT_BSTR 0 (Some (Lstr "System")))
           (os (snd (advanced 5%N one_record)))).
  reflexivity.
Defined.

(** C7 at three inputs: a field with a value, a field holding null, and a
    field the record does not have. *)
Lemma ObjectWrapper_contains_total_run :
  fst (ObjectWrapper_contains a_record (Lstr "Name") (script_world one_record)) = Ok true /\
  fst (ObjectWrapper_contains a_record (Lstr "Parent") (script_world one_record)) = Ok false /\
  fst (ObjectWrapper_contains a_record (Lstr "Size") (script_world one_record)) = Ok false /\
  exists b w',
    ObjectWrapper_contains a_record (Lstr "Size") (script_world one_record) = (Ok b, w') /\
    (FAILED (signed_of 32 WBEM_E_NOT_FOUND) = true -> b = false) /\
    (FAILED (signed_of 32 WBEM_E_NOT_FOUND) = false -> VT_EMPTY = VT_NULL -> b = false) /\
    (FAILED (signed_of 32 WBEM_E_NOT_FOUND) = false -> VT_EMPTY <> VT_NULL -> b = true).
Proof.
  repeat (split; [reflexivity |]).
  apply (ObjectWrapper_contains_total a_record (Lstr "Size") (script_world one_record)
           (signed_of 32 WBEM_E_NOT_FOUND) (mkVARIANT VT_EMPTY 0 None) one_record);
    [discriminate | reflexivity].
Defined.

(** C8 at one input: a query the service rejects as invalid. *)
Lemma ComException_message_run :
  exists what w',
    Helper_query a_helper (Lstr "SELECT")
      (script_world (rejecting (signed_of 32 WBEM_E_INVALID_QUERY)))
      = (Throw (ComException what), w') /\
    what = (("Failed to execute query " +:+ dquote +:+ "SELECT" +:+ dquote)
              +:+ ": Invalid Query (80041017)")%string /\
    exists before after, what = (before +:+ "Invalid Query" +:+ after)%string.
Proof.
  pose proof (proj2 (ComException_message "" (signed_of 32 WBEM_E_INVALID_QUERY)
                      (script_world (rejecting (signed_of 32 WBEM_E_INVALID_QUERY))))
                a_helper (Lstr "SELECT") nullptr
                (rejecting (signed_of 32 WBEM_E_INVALID_QUERY))) as Hrun.
  assert (Hsv : _services a_helper <> nullptr) by discriminate.
  exact (Hrun Hsv eq_refl eq_refl).
Defined.

(** C9 as the code has it, at two inputs: COM initialises, and [init] is
    called three times; COM already runs in the other mode, and [init]
    throws with the static left uninitialised. *)
Lemma COMManager_init_once_run :
  COMManager_init (mkStatics false, script_world no_record) =
    (Ok tt, (mkStatics true, mkWorld no_record ∅ 0%N init_sequence)) /\
  init_calls 3 (mkStatics false, script_world no_record) =
    ([Ok tt; Ok tt; Ok tt],
     (mkStatics true, mkWorld no_record ∅ 0%N init_sequence)) /\
  count_calls is_CoInitializeEx init_sequence = 1%nat /\
  count_calls is_CoInitializeSecurity init_sequence = 1%nat /\
  exists reason v' calls,
    COMManager_init (mkStatics false, script_world wrong_mode) =
      (Throw (ComException
                ("Failed to initialize COM" +:+ ": " +:+ reason
                   +:+ " (" +:+ toStringHex (signed_of 32 RPC_E_CHANGED_MODE) +:+ ")")),
       (mkStatics false, v')) /\
    trace v' = trace (script_world wrong_mode)
                 ++ Call_CoInitializeEx COINIT_MULTITHREADED :: calls /\
    only_lookup calls.
Proof.
  assert (Hfirst : COMManager_init (mkStatics false, script_world no_record) =
            (Ok tt, (mkStatics true, mkWorld no_record ∅ 0%N init_sequence)))
    by reflexivity.
  split; [exact Hfirst |].
  destruct (proj1 (proj2 (proj2 (COMManager_init_once 2 (script_world no_record))))
              (mkStatics true) (mkWorld no_record ∅ 0%N init_sequence) Hfirst)
    as (_ & _ & Hruns & Hex & Hsec).
  split; [exact Hruns |]. split; [exact Hex |]. split; [exact Hsec |].
  assert (Hmode : CoInitializeEx COINIT_MULTITHREADED (os (script_world wrong_mode)) =
            (signed_of 32 RPC_E_CHANGED_MODE, wrong_mode)) by reflexivity.
  exact (proj1 (proj2 (proj2 (proj2 (COMManager_init_once 2 (script_world no_record))))
                  (script_world wrong_mode) (signed_of 32 RPC_E_CHANGED_MODE)
                  wrong_mode Hmode)
           eq_refl).
Defined.

(** C9 does not hold of every sequence of calls.  On a thread COM already
    runs in the other mode, two calls of [init] both throw, the static stays
    uninitialised and [CoInitializeEx] has been called twice.  When the
    security call fails once, the first call of [init] throws and the second
    completes: both steps of the initialisation have run twice. *)
Lemma COMManager_init_runs_again :
  fst (init_calls 2 (mkStatics false, script_world wrong_mode)) =
    [Throw (ComException "Failed to initialize COM: Unknown error (80010106)");
     Throw (ComException "Failed to initialize COM: Unknown error (80010106)")] /\
  fst (snd (init_calls 2 (mkStatics false, script_world wrong_mode))) = mkStatics false /\
  count_calls is_CoInitializeEx
    (trace (snd (snd (init_calls 2 (mkStatics false, script_world wrong_mode))))) = 2%nat /\
  fst (init_calls 2 (mkStatics false, script_world failing_once)) =
    [Throw (ComException "Failed to initialize COM security: Unknown error (8007000e)");
     Ok tt] /\
  trace (snd (snd (init_calls 2 (mkStatics false, script_world failing_once)))) =
    [Call_CoInitializeEx COINIT_MULTITHREADED;
     Call_CoInitializeSecurity (-1) RPC_C_AUTHN_LEVEL_DEFAULT
       RPC_C_IMP_LEVEL_IMPERSONATE EOAC_NONE;
     Call_GetErrorInfo;
     Call_ErrorMessage (signed_of 32 E_OUTOFMEMORY) nullptr;
     Call_CoInitializeEx COINIT_MULTITHREADED;
     Call_CoInitializeSecurity (-1) RPC_C_AUTHN_LEVEL_DEFAULT
       RPC_C_IMP_LEVEL_IMPERSONATE EOAC_NONE] /\
  count_calls is_CoInitializeEx
    (trace (snd (snd (init_calls 2 (mkStatics false, script_world failing_once))))) = 2%nat /\
  count_calls is_CoInitializeSecurity
    (trace (snd (snd (init_calls 2 (mkStatics false, script_world failing_once))))) = 2%nat.
Proof.
  repeat split; vm_compute; reflexivity.
Qed.

(** C10 at one input: a request the service accepts, and a first [Next]
    that times out. *)
Lemma first_advance_timeout_propagates_run :
  (exists w', Result_new 5%N (script_world timing_out) = (Throw (Timeout "WMItimeout"), w')) /\
  (exists w', Helper_query a_helper (Lstr "SELECT") (script_world timing_out)
              = (Throw (Timeout "WMItimeout"), w')) /\
  (exists w', Helper_getClass a_helper (Lstr "Win32_Process") (script_world timing_out)
              = (Throw (Timeout "WMItimeout"), w')).
Proof.
  destruct (first_advance_timeout_propagates a_helper (Lstr "SELECT")
              (script_world timing_out) WBEM_NO_ERROR 5%N nullptr timing_out no_record)
    as (Hnew & Hquery & _);
    [discriminate | reflexivity | discriminate | reflexivity |].
  destruct (first_advance_timeout_propagates a_helper (Lstr "Win32_Process")
              (script_world timing_out) WBEM_NO_ERROR 5%N nullptr timing_out no_record)
    as (_ & _ & Hclass);
    [discriminate | reflexivity | discriminate | reflexivity |].
  split; [apply Hnew; reflexivity |].
  split; [apply Hquery; reflexivity | apply Hclass; reflexivity].
Defined.

(** The two readers at one input: a field the record does not have. *)
Lemma ObjectWrapper_typeId_getVarByKey_run :
  fst (ObjectWrapper_typeId a_record (Lstr "Size") (script_world one_record)) = Ok 0 /\
  fst (ObjectWrapper_getVarByKey a_record (Lstr "Name") (script_world one_record)) =
    Ok (mkVARIANT VT_BSTR 0 (Some (Lstr "System"))) /\
  exists reason,
    fst (ObjectWrapper_getVarByKey a_record (Lstr "Size") (script_world one_record)) =
      Throw (ComException
               ("Failed to retrieve key: Size: " +:+ reason +:+ " (80041002)")).
Proof.
  assert (Hrecord : sp_get (_current a_record) <> nullptr) by discriminate.
  split; [| split].
  - exact (proj1 (ObjectWrapper_typeId_getVarByKey a_record (Lstr "Size")
                    (script_world one_record) (signed_of 32 WBEM_E_NOT_FOUND)
                    (mkVARIANT VT_EMPTY 0 None) one_record Hrecord eq_refl)).
  - reflexivity.
  - exists "Unknown error"%string. reflexivity.
Defined.

(** X3. A query that gives one record with the field [Name] holding "System":
    the cursor is valid, the record has the field, the field decodes to
    "System" as a UTF-8 string, the next advance returns false and the cursor
    is still valid with the same record.  A query that gives no record: the
    cursor is not valid. *)
Lemma query_scenarios :
  fst (queried one_record) = Ok (fst (query_state one_record)) /\
  Result_valid (fst (query_state one_record)) = true /\
  fst (ObjectWrapper_contains (Result_base (fst (query_state one_record)))
         (Lstr "Name") (snd (query_state one_record))) = Ok true /\
  fst (ObjectWrapper_getVarByKey (Result_base (fst (query_state one_record)))
         (Lstr "Name") (snd (query_state one_record))) =
    Ok (mkVARIANT VT_BSTR 0 (Some (Lstr "System"))) /\
  Variant_get_string (mkVARIANT VT_BSTR 0 (Some (Lstr "System"))) = Ok "System"%string /\
  fst (Result_next (query_state one_record)) = Ok false /\
  Result_valid (fst (snd (Result_next (query_state one_record)))) = true /\
  Result_base (fst (snd (Result_next (query_state one_record)))) =
    Result_base (fst (query_state one_record)) /\
  fst (queried no_record) = Ok (fst (query_state no_record)) /\
  Result_valid (fst (query_state no_record)) = false.
Proof.
  repeat split; vm_compute; reflexivity.
Qed.

(** * Ownership, sessions and property names *)

(** ** The cursor's handles *)

Section Handles.

Context {Sys : Type} `{WinApi Sys} `{Externals}.


(** What letting go of a shared pointer does, by its use count. *)
Lemma sp_release_shared (p : shared_ptr) (w : World Sys) (b : N) (n : nat) :
  sp_block p = Some b -> blocks w !! b = Some (S (S n)) ->
  sp_release p w =
    (Ok tt, mkWorld (os w) (<[b := S n]> (blocks w)) (next_block w) (trace w)).
Proof.
  intros Hb Hcount. unfold sp_release. rewrite Hb, Hcount. reflexivity.
Qed.

Lemma sp_release_last (p : shared_ptr) (w : World Sys) (b : N) :
  sp_block p = Some b -> blocks w !! b = Some 1%nat -> sp_get p <> nullptr ->
  sp_release p w =
    (Ok tt, mkWorld (Unknown_Release (sp_get p) (os w)) (delete b (blocks w))
              (next_block w) (trace w ++ [Call_Release (sp_get p)])).
Proof.
  intros Hb Hcount Hp. unfold sp_release. rewrite Hb, Hcount.
  unfold releaseInterface. apply N.eqb_neq in Hp. rewrite Hp. reflexivity.
Qed.

Lemma sp_release_last_null (p : shared_ptr) (w : World Sys) (b : N) :
  sp_block p = Some b -> blocks w !! b = Some 1%nat -> sp_get p = nullptr ->
  sp_release p w =
    (Ok tt, mkWorld (os w) (delete b (blocks w)) (next_block w) (trace w)).
Proof.
  intros Hb Hcount Hp. unfold sp_release. rewrite Hb, Hcount.
  unfold releaseInterface. rewrite Hp. reflexivity.
Qed.

(** Letting go of a shared pointer calls [Release] at most once, on its
    object, and never on null. *)
Lemma sp_release_trace (p : shared_ptr) (w : World Sys) :
  exists calls,
    trace (snd (sp_release p w)) = trace w ++ calls /\
    (calls = [] \/ (calls = [Call_Release (sp_get p)] /\ sp_get p <> nullptr)).
Proof.
  unfold sp_release.
  destruct (sp_block p) as [b |];
    [| exists []; rewrite app_nil_r; auto].
  destruct (blocks w !! b) as [[| [| n]] |];
    try (exists []; simpl; rewrite app_nil_r; auto; fail);
    unfold releaseInterface;
    destruct (N.eqb_spec (sp_get p) nullptr) as [Hp | Hp];
    try (exists []; simpl; rewrite app_nil_r; auto; fail);
    exists [Call_Release (sp_get p)]; simpl; auto.
Qed.

Lemma sp_reset_trace (p : shared_ptr) (obj : ptr) (w : World Sys) :
  exists calls,
    trace (snd (sp_reset p obj w)) = trace w ++ calls /\
    (calls = [] \/ (calls = [Call_Release (sp_get p)] /\ sp_get p <> nullptr)).
Proof.
  unfold sp_reset, mbind, M_bind, sp_new.
  match goal with
  | |- context [sp_release p ?w1] =>
      destruct (sp_release_trace p w1) as (calls & Htrace & Hcalls);
      destruct (sp_release_returns p w1) as [w' Hrel];
      rewrite Hrel in *
  end.
  exists calls. split; [exact Htrace | exact Hcalls].
Qed.

(** X5. An advance never changes the enumeration handle; it changes the
    current record only when it returns true; and an advance that returns
    true leaves the last error as it was, so that an error recorded once
    outlives the successful advances that follow. *)
Theorem Result_next_frame (r : Result) (w : World Sys) :
  _enumerator (fst (snd (Result_next (r, w)))) = _enumerator r /\
  (fst (Result_next (r, w)) = Ok true \/
   Result_base (fst (snd (Result_next (r, w)))) = Result_base r) /\
  (fst (Result_next (r, w)) = Ok true ->
   _last_error (fst (snd (Result_next (r, w)))) = _last_error r).
Proof.
  destruct (N.eq_dec (sp_get (_enumerator r)) nullptr) as [Hnull | Hen].
  - rewrite (Result_next_null r w Hnull). simpl. auto.
  - destruct (Enum_Next (sp_get (_enumerator r)) 2500 1 (os w))
      as [[res obj] s'] eqn:Hreply.
    rewrite (Result_next_asks r w Hen res obj s' Hreply).
    destruct (res =? WBEM_NO_ERROR).
    + destruct (sp_reset_returns (_current (Result_base r)) obj
                  (after_Next w (sp_get (_enumerator r)) s'))
        as (cur & w2 & Hreset & _).
      rewrite Hreset. simpl. auto.
    + destruct (res =? WBEM_S_FALSE); [simpl; split; [| split]; auto; discriminate |].
      destruct (res =? WBEM_S_TIMEDOUT); simpl; split; try split; auto; discriminate.
Qed.

(** X6. A cursor that keeps its enumeration handle is not closed by an advance
    that returned false, whether [Next] ended the enumeration or failed: the
    next advance calls [Next] again, and takes the record if it gets one. *)
Theorem Result_next_not_latched (r : Result) (w : World Sys)
    (res : HRESULT) (obj obj2 : ptr) (s1 s2 : Sys) :
  sp_get (_enumerator r) <> nullptr ->
  Enum_Next (sp_get (_enumerator r)) 2500 1 (os w) = (res, obj, s1) ->
  res <> WBEM_NO_ERROR -> res <> WBEM_S_TIMEDOUT ->
  Enum_Next (sp_get (_enumerator r)) 2500 1 s1 = (WBEM_NO_ERROR, obj2, s2) ->
  exists r1 w1 r2 w2,
    Result_next (r, w) = (Ok false, (r1, w1)) /\
    Result_next (r1, w1) = (Ok true, (r2, w2)) /\
    sp_get (_current (Result_base r2)) = obj2 /\
    count_calls is_Next (trace w2) = S (S (count_calls is_Next (trace w))).
Proof.
  intros Hen Hreply Hne0 Hne2 Hagain.
  pose proof (Result_next_asks r w Hen res obj s1 Hreply) as Hfirst.
  apply Z.eqb_neq in Hne0, Hne2. rewrite Hne0, Hne2 in Hfirst. simpl in Hfirst.
  set (e := sp_get (_enumerator r)) in *.
  assert (Hstep : exists r1,
            Result_next (r, w) = (Ok false, (r1, after_Next w e s1)) /\
            _enumerator r1 = _enumerator r /\ Result_base r1 = Result_base r).
  { destruct (res =? WBEM_S_FALSE); eexists; (split; [exact Hfirst |]); split; reflexivity. }
  destruct Hstep as (r1 & Hnext1 & Hsame & Hbase).
  assert (Hen1 : sp_get (_enumerator r1) <> nullptr) by (rewrite Hsame; exact Hen).
  assert (Hreply2 : Enum_Next (sp_get (_enumerator r1)) 2500 1 (os (after_Next w e s1))
                    = (WBEM_NO_ERROR, obj2, s2)).
  { rewrite Hsame. exact Hagain. }
  pose proof (Result_next_asks r1 (after_Next w e s1) Hen1 _ _ _ Hreply2) as Hsecond.
  simpl in Hsecond.
  destruct (sp_reset (_current (Result_base r1)) obj2
              (after_Next (after_Next w e s1) (sp_get (_enumerator r1)) s2))
    as [o w2] eqn:Hreset.
  destruct (sp_reset_returns (_current (Result_base r1)) obj2
              (after_Next (after_Next w e s1) (sp_get (_enumerator r1)) s2))
    as (cur & w2' & Hreset' & Hcur).
  rewrite Hreset in Hreset'. injection Hreset' as -> ->.
  exists r1, (after_Next w e s1),
    (mkResult (mkObjectWrapper cur) (_enumerator r1) (_last_error r1)), w2'.
  split; [exact Hnext1 |]. split; [exact Hsecond |]. split; [exact Hcur |].
  destruct (sp_reset_trace (_current (Result_base r1)) obj2
              (after_Next (after_Next w e s1) (sp_get (_enumerator r1)) s2))
    as (calls & Htrace & Hcalls).
  rewrite Hreset in Htrace. simpl in Htrace. rewrite Htrace.
  rewrite !count_calls_app.
  assert (Hnone : count_calls is_Next calls = 0%nat)
    by (destruct Hcalls as [-> | [-> _]]; reflexivity).
  rewrite Hnone.
  change (count_calls is_Next [Call_Next e 2500 1]) with 1%nat.
  change (count_calls is_Next [Call_Next (sp_get (_enumerator r1)) 2500 1]) with 1%nat.
  lia.
Qed.


(** X7. An advance that gets a record lets go of the record it held: its
    [Release] is called, once, when the cursor was the last owner, and not
    at all while a copy of the cursor still holds it; the enumeration handle
    is never released by an advance. *)
Theorem Result_next_releases_previous (r : Result) (w : World Sys)
    (obj : ptr) (s' : Sys) (b : N) :
  sp_get (_enumerator r) <> nullptr ->
  Enum_Next (sp_get (_enumerator r)) 2500 1 (os w) = (WBEM_NO_ERROR, obj, s') ->
  sp_block (_current (Result_base r)) = Some b ->
  sp_get (_current (Result_base r)) <> nullptr ->
  blocks_fresh w ->
  (blocks w !! b = Some 1%nat ->
   exists r' w',
     Result_next (r, w) = (Ok true, (r', w')) /\
     trace w' = trace w ++ [Call_Next (sp_get (_enumerator r)) 2500 1;
                            Call_Release (sp_get (_current (Result_base r)))] /\
     blocks w' !! b = None) /\
  (forall n, blocks w !! b = Some (S (S n)) ->
   exists r' w',
     Result_next (r, w) = (Ok true, (r', w')) /\
     trace w' = trace w ++ [Call_Next (sp_get (_enumerator r)) 2500 1] /\
     blocks w' !! b = Some (S n)).
Proof.
  intros Hen Hreply Hb Hcur Hfresh.
  pose proof (Result_next_asks r w Hen _ _ _ Hreply) as Hnext. simpl in Hnext.
  assert (Hbnew : forall k, blocks w !! b = Some k -> b <> next_block w).
  { intros k Hk ->. rewrite (Hfresh (next_block w) (N.le_refl _)) in Hk.
    discriminate Hk. }
  unfold sp_reset, mbind, M_bind, sp_new in Hnext. simpl in Hnext.
  split.
  - intros Hcount. specialize (Hbnew _ Hcount).
    rewrite (sp_release_last (_current (Result_base r)) _ b Hb) in Hnext;
      [| simpl; rewrite lookup_insert_ne by congruence; exact Hcount | exact Hcur].
    eexists; eexists. split; [exact Hnext |]. simpl.
    split; [rewrite <- app_assoc; reflexivity |].
    apply lookup_delete_eq.
  - intros n Hcount. specialize (Hbnew _ Hcount).
    rewrite (sp_release_shared (_current (Result_base r)) _ b n Hb) in Hnext;
      [| simpl; rewrite lookup_insert_ne by congruence; exact Hcount].
    eexists; eexists. split; [exact Hnext |]. simpl.
    split; [reflexivity |]. apply lookup_insert_eq.
Qed.

(** A copy of a live shared pointer, let go again, leaves the world as it
    was. *)
Lemma sp_copy_release (p : shared_ptr) (w : World Sys) :
  sp_live p w ->
  exists w1, sp_copy p w = (Ok p, w1) /\ sp_release p w1 = (Ok tt, w) /\
             os w1 = os w /\ trace w1 = trace w /\ next_block w1 = next_block w /\
             forall q, sp_live q w -> sp_live q w1.
Proof.
  unfold sp_live, sp_copy. destruct (sp_block p) as [b |] eqn:Hb.
  - intros [n Hn]. eexists. split; [reflexivity |].
    split; [| split; [reflexivity | split; [reflexivity | split; [reflexivity |]]]].
    + rewrite (sp_release_shared p _ b n Hb);
        [| simpl; rewrite lookup_alter_eq, Hn; reflexivity].
      simpl. destruct w as [s m nb t]. simpl in *. f_equal. f_equal.
      apply map_eq. intros i. destruct (decide (b = i)) as [<- | Hne].
      * rewrite lookup_insert_eq. symmetry. exact Hn.
      * rewrite lookup_insert_ne, lookup_alter_ne by exact Hne. reflexivity.
    + intros q. simpl. destruct (sp_block q) as [c |]; [| trivial].
      intros [k Hk]. destruct (decide (b = c)) as [<- | Hne].
      * exists (S k). rewrite lookup_alter_eq, Hk. reflexivity.
      * exists k. rewrite lookup_alter_ne by exact Hne. exact Hk.
  - intros _. exists w. split; [reflexivity |].
    split; [unfold sp_release; rewrite Hb; reflexivity |]. auto.
Qed.

(** X8. A copy of a cursor holds the same record, handle and last error; made
    and destroyed again, it leaves the use counts as they were and calls
    nothing: no handle is released while the cursor it was copied from
    lives. *)
Theorem Result_copy_delete (r : Result) (w : World Sys) :
  sp_live (_current (Result_base r)) w ->
  sp_live (_enumerator r) w ->
  exists w1,
    Result_copy r w = (Ok r, w1) /\
    trace w1 = trace w /\
    Result_delete r w1 = (Ok tt, w).
Proof.
  intros Hcur Hen.
  destruct (sp_copy_release (_current (Result_base r)) w Hcur)
    as (w1 & Hcopy1 & Hrel1 & Hos1 & Htrace1 & Hnb1 & Hlive1).
  destruct (sp_copy_release (_enumerator r) w1 (Hlive1 _ Hen))
    as (w2 & Hcopy2 & Hrel2 & Hos2 & Htrace2 & Hnb2 & Hlive2).
  exists w2. split; [| split].
  - unfold Result_copy, ObjectWrapper_copy, mbind, M_bind.
    rewrite Hcopy1. simpl. rewrite Hcopy2. simpl.
    destruct r as [[cur] en le]. reflexivity.
  - rewrite Htrace2. exact Htrace1.
  - unfold Result_delete, Result_destroy, mbind, M_bind.
    rewrite Hrel2. exact Hrel1.
Qed.

(** X9. A cursor built over an enumeration and destroyed, with no copy made:
    when the first advance got a record, the enumeration and the record are
    released once each, at the destruction; when the first advance reported
    no more, the enumeration is released once, by the constructor, and the
    destruction calls nothing.  Either way no control block is left. *)
Theorem Result_new_delete_balanced (e obj : ptr) (w : World Sys)
    (res : HRESULT) (s' : Sys) :
  e <> nullptr ->
  blocks_fresh w ->
  Enum_Next e 2500 1 (os w) = (res, obj, s') ->
  res <> WBEM_S_TIMEDOUT ->
  (res = WBEM_NO_ERROR -> obj <> nullptr) ->
  exists r w1 w2,
    Result_new e w = (Ok r, w1) /\
    Result_delete r w1 = (Ok tt, w2) /\
    blocks w2 = blocks w /\
    (res = WBEM_NO_ERROR ->
     trace w1 = trace w ++ [Call_Next e 2500 1] /\
     trace w2 = trace w1 ++ [Call_Release e; Call_Release obj]) /\
    (res <> WBEM_NO_ERROR ->
     trace w1 = trace w ++ [Call_Next e 2500 1; Call_Release e] /\
     trace w2 = trace w1).
Proof.
  intros He Hfresh Hreply Hne2 Hobj.
  destruct w as [s m nb t]. unfold blocks_fresh in Hfresh. simpl in Hfresh, Hreply.
  cbn [blocks trace].
  assert (Hf0 : m !! nb = None) by (apply Hfresh; lia).
  assert (Hf1 : m !! N.succ nb = None) by (apply Hfresh; lia).
  assert (Hf2 : m !! N.succ (N.succ nb) = None) by (apply Hfresh; lia).
  set (r0 := mkResult (mkObjectWrapper (mk_shared_ptr nullptr (Some nb)))
               (mk_shared_ptr e (Some (N.succ nb))) last_error_unset).
  set (m1 := <[N.succ nb := 1%nat]> (<[nb := 1%nat]> m)).
  set (w0 := mkWorld s m1 (N.succ (N.succ nb)) t).
  assert (Hmembers : Result_members e (mkWorld s m nb t) = (Ok r0, w0)) by reflexivity.
  assert (Hen0 : sp_get (_enumerator r0) <> nullptr) by exact He.
  assert (Hreply0 : Enum_Next (sp_get (_enumerator r0)) 2500 1 (os w0) = (res, obj, s'))
    by exact Hreply.
  pose proof (Result_next_asks r0 w0 Hen0 _ _ _ Hreply0) as Hnext.
  unfold Result_new, construct. rewrite Hmembers.
  unfold Result_body, mbind, M_bind. rewrite Hnext. clear Hnext.
  unfold Result_delete, Result_destroy.
  destruct (Z.eqb_spec res WBEM_NO_ERROR) as [-> | Hne0].
  - specialize (Hobj eq_refl).
    unfold sp_reset, mbind, M_bind, sp_new. simpl.
    rewrite (sp_release_last_null (mk_shared_ptr nullptr (Some nb)) _ nb eq_refl);
      [| simpl; subst m1;
         rewrite lookup_insert_ne, lookup_insert_ne, lookup_insert_eq by lia;
         reflexivity
       | reflexivity].
    simpl. eexists; eexists; eexists. split; [reflexivity |].
    rewrite (sp_release_last (mk_shared_ptr e (Some (N.succ nb))) _ (N.succ nb) eq_refl);
      [| simpl; subst m1;
         rewrite lookup_delete_ne, lookup_insert_ne, lookup_insert_eq by lia;
         reflexivity
       | exact He].
    simpl.
    rewrite (sp_release_last (mk_shared_ptr obj (Some (N.succ (N.succ nb)))) _
               (N.succ (N.succ nb)) eq_refl);
      [| simpl; subst m1;
         rewrite lookup_delete_ne, lookup_delete_ne, lookup_insert_eq by lia;
         reflexivity
       | exact Hobj].
    simpl. split; [reflexivity |]. split; [| split].
    + subst m1. cbn [blocks]. apply map_eq. intros i.
      destruct (decide (i = N.succ (N.succ nb))) as [-> | Hi2];
        [rewrite lookup_delete_eq; symmetry; exact Hf2 |].
      rewrite lookup_delete_ne by congruence.
      destruct (decide (i = N.succ nb)) as [-> | Hi1];
        [rewrite lookup_delete_eq; symmetry; exact Hf1 |].
      rewrite lookup_delete_ne by congruence.
      destruct (decide (i = nb)) as [-> | Hi0];
        [rewrite lookup_delete_eq; symmetry; exact Hf0 |].
      rewrite lookup_delete_ne by congruence.
      rewrite !lookup_insert_ne by congruence. reflexivity.
    + intros _. split; [reflexivity |]. rewrite <- app_assoc. reflexivity.
    + intros Hno. exfalso. apply Hno. reflexivity.
  - cbv iota.
    assert (Hfalse : exists r1,
              (if res =? WBEM_S_FALSE
               then (Ok false, (r0, after_Next w0 (sp_get (_enumerator r0)) s'))
               else if res =? WBEM_S_TIMEDOUT
                    then (Throw (Timeout "WMItimeout"),
                          (r0, after_Next w0 (sp_get (_enumerator r0)) s'))
                    else (Ok false,
                          (mkResult (Result_base r0) (_enumerator r0) res,
                           after_Next w0 (sp_get (_enumerator r0)) s')))
              = (Ok false, (r1, after_Next w0 e s')) /\
              _enumerator r1 = mk_shared_ptr e (Some (N.succ nb)) /\
              Result_base r1 = mkObjectWrapper (mk_shared_ptr nullptr (Some nb))).
    { apply Z.eqb_neq in Hne2. rewrite Hne2.
      destruct (res =? WBEM_S_FALSE); eexists; split; try reflexivity; split; reflexivity. }
    destruct Hfalse as (r1 & -> & Hen1 & Hbase1). simpl.
    unfold on_world, sp_assign_null, mbind, M_bind. simpl. rewrite Hen1.
    rewrite (sp_release_last (mk_shared_ptr e (Some (N.succ nb))) _ (N.succ nb) eq_refl);
      [| simpl; subst m1; rewrite lookup_insert_eq; reflexivity | exact He].
    simpl. eexists; eexists; eexists. split; [reflexivity |].
    unfold sp_release at 1. simpl. rewrite Hbase1. simpl.
    rewrite (sp_release_last_null (mk_shared_ptr nullptr (Some nb)) _ nb eq_refl);
      [| simpl; subst m1;
         rewrite lookup_delete_ne, lookup_insert_ne, lookup_insert_eq by lia;
         reflexivity
       | reflexivity].
    simpl. split; [reflexivity |]. split; [| split].
    + subst m1. cbn [blocks]. apply map_eq. intros i.
      destruct (decide (i = nb)) as [-> | Hi0];
        [rewrite lookup_delete_eq; symmetry; exact Hf0 |].
      rewrite lookup_delete_ne by congruence.
      destruct (decide (i = N.succ nb)) as [-> | Hi1];
        [rewrite lookup_delete_eq; symmetry; exact Hf1 |].
      rewrite lookup_delete_ne by congruence.
      rewrite !lookup_insert_ne by congruence. reflexivity.
    + intros Hyes. contradiction.
    + intros _. split; [rewrite <- app_assoc; reflexivity | reflexivity].
Qed.

End Handles.

(** ** Assignment *)

Section Assignment.

Context {Sys : Type} `{WinApi Sys} `{Externals}.

(** The world once [Release] has been called on [p]. *)
Lemma call_Release_run (p : ptr) (w : World Sys) :
  call_Release p w =
    (Ok tt, mkWorld (Unknown_Release p (os w)) (blocks w) (next_block w)
              (trace w ++ [Call_Release p])).
Proof. reflexivity. Qed.

(** Assigning a shared pointer returns the pointer assigned; it calls
    [Release] at most once, on what was held, and leaves the use counts of
    the other control blocks alone. *)
Lemma sp_assign_run (p q : shared_ptr) (w : World Sys) :
  exists w' calls,
    sp_assign p q w = (Ok q, w') /\
    trace w' = trace w ++ calls /\
    (calls = [] \/ (calls = [Call_Release (sp_get p)] /\ sp_get p <> nullptr)) /\
    (forall b, sp_block p <> Some b -> sp_block q <> Some b ->
               blocks w' !! b = blocks w !! b).
Proof.
  unfold sp_assign, mbind, M_bind.
  assert (Hcopy : exists w1, sp_copy q w = (Ok q, w1) /\ trace w1 = trace w /\
            forall b, sp_block q <> Some b -> blocks w1 !! b = blocks w !! b).
  { unfold sp_copy. destruct (sp_block q) as [c |]; eexists; split; try reflexivity;
      split; try reflexivity; intros b Hb; simpl; try reflexivity.
    apply lookup_alter_ne. congruence. }
  destruct Hcopy as (w1 & -> & Htrace1 & Hblocks1).
  destruct (sp_release_returns p w1) as [w' Hrel].
  destruct (sp_release_trace p w1) as (calls & Htrace & Hcalls).
  rewrite Hrel in *. simpl in Htrace.
  exists w', calls. split; [reflexivity |].
  split; [rewrite Htrace, Htrace1; reflexivity |]. split; [exact Hcalls |].
  intros b Hp Hq. rewrite <- (Hblocks1 b Hq).
  unfold sp_release in Hrel. destruct (sp_block p) as [c |].
  - destruct (blocks w1 !! c) as [[| [| n]] |]; unfold releaseInterface in Hrel;
      try destruct (sp_get p =? nullptr)%N;
      injection Hrel as <-; simpl;
      try reflexivity;
      try (apply lookup_delete_ne; congruence);
      apply lookup_insert_ne; congruence.
  - injection Hrel as <-. reflexivity.
Qed.

(** The assignment, step by step. *)
Lemma Result_assign_run (reference this : Result) (w : World Sys) :
  Result_assign false reference (this, w) =
    let w1 := if (sp_get (_enumerator this) =? nullptr)%N then w
              else snd (call_Release (sp_get (_enumerator this)) w) in
    let w2 := snd (sp_assign (_enumerator this) (_enumerator reference) w1) in
    let w3 := snd (sp_assign (_current (Result_base this))
                     (_current (Result_base reference)) w2) in
    (Ok tt, (reference, w3)).
Proof.
  cbv zeta.
  set (w1 := if (sp_get (_enumerator this) =? nullptr)%N then w
             else snd (call_Release (sp_get (_enumerator this)) w)).
  destruct (sp_assign_run (_enumerator this) (_enumerator reference) w1)
    as (w2 & calls2 & Hrun2 & _).
  destruct (sp_assign_run (_current (Result_base this))
              (_current (Result_base reference)) w2)
    as (w3 & calls3 & Hrun3 & _).
  rewrite Hrun2. cbn [snd]. rewrite Hrun3. cbn [snd].
  assert (Hfirst :
    (if (sp_get (_enumerator this) =? nullptr)%N then mret tt
     else on_world (call_Release (sp_get (_enumerator this)))) (this, w)
    = (Ok tt, (this, w1))).
  { subst w1. destruct (sp_get (_enumerator this) =? nullptr)%N; reflexivity. }
  unfold Result_assign.
  unfold mbind at 1, M_bind at 1. unfold get_this at 1. cbn [fst snd].
  unfold mbind at 1, M_bind at 1. rewrite Hfirst.
  unfold mbind at 1, M_bind at 1. unfold on_world at 1. cbn [fst snd].
  rewrite Hrun2.
  unfold mbind at 1, M_bind at 1. unfold set_enumerator, get_this, set_this.
  unfold mbind at 1, M_bind at 1. cbn [fst snd].
  unfold mbind at 1, M_bind at 1. unfold on_world at 1. cbn [fst snd].
  cbn [Result_base _current _enumerator _last_error].
  rewrite Hrun3.
  unfold set_current, set_last_error, get_this, set_this, mbind, M_bind.
  cbn [fst snd Result_base _current _enumerator _last_error].
  destruct reference as [[cur] en le]. reflexivity.
Qed.


(** X11. The assignment calls [Release] on the enumeration it holds before it
    lets the shared pointer go.  For a cursor that alone owns its
    enumeration, [Release] is therefore called twice on it.  For a cursor
    that shares its enumeration with the one assigned, [Release] is called
    on it although both still own it. *)
Theorem Result_assign_releases_enumerator (reference this : Result)
    (w : World Sys) (b : N) :
  sp_get (_enumerator this) <> nullptr ->
  sp_block (_enumerator this) = Some b ->
  (blocks w !! b = Some 1%nat ->
   sp_block (_enumerator reference) <> Some b ->
   exists w' calls,
     Result_assign false reference (this, w) = (Ok tt, (reference, w')) /\
     trace w' = trace w ++ Call_Release (sp_get (_enumerator this))
                        :: Call_Release (sp_get (_enumerator this)) :: calls) /\
  (forall n,
     blocks w !! b = Some (S (S n)) ->
     _enumerator reference = _enumerator this ->
     sp_block (_current (Result_base this)) <> Some b ->
     sp_block (_current (Result_base reference)) <> Some b ->
     exists w' calls,
       Result_assign false reference (this, w) = (Ok tt, (reference, w')) /\
       trace w' = trace w ++ Call_Release (sp_get (_enumerator this)) :: calls /\
       blocks w' !! b = Some (S (S n))).
Proof.
  intros He Hb.
  pose proof (Result_assign_run reference this w) as Hrun. cbv zeta in Hrun.
  apply N.eqb_neq in He. rewrite He in Hrun. rewrite call_Release_run in Hrun.
  cbn [snd] in Hrun. apply N.eqb_neq in He.
  set (e := sp_get (_enumerator this)) in *.
  set (w1 := mkWorld (Unknown_Release e (os w)) (blocks w) (next_block w)
               (trace w ++ [Call_Release e])) in *.
  split.
  - intros Hcount Hother.
    assert (Hassign : exists w2,
              sp_assign (_enumerator this) (_enumerator reference) w1
                = (Ok (_enumerator reference), w2) /\
              trace w2 = trace w1 ++ [Call_Release e]).
    { unfold sp_assign, mbind, M_bind.
      assert (Hcopy : exists w1', sp_copy (_enumerator reference) w1
                                  = (Ok (_enumerator reference), w1') /\
                trace w1' = trace w1 /\ blocks w1' !! b = Some 1%nat).
      { unfold sp_copy. destruct (sp_block (_enumerator reference)) as [c |].
        - eexists. split; [reflexivity |]. split; [reflexivity |]. simpl.
          rewrite lookup_alter_ne by congruence. exact Hcount.
        - eexists. split; [reflexivity |]. split; [reflexivity | exact Hcount]. }
      destruct Hcopy as (w1' & -> & Ht & Hc).
      rewrite (sp_release_last (_enumerator this) w1' b Hb Hc He).
      eexists. split; [reflexivity |]. simpl. rewrite Ht. reflexivity. }
    destruct Hassign as (w2 & Hassign & Ht2).
    rewrite Hassign in Hrun. cbn [snd] in Hrun.
    destruct (sp_assign_run (_current (Result_base this))
                (_current (Result_base reference)) w2)
      as (w3 & c3 & Hrun3 & Ht3 & _).
    rewrite Hrun3 in Hrun. cbn [snd] in Hrun.
    exists w3, c3. split; [exact Hrun |].
    rewrite Ht3, Ht2. subst w1. simpl. rewrite <- !app_assoc. reflexivity.
  - intros n Hcount Hsame Hcur Hrefcur.
    assert (Hassign : exists w2,
              sp_assign (_enumerator this) (_enumerator reference) w1
                = (Ok (_enumerator reference), w2) /\
              trace w2 = trace w1 /\ blocks w2 !! b = Some (S (S n))).
    { rewrite Hsame. unfold sp_assign, mbind, M_bind, sp_copy. rewrite Hb.
      rewrite (sp_release_shared (_enumerator this) _ b (S n) Hb);
        [| simpl; rewrite lookup_alter_eq, Hcount; reflexivity].
      eexists. split; [reflexivity |]. split; [reflexivity |].
      simpl. apply lookup_insert_eq. }
    destruct Hassign as (w2 & Hassign & Ht2 & Hb2).
    rewrite Hassign in Hrun. cbn [snd] in Hrun.
    destruct (sp_assign_run (_current (Result_base this))
                (_current (Result_base reference)) w2)
      as (w3 & c3 & Hrun3 & Ht3 & _ & Hkeep).
    rewrite Hrun3 in Hrun. cbn [snd] in Hrun.
    exists w3, c3. split; [exact Hrun |]. split.
    + rewrite Ht3, Ht2. subst w1. simpl. rewrite <- app_assoc. reflexivity.
    + rewrite (Hkeep b Hcur Hrefcur). exact Hb2.
Qed.

End Assignment.

(** ** Reading fields, and the session *)

Section Session.

Context {Sys : Type} `{WinApi Sys} `{Externals}.

(** X12. [contains] and [typeId] clear the value they fetched, once, and
    clear nothing when the fetch failed; [getVarByKey] clears nothing, and
    the value it gave is cleared once, when the [Variant] holding it is
    destroyed: the value of a field is cleared exactly once either way. *)
Theorem ObjectWrapper_readers_clear (this : ObjectWrapper) (key : wstring)
    (w : World Sys) (res : HRESULT) (value : VARIANT) (s' : Sys) :
  sp_get (_current this) <> nullptr ->
  Object_Get (sp_get (_current this)) key (os w) = (res, value, s') ->
  let fetched := mkWorld s' (blocks w) (next_block w)
                   (trace w ++ [Call_Get (sp_get (_current this)) key]) in
  let cleared := mkWorld (VariantClear value s') (blocks w) (next_block w)
                   (trace w ++ [Call_Get (sp_get (_current this)) key;
                                Call_VariantClear value]) in
  (FAILED res = true ->
   snd (ObjectWrapper_contains this key w) = fetched /\
   snd (ObjectWrapper_typeId this key w) = fetched) /\
  (FAILED res = false ->
   snd (ObjectWrapper_contains this key w) = cleared /\
   snd (ObjectWrapper_typeId this key w) = cleared /\
   ObjectWrapper_getVarByKey this key w = (Ok value, fetched) /\
   Variant_delete (mkVariant value) fetched = (Ok tt, cleared)).
Proof.
  intros Hcur Hget fetched cleared. apply N.eqb_neq in Hcur.
  unfold ObjectWrapper_contains, ObjectWrapper_typeId, ObjectWrapper_getVarByKey.
  unfold deref, mbind, M_bind. rewrite Hcur. simpl.
  unfold call_Get, platform_call. rewrite Hget.
  split; intros Hres; rewrite Hres; simpl.
  - split; reflexivity.
  - subst fetched cleared.
    unfold Variant_delete, call_VariantClear, platform_call. simpl.
    rewrite <- app_assoc. repeat split.
Qed.

Lemma Helper_getWBEMLocator_run (w : World Sys) (res : HRESULT) (l : ptr) (s1 : Sys) :
  CoCreateInstance (os w) = (res, l, s1) ->
  let w1 := mkWorld s1 (blocks w) (next_block w) (trace w ++ [Call_CoCreateInstance]) in
  Helper_getWBEMLocator w =
    if FAILED res then throw_ComException "Failed to create locator object" res w1
    else (Ok l, w1).
Proof.
  intros Hcreate w1. unfold Helper_getWBEMLocator, mbind, M_bind, platform_call.
  rewrite Hcreate. destruct (FAILED res); reflexivity.
Qed.

Lemma Helper_connectServer_run (path : wstring) (l : ptr) (w : World Sys)
    (res : HRESULT) (sv : ptr) (s2 : Sys) :
  l <> nullptr ->
  Locator_ConnectServer l path (os w) = (res, sv, s2) ->
  let w2 := mkWorld s2 (blocks w) (next_block w)
              (trace w ++ [Call_ConnectServer l path]) in
  Helper_connectServer path l w =
    if FAILED res then throw_ComException "Failed to connect" res w2
    else (Ok sv, w2).
Proof.
  intros Hl Hconnect w2. apply N.eqb_neq in Hl.
  unfold Helper_connectServer, deref, mbind, M_bind. rewrite Hl. simpl.
  unfold platform_call. rewrite Hconnect. destruct (FAILED res); reflexivity.
Qed.

Lemma Helper_new_run (path : wstring) (st : Statics) (w : World Sys) :
  Helper_new path (st, w) =
    match COMManager_init (st, w) with
    | (Ok _, (st1, w1)) =>
        match Helper_getWBEMLocator w1 with
        | (Ok l, w2) =>
            match Helper_connectServer path l w2 with
            | (Ok sv, w3) => (Ok (mkHelper l sv path), (st1, w3))
            | (Throw e, w3) => (Throw e, (st1, w3))
            | (NullDeref, w3) => (NullDeref, (st1, w3))
            end
        | (Throw e, w2) => (Throw e, (st1, w2))
        | (NullDeref, w2) => (NullDeref, (st1, w2))
        end
    | (Throw e, s') => (Throw e, s')
    | (NullDeref, s') => (NullDeref, s')
    end.
Proof.
  unfold Helper_new, mbind, M_bind, on_world.
  destruct (COMManager_init (st, w)) as [[[] | e |] [st1 w1]]; try reflexivity.
  cbn [fst snd].
  destruct (Helper_getWBEMLocator w1) as [[l | e |] w2]; try reflexivity.
  cbn [fst snd].
  destruct (Helper_connectServer path l w2) as [[sv | e |] w3]; reflexivity.
Qed.

(** X13. The construction of a session.  A failure to initialise COM leaves
    by that failure.  When the locator cannot be made, the failure says so
    and no connection is tried.  When the connection fails, the failure says
    so, and the locator that was made is not released.  When both succeed,
    the session holds the locator and the connection, and its destruction
    releases each of them once. *)
Theorem Helper_new_steps (path : wstring) (st : Statics) (w : World Sys) :
  (forall e s',
     COMManager_init (st, w) = (Throw e, s') ->
     Helper_new path (st, w) = (Throw e, s')) /\
  (forall st1 w1 res1 l s1,
     COMManager_init (st, w) = (Ok tt, (st1, w1)) ->
     CoCreateInstance (os w1) = (res1, l, s1) ->
     (FAILED res1 = true ->
      exists reason w' calls,
        Helper_new path (st, w) =
          (Throw (ComException
                    ("Failed to create locator object" +:+ ": " +:+ reason
                       +:+ " (" +:+ toStringHex res1 +:+ ")")),
           (st1, w')) /\
        trace w' = trace w1 ++ Call_CoCreateInstance :: calls /\
        only_lookup calls) /\
     (FAILED res1 = false -> l <> nullptr ->
      forall res2 sv s2,
        Locator_ConnectServer l path s1 = (res2, sv, s2) ->
        (FAILED res2 = true ->
         exists reason w' calls,
           Helper_new path (st, w) =
             (Throw (ComException
                       ("Failed to connect" +:+ ": " +:+ reason
                          +:+ " (" +:+ toStringHex res2 +:+ ")")),
              (st1, w')) /\
           trace w' = trace w1 ++ Call_CoCreateInstance
                               :: Call_ConnectServer l path :: calls /\
           only_lookup calls) /\
        (FAILED res2 = false -> sv <> nullptr ->
         exists w2 w3,
           Helper_new path (st, w) = (Ok (mkHelper l sv path), (st1, w2)) /\
           trace w2 = trace w1 ++ [Call_CoCreateInstance; Call_ConnectServer l path] /\
           Helper_delete (mkHelper l sv path) w2 = (Ok tt, w3) /\
           trace w3 = trace w2 ++ [Call_Release l; Call_Release sv]))).
Proof.
  split.
  - intros e s' Hinit. rewrite Helper_new_run, Hinit. reflexivity.
  - intros st1 w1 res1 l s1 Hinit Hcreate.
    rewrite Helper_new_run, Hinit.
    rewrite (Helper_getWBEMLocator_run w1 res1 l s1 Hcreate). cbv zeta.
    set (w1' := mkWorld s1 (blocks w1) (next_block w1)
                  (trace w1 ++ [Call_CoCreateInstance])).
    split.
    + intros Hfail. rewrite Hfail.
      destruct (throw_ComException_message (A := ptr)
                  "Failed to create locator object" res1 w1')
        as (reason & w' & calls & Hthrow & Htrace & Hcalls & _).
      rewrite Hthrow. exists reason, w', calls.
      split; [reflexivity |]. split; [| exact Hcalls].
      rewrite Htrace. subst w1'. simpl. rewrite <- app_assoc. reflexivity.
    + intros Hok Hl res2 sv s2 Hconnect. rewrite Hok.
      rewrite (Helper_connectServer_run path l w1' res2 sv s2 Hl Hconnect). cbv zeta.
      set (w2 := mkWorld s2 (blocks w1') (next_block w1')
                   (trace w1' ++ [Call_ConnectServer l path])).
      split.
      * intros Hfail. rewrite Hfail.
        destruct (throw_ComException_message (A := ptr) "Failed to connect" res2 w2)
          as (reason & w' & calls & Hthrow & Htrace & Hcalls & _).
        rewrite Hthrow. exists reason, w', calls.
        split; [reflexivity |]. split; [| exact Hcalls].
        rewrite Htrace. subst w2 w1'. simpl. rewrite <- !app_assoc. reflexivity.
      * intros Hok2 Hsv. rewrite Hok2.
        exists w2. eexists. split; [reflexivity |].
        split; [subst w2 w1'; simpl; rewrite <- app_assoc; reflexivity |].
        unfold Helper_delete, mbind, M_bind. simpl.
        apply N.eqb_neq in Hsv. apply N.eqb_neq in Hl. rewrite Hl, Hsv.
        rewrite !call_Release_run. simpl.
        split; [reflexivity |]. rewrite <- !app_assoc. reflexivity.
Qed.

End Session.

(** ** Requests, and the end of the process *)

Section Requests.

Context {Sys : Type} `{WinApi Sys} `{Externals}.

(** A request, by the status the service answers with. *)
Lemma Helper_query_run (this : Helper) (query : wstring) (w : World Sys)
    (res : HRESULT) (e : ptr) (s' : Sys) :
  _services this <> nullptr ->
  Services_ExecQuery (_services this) (Lstr "WQL") query query_flags (os w)
    = (res, e, s') ->
  let w1 := mkWorld s' (blocks w) (next_block w)
              (trace w ++ [Call_ExecQuery (_services this) (Lstr "WQL") query
                             query_flags]) in
  Helper_query this query w =
    if FAILED res
    then throw_ComException
           ("Failed to execute query " +:+ dquote +:+ to_utf8 query +:+ dquote) res w1
    else Result_new e w1.
Proof.
  intros Hsv Hreq w1. apply N.eqb_neq in Hsv.
  unfold Helper_query, deref, mbind, M_bind. rewrite Hsv. simpl.
  unfold platform_call. rewrite Hreq. destruct (FAILED res); reflexivity.
Qed.

Lemma Helper_getClass_run (this : Helper) (className : wstring) (w : World Sys)
    (res : HRESULT) (e : ptr) (s' : Sys) :
  _services this <> nullptr ->
  Services_CreateInstanceEnum (_services this) className query_flags (os w)
    = (res, e, s') ->
  let w1 := mkWorld s' (blocks w) (next_block w)
              (trace w ++ [Call_CreateInstanceEnum (_services this) className
                             query_flags]) in
  Helper_getClass this className w =
    if FAILED res
    then throw_ComException
           ("Failed to enum class " +:+ dquote +:+ to_utf8 className +:+ dquote) res w1
    else Result_new e w1.
Proof.
  intros Hsv Hreq w1. apply N.eqb_neq in Hsv.
  unfold Helper_getClass, deref, mbind, M_bind. rewrite Hsv. simpl.
  unfold platform_call. rewrite Hreq. destruct (FAILED res); reflexivity.
Qed.

(** X14. A request the service rejects, a query or the enumeration of a class,
    throws a protocol failure that quotes the text of the request; no cursor
    is built for it: no control block is made, [Next] is not called, and
    beside the request itself the only calls are those that look the reason
    up. *)
Theorem Helper_request_rejected (this : Helper) (text : wstring) (w : World Sys)
    (res : HRESULT) (e : ptr) (s' : Sys) :
  _services this <> nullptr ->
  FAILED res = true ->
  (Services_ExecQuery (_services this) (Lstr "WQL") text query_flags (os w)
     = (res, e, s') ->
   exists reason w' calls,
     Helper_query this text w =
       (Throw (ComException
                 (("Failed to execute query " +:+ dquote +:+ to_utf8 text +:+ dquote)
                    +:+ ": " +:+ reason +:+ " (" +:+ toStringHex res +:+ ")")),
        w') /\
     trace w' = trace w ++ Call_ExecQuery (_services this) (Lstr "WQL") text query_flags
                        :: calls /\
     only_lookup calls /\ blocks w' = blocks w) /\
  (Services_CreateInstanceEnum (_services this) text query_flags (os w)
     = (res, e, s') ->
   exists reason w' calls,
     Helper_getClass this text w =
       (Throw (ComException
                 (("Failed to enum class " +:+ dquote +:+ to_utf8 text +:+ dquote)
                    +:+ ": " +:+ reason +:+ " (" +:+ toStringHex res +:+ ")")),
        w') /\
     trace w' = trace w ++ Call_CreateInstanceEnum (_services this) text query_flags
                        :: calls /\
     only_lookup calls /\ blocks w' = blocks w).
Proof.
  intros Hsv Hfail. split; intros Hreq.
  - rewrite (Helper_query_run this text w res e s' Hsv Hreq). cbv zeta. rewrite Hfail.
    match goal with
    | |- context [throw_ComException ?m res ?w1] =>
        destruct (throw_ComException_message (A := Result) m res w1)
          as (reason & w' & calls & Hthrow & Htrace & Hcalls & Hblocks)
    end.
    rewrite Hthrow. exists reason, w', calls. split; [reflexivity |].
    split; [rewrite Htrace; simpl; rewrite <- app_assoc; reflexivity |].
    split; [exact Hcalls | exact Hblocks].
  - rewrite (Helper_getClass_run this text w res e s' Hsv Hreq). cbv zeta. rewrite Hfail.
    match goal with
    | |- context [throw_ComException ?m res ?w1] =>
        destruct (throw_ComException_message (A := Result) m res w1)
          as (reason & w' & calls & Hthrow & Htrace & Hcalls & Hblocks)
    end.
    rewrite Hthrow. exists reason, w', calls. split; [reflexivity |].
    split; [rewrite Htrace; simpl; rewrite <- app_assoc; reflexivity |].
    split; [exact Hcalls | exact Hblocks].
Qed.

(** The constructor on an enumeration whose first advance gets a record. *)
Lemma Result_new_first_record (e obj : ptr) (w : World Sys) (s' : Sys) :
  e <> nullptr ->
  Enum_Next e 2500 1 (os w) = (WBEM_NO_ERROR, obj, s') ->
  exists r w',
    Result_new e w = (Ok r, w') /\
    sp_get (_current (Result_base r)) = obj /\
    sp_get (_enumerator r) = e /\
    _last_error r = last_error_unset.
Proof.
  intros He Hreply.
  destruct (first_advance_asks e w) as (r0 & w1 & Hmembers & Hos & Hr0e & _).
  assert (Hlast : _last_error r0 = last_error_unset).
  { unfold Result_members, mbind, M_bind, sp_new in Hmembers. simpl in Hmembers.
    injection Hmembers as <- _. reflexivity. }
  rewrite <- Hr0e in He. rewrite <- Hos, <- Hr0e in Hreply.
  unfold Result_new, construct. rewrite Hmembers.
  unfold Result_body, mbind, M_bind.
  rewrite (Result_next_asks r0 w1 He _ _ _ Hreply). simpl.
  destruct (sp_reset_returns (_current (Result_base r0)) obj
              (after_Next w1 (sp_get (_enumerator r0)) s'))
    as (cur & w2 & Hreset & Hcur).
  rewrite Hreset. simpl.
  eexists; eexists. split; [reflexivity |]. simpl. auto.
Qed.

(** X15. A request the service accepts, a query or the enumeration of a class,
    whose first [Next] gets a record: the cursor returned is valid, holds
    that record and the enumeration, and has no error recorded. *)
Theorem Helper_request_first_record (this : Helper) (text : wstring)
    (w : World Sys) (res : HRESULT) (e obj : ptr) (s1 s2 : Sys) :
  _services this <> nullptr ->
  FAILED res = false ->
  e <> nullptr ->
  obj <> nullptr ->
  Enum_Next e 2500 1 s1 = (WBEM_NO_ERROR, obj, s2) ->
  (Services_ExecQuery (_services this) (Lstr "WQL") text query_flags (os w)
     = (res, e, s1) ->
   exists r w',
     Helper_query this text w = (Ok r, w') /\
     Result_valid r = true /\
     sp_get (_current (Result_base r)) = obj /\
     sp_get (_enumerator r) = e /\
     _last_error r = last_error_unset) /\
  (Services_CreateInstanceEnum (_services this) text query_flags (os w)
     = (res, e, s1) ->
   exists r w',
     Helper_getClass this text w = (Ok r, w') /\
     Result_valid r = true /\
     sp_get (_current (Result_base r)) = obj /\
     sp_get (_enumerator r) = e /\
     _last_error r = last_error_unset).
Proof.
  intros Hsv Hok He Hobj Hreply.
  assert (Hnew : forall w0, os w0 = s1 ->
            exists r w',
              Result_new e w0 = (Ok r, w') /\
              Result_valid r = true /\
              sp_get (_current (Result_base r)) = obj /\
              sp_get (_enumerator r) = e /\
              _last_error r = last_error_unset).
  { intros w0 Hos. rewrite <- Hos in Hreply.
    destruct (Result_new_first_record e obj w0 s2 He Hreply)
      as (r & w' & Hnew & Hcur & Hen & Hlast).
    exists r, w'. split; [exact Hnew |]. split; [| auto].
    unfold Result_valid. rewrite Hcur. apply N.eqb_neq in Hobj. rewrite Hobj.
    reflexivity. }
  split; intros Hreq.
  - rewrite (Helper_query_run this text w res e s1 Hsv Hreq). cbv zeta. rewrite Hok.
    apply Hnew. reflexivity.
  - rewrite (Helper_getClass_run this text w res e s1 Hsv Hreq). cbv zeta. rewrite Hok.
    apply Hnew. reflexivity.
Qed.

(** The static is initialised after some calls of [init] exactly when it was
    before or one of the calls returned. *)
Lemma init_calls_flag (n : nat) (st : Statics) (w : World Sys) :
  s_Instance_initialised (fst (snd (init_calls n (st, w)))) = true <->
  (s_Instance_initialised st = true \/ In (Ok tt) (fst (init_calls n (st, w)))).
Proof.
  revert st w. induction n as [| n IH]; intros st w.
  - simpl. split; [auto | intros [Hst | []]; exact Hst].
  - change (init_calls (S n) (st, w)) with
      (let '(o, s1) := COMManager_init (st, w) in
       let '(rest, s2) := init_calls n s1 in (o :: rest, s2)).
    destruct (s_Instance_initialised st) eqn:Hst.
    + rewrite (COMManager_init_done st w Hst).
      rewrite (init_calls_done n st w Hst). simpl. rewrite Hst. split; auto.
    + destruct st as [flag]. simpl in Hst. subst flag.
      rewrite COMManager_init_unset.
      destruct (COMManager_new_outcome w)
        as [(what & w' & calls & Hnew & _) | (w' & Hnew & _)]; rewrite Hnew.
      * specialize (IH (mkStatics false) w').
        destruct (init_calls n (mkStatics false, w')) as [rest s2].
        simpl in IH. simpl. rewrite IH. split.
        -- intros [Hno | Hin]; [discriminate Hno | right; right; exact Hin].
        -- intros [Hno | [Hno | Hin]]; try discriminate; right; exact Hin.
      * rewrite (init_calls_done n (mkStatics true) w' eq_refl). simpl.
        split; auto.
Qed.

(** X16. At the end of the process, after any number of calls of [init]:
    [CoUninitialize] is called, once, when one of the calls returned, and not
    at all when every call failed, even where the first step of the
    initialisation had succeeded and only the second failed. *)
Theorem process_exit_matches_init (n : nat) (w : World Sys) :
  let outcomes := fst (init_calls n (mkStatics false, w)) in
  let st := fst (snd (init_calls n (mkStatics false, w))) in
  let w1 := snd (snd (init_calls n (mkStatics false, w))) in
  (In (Ok tt) outcomes ->
   exists w2, process_exit (st, w1) = (Ok tt, (st, w2)) /\
              trace w2 = trace w1 ++ [Call_CoUninitialize]) /\
  (~ In (Ok tt) outcomes ->
   process_exit (st, w1) = (Ok tt, (st, w1))).
Proof.
  intros outcomes st w1.
  pose proof (init_calls_flag n (mkStatics false) w) as Hflag.
  fold st outcomes in Hflag. simpl in Hflag.
  unfold process_exit, get_this, on_world, COMManager_delete, platform_call,
    mbind, M_bind. simpl.
  split.
  - intros Hin. assert (Hst : s_Instance_initialised st = true) by (apply Hflag; auto).
    rewrite Hst. eexists. split; reflexivity.
  - intros Hno. destruct (s_Instance_initialised st) eqn:Hst; [| reflexivity].
    exfalso. apply Hno. destruct (proj1 Hflag eq_refl) as [Hfalse | Hin];
      [discriminate Hfalse | exact Hin].
Qed.

End Requests.

(** ** The decoder as a printer *)

Section Printer.

Context `{Externals}.

(** X17. What [get<wstring>] prints.  A tag with the array bit prints as
    "<array>" whatever else it has, the vector bit included; a 32-bit value,
    signed or unsigned, in the range of its tag prints in decimal as it is,
    so an unsigned one above the signed range is not narrowed here; an 8-bit
    signed value prints by its unsigned reading; a boolean prints as 1 or 0;
    a null prints as the empty string. *)
Theorem Variant_get_wstring_prints (v : VARIANT) (x : Z) :
  (Z.land (vt v) VT_ARRAY <> 0 -> Variant_get_wstring v = Ok (Lstr "<array>")) /\
  (-2147483648 <= x < 2147483648 ->
   Variant_get_wstring (stored_I4 x) = Ok (to_wstring x)) /\
  (0 <= x < 4294967296 ->
   Variant_get_wstring (stored_UI4 x) = Ok (to_wstring x)) /\
  Variant_get_wstring (stored_I1 x) = Ok (to_wstring (unsigned_of 8 x)) /\
  (vt v = VT_BOOL ->
   Variant_get_wstring v = Ok (Lstr (if boolVal v =? 0 then "0" else "1"))) /\
  (vt v = VT_NULL -> Variant_get_wstring v = Ok []).
Proof.
  split; [| split; [| split; [| split; [| split]]]].
  - intros Harr. unfold Variant_get_wstring.
    apply Z.eqb_neq in Harr. rewrite Harr. reflexivity.
  - intros Hx. unfold Variant_get_wstring, Variant_get_int, stored_I4. switch_on_tag.
    cbn [negb orb outcome_map]. unfold intVal, as_int. cbn [raw].
    rewrite signed_of_unsigned_of by lia.
    rewrite (signed_of_32 x) by lia. rewrite (signed_of_32 x) by lia. reflexivity.
  - intros Hx. unfold Variant_get_wstring, Variant_get_ULONG, stored_UI4. switch_on_tag.
    cbn [negb orb outcome_map]. unfold ulVal, as_ULONG. cbn [raw].
    rewrite !unsigned_of_idem by lia.
    rewrite (unsigned_of_small 32 x) by exact Hx. reflexivity.
  - unfold Variant_get_wstring, Variant_get_int, stored_I1. switch_on_tag.
    cbn [negb orb outcome_map]. unfold bVal, as_int. cbn [raw].
    rewrite unsigned_of_idem by lia.
    rewrite signed_of_32; [reflexivity |].
    unfold unsigned_of. change (2 ^ 8) with 256.
    pose proof (Z.mod_pos_bound x 256 eq_refl). lia.
  - intros Hbool. unfold Variant_get_wstring, Variant_get_bool, as_bool. rewrite Hbool.
    destruct (boolVal v =? 0); switch_on_tag; reflexivity.
  - intros Hnull. unfold Variant_get_wstring. rewrite Hnull. switch_on_tag. reflexivity.
Qed.

End Printer.

(** ** Property names and methods *)

Section Names.

Context {Sys : Type} `{WinApi Sys} `{OleApi Sys} `{Externals}.

Lemma ole_call_run {A : Type} (c : OleCall) (f : Sys -> A * Sys)
    (v : OleWorld Sys) (a : A) (s' : Sys) :
  f (os (com v)) = (a, s') ->
  ole_call c f v =
    (Ok a,
     mkOleWorld (mkWorld s' (blocks (com v)) (next_block (com v)) (trace (com v)))
       (ole_trace v ++ [c])).
Proof. intros Hf. unfold ole_call. rewrite Hf. reflexivity. Qed.

Lemma in_com_throw_ComException {A : Type} (message : string) (result : HRESULT)
    (v : OleWorld Sys) :
  exists reason v' calls,
    in_com (throw_ComException (A := A) message result) v =
      (Throw (ComException
                (message +:+ ": " +:+ reason +:+ " (" +:+ toStringHex result +:+ ")")),
       v') /\
    ole_trace v' = ole_trace v /\
    trace (com v') = trace (com v) ++ calls /\ only_lookup calls /\
    blocks (com v') = blocks (com v).
Proof.
  destruct (throw_ComException_message (A := A) message result (com v))
    as (reason & w' & calls & Hthrow & Htrace & Hcalls & Hblocks).
  exists reason, (mkOleWorld w' (ole_trace v)), calls.
  unfold in_com. rewrite Hthrow. auto.
Qed.

(** The loop on an array whose elements, at the indices from [lo] to [hi],
    come out at an address that is not null, in every state of the platform
    that the loop can reach. *)
Lemma names_loop_returns (a : ptr) (lo hi : Z) (reachable : Sys -> Prop) :
  (forall i old s, reachable s -> lo <= i <= hi ->
     snd (fst (SafeArrayGetElement a i old s)) <> nullptr /\
     reachable (SysFreeString (snd (fst (SafeArrayGetElement a i old s)))
                  (snd (SafeArrayGetElement a i old s)))) ->
  forall (count : nat) (i : Z) (p : ptr) (result : list wstring) (v : OleWorld Sys),
  reachable (os (com v)) ->
  lo <= i -> Z.of_nat count <= Z.max 0 (hi + 1 - i) ->
  exists l ps v',
    names_loop count a i p result v = (Ok (result ++ l), v') /\
    length l = count /\ length ps = count /\
    Forall (fun q => q <> nullptr) ps /\
    ole_trace v' = ole_trace v ++ element_calls a i ps /\
    trace (com v') = trace (com v) /\
    blocks (com v') = blocks (com v).
Proof.
  intros Hne count. induction count as [| count IH]; intros i p result v Hv Hlo Hhi.
  - exists [], [], v. simpl. rewrite !app_nil_r.
    repeat split; try reflexivity. constructor.
  - cbn [names_loop]. unfold mbind at 1, M_bind at 1.
    destruct (Hne i p (os (com v)) Hv ltac:(lia)) as [Hq Hnext].
    destruct (SafeArrayGetElement a i p (os (com v))) as [[res q] s1] eqn:Hget.
    cbn [fst snd] in Hq, Hnext.
    rewrite (ole_call_run _ _ v (res, q) s1) by (rewrite Hget; reflexivity).
    cbv beta iota. unfold mbind at 1, M_bind at 1.
    unfold wstring_of. apply N.eqb_neq in Hq. rewrite Hq.
    cbv beta iota. unfold mbind at 1, M_bind at 1.
    unfold call_SysFreeString.
    match goal with
    | |- context [ole_call ?c ?f ?v0] =>
        rewrite (ole_call_run c f v0 tt (SysFreeString q (os (com v0)))) by reflexivity
    end.
    cbv beta iota.
    match goal with
    | |- context [names_loop count a ?i1 q ?r1 ?v1] =>
        destruct (IH i1 q r1 v1 Hnext ltac:(lia) ltac:(lia))
          as (l & ps & v' & Hloop & Hl & Hps & Hall & Hole & Htr & Hbl)
    end.
    rewrite Hloop. eexists (_ :: l), (q :: ps), v'.
    split; [rewrite <- app_assoc; reflexivity |].
    split; [simpl; rewrite Hl; reflexivity |].
    split; [simpl; rewrite Hps; reflexivity |].
    split; [constructor; [apply N.eqb_neq; exact Hq | exact Hall] |].
    split; [rewrite Hole; cbn [ole_trace element_calls];
            rewrite <- !app_assoc; reflexivity |].
    split; [rewrite Htr; reflexivity | rewrite Hbl; reflexivity].
Qed.

(** The steps of [names] up to the loop. *)
Lemma Result_names_run (this : Result) (lLower0 lUpper0 : Z) (v : OleWorld Sys)
    (res : HRESULT) (a : ptr) (s1 : Sys) :
  sp_get (_current (Result_base this)) <> nullptr ->
  Object_GetNames (sp_get (_current (Result_base this))) names_flags (os (com v))
    = (res, a, s1) ->
  let o := sp_get (_current (Result_base this)) in
  let v1 := mkOleWorld (mkWorld s1 (blocks (com v)) (next_block (com v)) (trace (com v)))
              (ole_trace v ++ [Call_GetNames o names_flags]) in
  Result_names this lLower0 lUpper0 v =
    if FAILED res
    then in_com (throw_ComException "Failed to retrieve field names" res) v1
    else
      let '(r1, lo, s2) := SafeArrayGetLBound a 1 lLower0 s1 in
      let '(r2, hi, s3) := SafeArrayGetUBound a 1 lUpper0 s2 in
      let v3 := mkOleWorld (mkWorld s3 (blocks (com v)) (next_block (com v))
                              (trace (com v)))
                  (ole_trace v ++ [Call_GetNames o names_flags;
                                   Call_SafeArrayGetLBound a 1;
                                   Call_SafeArrayGetUBound a 1]) in
      match names_loop (Z.to_nat (hi - lo + 1)) a lo nullptr [] v3 with
      | (Ok result, v4) =>
          (Ok result,
           mkOleWorld (mkWorld (snd (SafeArrayDestroy a (os (com v4))))
                         (blocks (com v4)) (next_block (com v4)) (trace (com v4)))
             (ole_trace v4 ++ [Call_SafeArrayDestroy a]))
      | (Throw e, v4) => (Throw e, v4)
      | (NullDeref, v4) => (NullDeref, v4)
      end.
Proof.
  intros Ho Hnames o v1. apply N.eqb_neq in Ho.
  unfold Result_names. unfold mbind at 1, M_bind at 1.
  unfold in_com at 1, deref. rewrite Ho. cbn [mret M_ret].
  destruct v as [w t]. cbn [com ole_trace] in *.
  unfold mbind at 1, M_bind at 1.
  rewrite (ole_call_run _ _ (mkOleWorld w t) (res, a) s1)
    by (cbn [com]; rewrite Hnames; reflexivity).
  cbv beta iota. fold o. cbn [com ole_trace].
  destruct (FAILED res); [reflexivity |].
  unfold mbind at 1, M_bind at 1.
  destruct (SafeArrayGetLBound a 1 lLower0 s1) as [[r1 lo] s2] eqn:Hlo.
  match goal with
  | |- context [ole_call ?c ?f ?v0] =>
      rewrite (ole_call_run c f v0 (r1, lo) s2) by (cbn [com os]; rewrite Hlo; reflexivity)
  end.
  cbv beta iota. cbn [com ole_trace os blocks next_block trace].
  unfold mbind at 1, M_bind at 1.
  destruct (SafeArrayGetUBound a 1 lUpper0 s2) as [[r2 hi] s3] eqn:Hhi.
  match goal with
  | |- context [ole_call ?c ?f ?v0] =>
      rewrite (ole_call_run c f v0 (r2, hi) s3) by (cbn [com os]; rewrite Hhi; reflexivity)
  end.
  cbv beta iota. cbn [com ole_trace os blocks next_block trace].
  rewrite <- !app_assoc. cbn [app].
  unfold mbind at 1, M_bind at 1.
  match goal with
  | |- context [names_loop ?n a lo nullptr [] ?v3] =>
      destruct (names_loop n a lo nullptr [] v3) as [[result | e |] v4]
  end; try reflexivity.
  unfold mbind at 1, M_bind at 1. unfold ole_call.
  destruct (SafeArrayDestroy a (os (com v4))) as [r4 s5]. reflexivity.
Qed.

(** X18. [names] on a record whose property names the service hands out,
    each element of the array at an address that is not null: it returns as
    many names as the bounds of the array span, whatever the statuses of the
    two calls for the bounds and of the calls for the elements; each element
    is fetched and freed in turn, from the lower bound upwards, and the array
    is destroyed once, at the end; no interface is released. *)
Theorem Result_names_returns (this : Result) (lLower0 lUpper0 : Z)
    (v : OleWorld Sys) (res r1 r2 : HRESULT) (a : ptr) (lo hi : Z) (s1 s2 s3 : Sys)
    (reachable : Sys -> Prop) :
  sp_get (_current (Result_base this)) <> nullptr ->
  Object_GetNames (sp_get (_current (Result_base this))) names_flags (os (com v))
    = (res, a, s1) ->
  FAILED res = false ->
  SafeArrayGetLBound a 1 lLower0 s1 = (r1, lo, s2) ->
  SafeArrayGetUBound a 1 lUpper0 s2 = (r2, hi, s3) ->
  hi < LONG_MAX ->
  reachable s3 ->
  (forall i old s, reachable s -> lo <= i <= hi ->
     snd (fst (SafeArrayGetElement a i old s)) <> nullptr /\
     reachable (SysFreeString (snd (fst (SafeArrayGetElement a i old s)))
                  (snd (SafeArrayGetElement a i old s)))) ->
  exists l ps v',
    Result_names this lLower0 lUpper0 v = (Ok l, v') /\
    length l = Z.to_nat (hi - lo + 1) /\
    length ps = length l /\
    Forall (fun q => q <> nullptr) ps /\
    ole_trace v' =
      ole_trace v ++ [Call_GetNames (sp_get (_current (Result_base this))) names_flags;
                      Call_SafeArrayGetLBound a 1; Call_SafeArrayGetUBound a 1]
                  ++ element_calls a lo ps ++ [Call_SafeArrayDestroy a] /\
    trace (com v') = trace (com v) /\
    blocks (com v') = blocks (com v).
Proof.
  intros Ho Hnames Hok Hlo Hhi _ Hs3 Hne.
  rewrite (Result_names_run this lLower0 lUpper0 v res a s1 Ho Hnames). cbv zeta.
  rewrite Hok, Hlo, Hhi.
  match goal with
  | |- context [names_loop ?n a lo nullptr [] ?v3] =>
      destruct (names_loop_returns a lo hi reachable Hne n lo nullptr [] v3
                  Hs3 ltac:(lia) ltac:(lia))
        as (l & ps & v4 & Hloop & Hl & Hps & Hall & Hole & Htr & Hbl)
  end.
  rewrite Hloop. cbn [app]. exists l, ps. eexists.
  split; [reflexivity |].
  split; [exact Hl |].
  split; [rewrite Hps, Hl; reflexivity |].
  split; [exact Hall |].
  split; [cbn [ole_trace]; rewrite Hole; cbn [ole_trace];
          rewrite <- !app_assoc; reflexivity |].
  split; [cbn [com trace]; rewrite Htr; reflexivity |].
  cbn [com blocks]. rewrite Hbl. reflexivity.
Qed.

(** X19. [names] on a record whose names the service refuses: a protocol
    failure with the message "Failed to retrieve field names", the reason and
    the status; beside [GetNames] no call on arrays or strings is made, so
    nothing is destroyed or freed. *)
Theorem Result_names_rejected (this : Result) (lLower0 lUpper0 : Z)
    (v : OleWorld Sys) (res : HRESULT) (a : ptr) (s1 : Sys) :
  sp_get (_current (Result_base this)) <> nullptr ->
  Object_GetNames (sp_get (_current (Result_base this))) names_flags (os (com v))
    = (res, a, s1) ->
  FAILED res = true ->
  exists reason v' calls,
    Result_names this lLower0 lUpper0 v =
      (Throw (ComException
                ("Failed to retrieve field names" +:+ ": " +:+ reason
                   +:+ " (" +:+ toStringHex res +:+ ")")),
       v') /\
    ole_trace v' =
      ole_trace v ++ [Call_GetNames (sp_get (_current (Result_base this))) names_flags] /\
    trace (com v') = trace (com v) ++ calls /\
    only_lookup calls.
Proof.
  intros Ho Hnames Hfail.
  rewrite (Result_names_run this lLower0 lUpper0 v res a s1 Ho Hnames). cbv zeta.
  rewrite Hfail.
  match goal with
  | |- context [in_com (throw_ComException ?m res) ?v1] =>
      destruct (in_com_throw_ComException (A := list wstring) m res v1)
        as (reason & v' & calls & Hthrow & Hole & Htrace & Hcalls & _)
  end.
  rewrite Hthrow. exists reason, v', calls.
  split; [reflexivity |]. split; [rewrite Hole; reflexivity |].
  split; [rewrite Htrace; reflexivity | exact Hcalls].
Qed.

(** X20. The status of [SafeArrayGetElement] is not read.  When the call for
    the first element leaves the element pointer as it was, null, [names]
    dereferences a null pointer, and the array is not destroyed.  When the
    first element comes out at [p] and the call for the second leaves the
    pointer as it was, [names] returns two names, both read at [p], the
    second after [p] was freed, and frees [p] twice. *)
Theorem Result_names_element_status_unread (this : Result) (lLower0 lUpper0 : Z)
    (v : OleWorld Sys) (res r1 r2 r3 : HRESULT) (a p : ptr) (lo hi : Z)
    (s1 s2 s3 s4 : Sys) :
  sp_get (_current (Result_base this)) <> nullptr ->
  Object_GetNames (sp_get (_current (Result_base this))) names_flags (os (com v))
    = (res, a, s1) ->
  FAILED res = false ->
  SafeArrayGetLBound a 1 lLower0 s1 = (r1, lo, s2) ->
  SafeArrayGetUBound a 1 lUpper0 s2 = (r2, hi, s3) ->
  lo <= hi < LONG_MAX ->
  SafeArrayGetElement a lo nullptr s3 = (r3, p, s4) ->
  let before := ole_trace v ++
                  [Call_GetNames (sp_get (_current (Result_base this))) names_flags;
                   Call_SafeArrayGetLBound a 1; Call_SafeArrayGetUBound a 1] in
  (p = nullptr ->
   fst (Result_names this lLower0 lUpper0 v) = NullDeref /\
   ole_trace (snd (Result_names this lLower0 lUpper0 v)) =
     before ++ [Call_SafeArrayGetElement a lo]) /\
  (p <> nullptr -> hi = lo + 1 ->
   forall r4 s6,
     SafeArrayGetElement a (lo + 1) p (SysFreeString p s4) = (r4, p, s6) ->
     fst (Result_names this lLower0 lUpper0 v) =
       Ok [characters_at p s4; characters_at p s6] /\
     ole_trace (snd (Result_names this lLower0 lUpper0 v)) =
       before ++ [Call_SafeArrayGetElement a lo; Call_SysFreeString p;
                  Call_SafeArrayGetElement a (lo + 1); Call_SysFreeString p;
                  Call_SafeArrayDestroy a]).
Proof.
  intros Ho Hnames Hok Hlo Hhi Hrange Hfirst before.
  rewrite (Result_names_run this lLower0 lUpper0 v res a s1 Ho Hnames). cbv zeta.
  rewrite Hok, Hlo, Hhi. fold before.
  set (v3 := mkOleWorld (mkWorld s3 (blocks (com v)) (next_block (com v))
                           (trace (com v))) before).
  split.
  - intros Hp. subst p.
    assert (Hloop :
      names_loop (Z.to_nat (hi - lo + 1)) a lo nullptr [] v3 =
        (NullDeref,
         mkOleWorld (mkWorld s4 (blocks (com v)) (next_block (com v)) (trace (com v)))
           (before ++ [Call_SafeArrayGetElement a lo]))).
    { unfold v3.
      replace (Z.to_nat (hi - lo + 1)) with (S (Z.to_nat (hi - lo))) by lia.
      cbn [names_loop]. unfold mbind at 1, M_bind at 1.
      match goal with
      | |- context [ole_call ?c ?f ?v0] =>
          rewrite (ole_call_run c f v0 (r3, nullptr) s4)
            by (cbn [com os]; rewrite Hfirst; reflexivity)
      end.
      cbv beta iota. unfold mbind at 1, M_bind at 1.
      unfold wstring_of. rewrite N.eqb_refl. reflexivity. }
    rewrite Hloop. split; reflexivity.
  - intros Hp Hhi1 r4 s6 Hsecond. subst hi.
    assert (Hloop :
      names_loop (Z.to_nat (lo + 1 - lo + 1)) a lo nullptr [] v3 =
        (Ok [characters_at p s4; characters_at p s6],
         mkOleWorld (mkWorld (SysFreeString p s6) (blocks (com v)) (next_block (com v))
                       (trace (com v)))
           (before ++ [Call_SafeArrayGetElement a lo; Call_SysFreeString p;
                       Call_SafeArrayGetElement a (lo + 1); Call_SysFreeString p]))).
    { unfold v3.
      replace (Z.to_nat (lo + 1 - lo + 1)) with 2%nat by lia.
      apply N.eqb_neq in Hp.
      cbn [names_loop]. unfold mbind at 1, M_bind at 1.
      match goal with
      | |- context [ole_call ?c ?f ?v0] =>
          rewrite (ole_call_run c f v0 (r3, p) s4)
            by (cbn [com os]; rewrite Hfirst; reflexivity)
      end.
      cbv beta iota. unfold mbind at 1, M_bind at 1.
      unfold wstring_of at 1. rewrite Hp.
      cbv beta iota. unfold mbind at 1, M_bind at 1.
      unfold call_SysFreeString at 1.
      match goal with
      | |- context [ole_call ?c ?f ?v0] =>
          rewrite (ole_call_run c f v0 tt (SysFreeString p (os (com v0)))) by reflexivity
      end.
      cbv beta iota. cbn [com os blocks next_block trace ole_trace].
      unfold mbind at 1, M_bind at 1.
      match goal with
      | |- context [ole_call ?c ?f ?v0] =>
          rewrite (ole_call_run c f v0 (r4, p) s6)
            by (cbn [com os]; rewrite Hsecond; reflexivity)
      end.
      cbv beta iota. unfold mbind at 1, M_bind at 1.
      unfold wstring_of at 1. rewrite Hp.
      cbv beta iota. unfold mbind at 1, M_bind at 1.
      unfold call_SysFreeString at 1.
      match goal with
      | |- context [ole_call ?c ?f ?v0] =>
          rewrite (ole_call_run c f v0 tt (SysFreeString p (os (com v0)))) by reflexivity
      end.
      cbv beta iota. cbn [com os blocks next_block trace ole_trace mret M_ret app].
      rewrite <- !app_assoc. reflexivity. }
    rewrite Hloop. cbn [fst snd ole_trace]. rewrite <- !app_assoc.
    split; reflexivity.
Qed.

(** X21. [call].  A method whose origin the record does not give: a protocol
    failure that names the method, and no string was allocated.  A method
    whose origin it gives: the method's name is copied, [ExecMethod] is
    called with the class name and the copy, the copy is freed, and a wrapper
    of the out-parameters object is returned whatever the status of
    [ExecMethod] was, a failure included; the class name is not freed. *)
Theorem Helper_call_steps (this : Helper) (result : ObjectWrapper)
    (method : wstring) (className0 : ptr) (v : OleWorld Sys)
    (res : HRESULT) (className : ptr) (s1 : Sys) :
  sp_get (_current result) <> nullptr ->
  _services this <> nullptr ->
  Object_GetMethodOrigin (sp_get (_current result)) method className0 (os (com v))
    = (res, className, s1) ->
  (FAILED res = true ->
   exists reason v' calls,
     Helper_call this result method className0 v =
       (Throw (ComException
                 (("Failed to determine method origin: " +:+ to_utf8 method)
                    +:+ ": " +:+ reason +:+ " (" +:+ toStringHex res +:+ ")")),
        v') /\
     ole_trace v' =
       ole_trace v ++ [Call_GetMethodOrigin (sp_get (_current result)) method] /\
     trace (com v') = trace (com v) ++ calls /\ only_lookup calls) /\
  (FAILED res = false ->
   forall methodName s2 res2 outParams s3,
     SysAllocString method s1 = (methodName, s2) ->
     Services_ExecMethod (_services this) className methodName 0
       (sp_get (_current result)) s2 = (res2, outParams, s3) ->
     exists v',
       Helper_call this result method className0 v =
         (Ok (mkObjectWrapper (mk_shared_ptr outParams (Some (next_block (com v))))),
          v') /\
       ole_trace v' =
         ole_trace v ++ [Call_GetMethodOrigin (sp_get (_current result)) method;
                         Call_SysAllocString method;
                         Call_ExecMethod (_services this) className methodName 0
                           (sp_get (_current result));
                         Call_SysFreeString methodName] /\
       trace (com v') = trace (com v) /\
       blocks (com v') = <[next_block (com v) := 1%nat]> (blocks (com v))).
Proof.
  intros Ho Hsv Horigin. apply N.eqb_neq in Ho. apply N.eqb_neq in Hsv.
  destruct v as [w t]. cbn [com ole_trace] in *.
  assert (Hstart :
    Helper_call this result method className0 (mkOleWorld w t) =
      let v1 := mkOleWorld (mkWorld s1 (blocks w) (next_block w) (trace w))
                  (t ++ [Call_GetMethodOrigin (sp_get (_current result)) method]) in
      if FAILED res
      then in_com (throw_ComException
                     ("Failed to determine method origin: " +:+ to_utf8 method) res) v1
      else
        (methodName ← ole_call (Call_SysAllocString method) (SysAllocString method);
         sv ← in_com (deref (_services this));
         '(_, outParams) ← ole_call
             (Call_ExecMethod sv className methodName 0 (sp_get (_current result)))
             (fun s => let '(res, p, s') :=
                         Services_ExecMethod sv className methodName 0
                           (sp_get (_current result)) s
                       in ((res, p), s'));
         call_SysFreeString methodName;;
         in_com (ObjectWrapper_new outParams)) v1).
  { unfold Helper_call. unfold mbind at 1, M_bind at 1.
    unfold in_com at 1, deref at 1. rewrite Ho. cbn [mret M_ret com ole_trace].
    unfold mbind at 1, M_bind at 1.
    rewrite (ole_call_run _ _ (mkOleWorld w t) (res, className) s1)
      by (cbn [com]; rewrite Horigin; reflexivity).
    cbv beta iota zeta. cbn [com ole_trace].
    destruct (FAILED res); reflexivity. }
  rewrite Hstart. cbv zeta. clear Hstart.
  split; intros Hres; rewrite Hres.
  - match goal with
    | |- context [in_com (throw_ComException ?m res) ?v1] =>
        destruct (in_com_throw_ComException (A := ObjectWrapper) m res v1)
          as (reason & v' & calls & Hthrow & Hole & Htrace & Hcalls & _)
    end.
    rewrite Hthrow. exists reason, v', calls.
    split; [reflexivity |]. split; [rewrite Hole; reflexivity |].
    split; [rewrite Htrace; reflexivity | exact Hcalls].
  - intros methodName s2 res2 outParams s3 Halloc Hexec.
    unfold mbind at 1, M_bind at 1.
    match goal with
    | |- context [ole_call ?c ?f ?v0] =>
        rewrite (ole_call_run c f v0 methodName s2) by (cbn [com os]; exact Halloc)
    end.
    cbv beta iota. cbn [com os blocks next_block trace ole_trace].
    unfold mbind at 1, M_bind at 1.
    unfold in_com at 1, deref at 1. rewrite Hsv. cbn [mret M_ret com ole_trace].
    unfold mbind at 1, M_bind at 1.
    match goal with
    | |- context [ole_call ?c ?f ?v0] =>
        rewrite (ole_call_run c f v0 (res2, outParams) s3)
          by (cbn [com os]; rewrite Hexec; reflexivity)
    end.
    cbv beta iota. cbn [com os blocks next_block trace ole_trace].
    unfold mbind at 1, M_bind at 1.
    unfold call_SysFreeString.
    match goal with
    | |- context [ole_call ?c ?f ?v0] =>
        rewrite (ole_call_run c f v0 tt (SysFreeString methodName (os (com v0))))
          by reflexivity
    end.
    cbv beta iota. cbn [com os blocks next_block trace ole_trace].
    unfold in_com, ObjectWrapper_new, sp_new, mbind, M_bind.
    cbn [com os blocks next_block trace ole_trace mret M_ret].
    eexists. split; [reflexivity |].
    cbn [com ole_trace trace blocks]. rewrite <- !app_assoc.
    split; [reflexivity |]. split; reflexivity.
Qed.

(** X22. [setProxyBlanket]: on a status that is not a failure it returns,
    and the call is all it did; on a failure it throws a protocol failure
    with the message "Failed to set proxy blanket", the reason and the
    status.  It asks for the NTLM service, no authorisation, the call level
    and impersonation. *)
Theorem Helper_setProxyBlanket_outcome (services : ptr) (v : OleWorld Sys)
    (res : HRESULT) (s1 : Sys) :
  CoSetProxyBlanket services 10 0 3 3 0 (os (com v)) = (res, s1) ->
  let asked := ole_trace v ++ [Call_CoSetProxyBlanket services 10 0 3 3 0] in
  (FAILED res = false ->
   Helper_setProxyBlanket services v =
     (Ok tt,
      mkOleWorld (mkWorld s1 (blocks (com v)) (next_block (com v)) (trace (com v)))
        asked)) /\
  (FAILED res = true ->
   exists reason v' calls,
     Helper_setProxyBlanket services v =
       (Throw (ComException
                 ("Failed to set proxy blanket" +:+ ": " +:+ reason
                    +:+ " (" +:+ toStringHex res +:+ ")")),
        v') /\
     ole_trace v' = asked /\
     trace (com v') = trace (com v) ++ calls /\ only_lookup calls).
Proof.
  intros Hreply asked.
  set (v1 := mkOleWorld (mkWorld s1 (blocks (com v)) (next_block (com v))
                           (trace (com v))) asked).
  assert (Hrun :
    Helper_setProxyBlanket services v =
      if FAILED res
      then in_com (throw_ComException "Failed to set proxy blanket" res) v1
      else (Ok tt, v1)).
  { unfold Helper_setProxyBlanket. unfold mbind at 1, M_bind at 1.
    match goal with
    | |- context [ole_call ?c ?f v] =>
        rewrite (ole_call_run c f v res s1) by exact Hreply
    end.
    cbv beta iota. destruct (FAILED res); reflexivity. }
  rewrite Hrun.
  split; intros Hres; rewrite Hres.
  - reflexivity.
  - match goal with
    | |- context [in_com (throw_ComException ?m res) ?v1] =>
        destruct (in_com_throw_ComException (A := unit) m res v1)
          as (reason & v' & calls & Hthrow & Hole & Htrace & Hcalls & _)
    end.
    rewrite Hthrow. exists reason, v', calls.
    split; [reflexivity |]. split; [rewrite Hole; reflexivity |].
    split; [rewrite Htrace; reflexivity | exact Hcalls].
Qed.

End Names.

(** ** More runs on the scripted platform *)

Lemma script_world_fresh (s : Script) : blocks_fresh (script_world s).
Proof. intros b _. apply lookup_empty. Qed.

Lemma cursor_world_fresh (s : Script) : blocks_fresh (cursor_world s).
Proof.
  intros b Hb. unfold cursor_world in *. cbn [blocks next_block] in *.
  rewrite !lookup_insert_ne by lia. apply lookup_empty.
Qed.

(** X6 at one input: a transport failure, then a record. *)
Lemma Result_next_not_latched_run :
  exists r1 w1 r2 w2,
    Result_next (a_cursor 5%N, cursor_world failing_then_record) = (Ok false, (r1, w1)) /\
    Result_next (r1, w1) = (Ok true, (r2, w2)) /\
    sp_get (_current (Result_base r2)) = 7%N /\
    count_calls is_Next (trace w2) =
      S (S (count_calls is_Next (trace (cursor_world failing_then_record)))).
Proof.
  apply (Result_next_not_latched (a_cursor 5%N) (cursor_world failing_then_record)
           hard_error nullptr 7%N (script_tail failing_then_record)
           (script_tail (script_tail failing_then_record)));
    [discriminate | reflexivity | discriminate | discriminate | reflexivity].
Defined.

(** X7 at one input: the cursor is the only owner of the record 7 when the
    record 8 arrives. *)
Lemma Result_next_releases_previous_run :
  exists r' w',
    Result_next (held_cursor 5%N 7%N, cursor_world another_record) = (Ok true, (r', w')) /\
    trace w' = [] ++ [Call_Next 5%N 2500 1; Call_Release 7%N] /\
    blocks w' !! 0%N = None.
Proof.
  apply (Result_next_releases_previous (held_cursor 5%N 7%N)
           (cursor_world another_record) 8%N (script_tail another_record) 0%N);
    [discriminate | reflexivity | reflexivity | discriminate
    | apply cursor_world_fresh | reflexivity].
Defined.

(** X8 at one input: a copy of a fresh cursor, destroyed. *)
Lemma Result_copy_delete_run :
  exists w1,
    Result_copy (a_cursor 5%N) (cursor_world one_record) = (Ok (a_cursor 5%N), w1) /\
    trace w1 = trace (cursor_world one_record) /\
    Result_delete (a_cursor 5%N) w1 = (Ok tt, cursor_world one_record).
Proof.
  apply (Result_copy_delete (a_cursor 5%N) (cursor_world one_record));
    exists 0%nat; reflexivity.
Defined.

(** X9 at one input: a cursor over an enumeration of one record, built and
    destroyed. *)
Lemma Result_new_delete_balanced_run :
  exists r w1 w2,
    Result_new 5%N (script_world one_record) = (Ok r, w1) /\
    Result_delete r w1 = (Ok tt, w2) /\
    blocks w2 = blocks (script_world one_record) /\
    (WBEM_NO_ERROR = WBEM_NO_ERROR ->
     trace w1 = trace (script_world one_record) ++ [Call_Next 5%N 2500 1] /\
     trace w2 = trace w1 ++ [Call_Release 5%N; Call_Release 7%N]) /\
    (WBEM_NO_ERROR <> WBEM_NO_ERROR ->
     trace w1 = trace (script_world one_record) ++ [Call_Next 5%N 2500 1; Call_Release 5%N] /\
     trace w2 = trace w1).
Proof.
  apply (Result_new_delete_balanced 5%N 7%N (script_world one_record) WBEM_NO_ERROR
           (script_tail one_record));
    [discriminate | apply script_world_fresh | reflexivity | discriminate
    | intros _; discriminate].
Defined.

(** X11 at one input: the idle cursor is assigned to a cursor that alone
    owns its enumeration. *)
Lemma Result_assign_releases_enumerator_run :
  exists w' calls,
    Result_assign false idle_cursor (a_cursor 5%N, cursor_world no_record) =
      (Ok tt, (idle_cursor, w')) /\
    trace w' = [] ++ Call_Release 5%N :: Call_Release 5%N :: calls.
Proof.
  apply (Result_assign_releases_enumerator idle_cursor (a_cursor 5%N)
           (cursor_world no_record) 1%N);
    [discriminate | reflexivity | reflexivity | discriminate].
Defined.

(** X12 at one input: the field [Name] of the scripted record. *)
Lemma ObjectWrapper_readers_clear_run :
  snd (ObjectWrapper_contains a_record (Lstr "Name") (script_world one_record)) =
    mkWorld one_record ∅ 0%N
      [Call_Get 7%N (Lstr "Name");
       Call_VariantClear (mkVARIANT VT_BSTR 0 (Some (Lstr "System")))] /\
  snd (ObjectWrapper_typeId a_record (Lstr "Name") (script_world one_record)) =
    mkWorld one_record ∅ 0%N
      [Call_Get 7%N (Lstr "Name");
       Call_VariantClear (mkVARIANT VT_BSTR 0 (Some (Lstr "System")))] /\
  ObjectWrapper_getVarByKey a_record (Lstr "Name") (script_world one_record) =
    (Ok (mkVARIANT VT_BSTR 0 (Some (Lstr "System"))),
     mkWorld one_record ∅ 0%N [Call_Get 7%N (Lstr "Name")]) /\
  Variant_delete (mkVariant (mkVARIANT VT_BSTR 0 (Some (Lstr "System"))))
    (mkWorld one_record ∅ 0%N [Call_Get 7%N (Lstr "Name")]) =
    (Ok tt,
     mkWorld one_record ∅ 0%N
       [Call_Get 7%N (Lstr "Name");
        Call_VariantClear (mkVARIANT VT_BSTR 0 (Some (Lstr "System")))]).
Proof.
  assert (Hrecord : sp_get (_current a_record) <> nullptr) by discriminate.
  assert (Hget : Object_Get (sp_get (_current a_record)) (Lstr "Name")
                   (os (script_world one_record)) =
                 (WBEM_NO_ERROR, mkVARIANT VT_BSTR 0 (Some (Lstr "System")), one_record))
    by reflexivity.
  exact (proj2 (ObjectWrapper_readers_clear a_record (Lstr "Name")
                  (script_world one_record) WBEM_NO_ERROR
                  (mkVARIANT VT_BSTR 0 (Some (Lstr "System"))) one_record Hrecord Hget)
           eq_refl).
Defined.

(** X13 at one input: a session on the scripted platform, opened and
    closed. *)
Lemma Helper_new_steps_run :
  exists w2 w3,
    Helper_new (Lstr "Root\cimv2") (mkStatics false, script_world no_record) =
      (Ok a_helper, (mkStatics true, w2)) /\
    trace w2 = init_sequence ++ [Call_CoCreateInstance;
                                 Call_ConnectServer 1%N (Lstr "Root\cimv2")] /\
    Helper_delete a_helper w2 = (Ok tt, w3) /\
    trace w3 = trace w2 ++ [Call_Release 1%N; Call_Release 2%N].
Proof.
  assert (Hinit : COMManager_init (mkStatics false, script_world no_record) =
            (Ok tt, (mkStatics true, mkWorld no_record ∅ 0%N init_sequence)))
    by reflexivity.
  assert (Hcreate : CoCreateInstance (os (mkWorld no_record ∅ 0%N init_sequence)) =
            (WBEM_NO_ERROR, 1%N, no_record)) by reflexivity.
  assert (Hlocator : (1 <> nullptr)%N) by discriminate.
  assert (Hconnect : Locator_ConnectServer 1%N (Lstr "Root\cimv2") no_record =
            (WBEM_NO_ERROR, 2%N, no_record)) by reflexivity.
  assert (Hservices : (2 <> nullptr)%N) by discriminate.
  exact (proj2 (proj2 (proj2 (Helper_new_steps (Lstr "Root\cimv2") (mkStatics false)
                                (script_world no_record))
                         (mkStatics true) (mkWorld no_record ∅ 0%N init_sequence)
                         WBEM_NO_ERROR 1%N no_record Hinit Hcreate)
                  eq_refl Hlocator WBEM_NO_ERROR 2%N no_record Hconnect)
           eq_refl Hservices).
Defined.

(** X14 at one input: a query the service finds invalid. *)
Lemma Helper_request_rejected_run :
  exists reason w' calls,
    Helper_query a_helper (Lstr "SELECT")
      (script_world (rejecting (signed_of 32 WBEM_E_INVALID_QUERY))) =
      (Throw (ComException
                (("Failed to execute query " +:+ dquote +:+ to_utf8 (Lstr "SELECT")
                    +:+ dquote)
                   +:+ ": " +:+ reason +:+ " ("
                   +:+ toStringHex (signed_of 32 WBEM_E_INVALID_QUERY) +:+ ")")),
       w') /\
    trace w' = trace (script_world (rejecting (signed_of 32 WBEM_E_INVALID_QUERY)))
                 ++ Call_ExecQuery (_services a_helper) (Lstr "WQL") (Lstr "SELECT")
                      query_flags
                 :: calls /\
    only_lookup calls /\
    blocks w' = blocks (script_world (rejecting (signed_of 32 WBEM_E_INVALID_QUERY))).
Proof.
  assert (Hservices : _services a_helper <> nullptr) by discriminate.
  assert (Hfailed : FAILED (signed_of 32 WBEM_E_INVALID_QUERY) = true) by reflexivity.
  exact (proj1 (Helper_request_rejected a_helper (Lstr "SELECT")
                  (script_world (rejecting (signed_of 32 WBEM_E_INVALID_QUERY)))
                  (signed_of 32 WBEM_E_INVALID_QUERY) nullptr
                  (rejecting (signed_of 32 WBEM_E_INVALID_QUERY)) Hservices Hfailed)
           eq_refl).
Defined.

(** X15 at one input: the class of the scripted record, enumerated. *)
Lemma Helper_request_first_record_run :
  exists r w',
    Helper_getClass a_helper (Lstr "Win32_Process") (script_world one_record) = (Ok r, w') /\
    Result_valid r = true /\
    sp_get (_current (Result_base r)) = 7%N /\
    sp_get (_enumerator r) = 5%N /\
    _last_error r = last_error_unset.
Proof.
  assert (Hservices : _services a_helper <> nullptr) by discriminate.
  assert (Henum : (5 <> nullptr)%N) by discriminate.
  assert (Hrecord : (7 <> nullptr)%N) by discriminate.
  assert (Hnext : Enum_Next 5%N 2500 1 one_record =
            (WBEM_NO_ERROR, 7%N, script_tail one_record)) by reflexivity.
  exact (proj2 (Helper_request_first_record a_helper (Lstr "Win32_Process")
                  (script_world one_record) WBEM_NO_ERROR 5%N 7%N one_record
                  (script_tail one_record) Hservices eq_refl Henum Hrecord Hnext)
           eq_refl).
Defined.

(** X16 at one input: the security call fails once; the second call of
    [init] returns, and the end of the process uninitialises COM. *)
Lemma process_exit_matches_init_run :
  fst (inits 2 failing_once) =
    [Throw (ComException "Failed to initialize COM security: Unknown error (8007000e)");
     Ok tt] /\
  exists w2,
    process_exit (snd (inits 2 failing_once)) =
      (Ok tt, (fst (snd (inits 2 failing_once)), w2)) /\
    trace w2 = trace (snd (snd (inits 2 failing_once))) ++ [Call_CoUninitialize].
Proof.
  assert (Houtcomes : fst (inits 2 failing_once) =
            [Throw (ComException
                      "Failed to initialize COM security: Unknown error (8007000e)");
             Ok tt]) by (vm_compute; reflexivity).
  split; [exact Houtcomes |].
  assert (Hin : In (Ok tt) (fst (inits 2 failing_once))).
  { rewrite Houtcomes. right. left. reflexivity. }
  exact (proj1 (process_exit_matches_init 2 (script_world failing_once)) Hin).
Defined.

(** X17 at one input: an unsigned value above the signed range. *)
Lemma Variant_get_wstring_prints_run :
  Variant_get_wstring (stored_UI4 4000000000) = Ok (to_wstring 4000000000).
Proof.
  assert (Hrange : 0 <= 4000000000 < 4294967296) by lia.
  exact (proj1 (proj2 (proj2 (Variant_get_wstring_prints (stored_UI4 4000000000)
                                4000000000))) Hrange).
Defined.

(** X18 at one input: the names of the scripted record. *)
Lemma Result_names_returns_run :
  fst (Result_names (held_cursor 5%N 7%N) 0 0 (ole_world (cursor_world one_record))) =
    Ok [Lstr "Name"; Lstr "Parent"] /\
  exists l ps v',
    Result_names (held_cursor 5%N 7%N) 0 0 (ole_world (cursor_world one_record)) =
      (Ok l, v') /\
    length l = Z.to_nat (1 - 0 + 1) /\
    length ps = length l /\
    Forall (fun q => q <> nullptr) ps /\
    ole_trace v' =
      ole_trace (ole_world (cursor_world one_record))
        ++ [Call_GetNames 7%N names_flags;
            Call_SafeArrayGetLBound 9%N 1; Call_SafeArrayGetUBound 9%N 1]
        ++ element_calls 9%N 0 ps ++ [Call_SafeArrayDestroy 9%N] /\
    trace (com v') = trace (com (ole_world (cursor_world one_record))) /\
    blocks (com v') = blocks (com (ole_world (cursor_world one_record))).
Proof.
  split; [vm_compute; reflexivity |].
  apply (Result_names_returns (held_cursor 5%N 7%N) 0 0
           (ole_world (cursor_world one_record)) WBEM_NO_ERROR 0 0 9%N 0 1
           one_record one_record one_record (fun s => s = one_record));
    [discriminate | reflexivity | reflexivity | reflexivity | reflexivity
    | reflexivity | reflexivity |].
  intros i old s -> Hi.
  assert (Hcases : i = 0 \/ i = 1) by lia.
  destruct Hcases as [-> | ->]; split; (discriminate || reflexivity).
Defined.

(** X19 at one input: a record for which the service gives no names. *)
Lemma Result_names_rejected_run :
  exists reason v' calls,
    Result_names (held_cursor 5%N 7%N) 0 0 (ole_world (cursor_world no_record)) =
      (Throw (ComException
                ("Failed to retrieve field names" +:+ ": " +:+ reason
                   +:+ " (" +:+ toStringHex (signed_of 32 WBEM_E_FAILED) +:+ ")")),
       v') /\
    ole_trace v' =
      ole_trace (ole_world (cursor_world no_record)) ++ [Call_GetNames 7%N names_flags] /\
    trace (com v') = trace (com (ole_world (cursor_world no_record))) ++ calls /\
    only_lookup calls.
Proof.
  apply (Result_names_rejected (held_cursor 5%N 7%N) 0 0
           (ole_world (cursor_world no_record)) (signed_of 32 WBEM_E_FAILED) nullptr
           no_record);
    [discriminate | reflexivity | reflexivity].
Defined.

(** X20 at one input: the second of two names cannot be fetched; the first
    is returned twice and its string is freed twice. *)
Lemma Result_names_element_status_unread_run :
  fst (Result_names (held_cursor 5%N 7%N) 0 0 (ole_world (cursor_world unnamed_second))) =
    Ok [Lstr "Name"; Lstr "Name"] /\
  ole_trace (snd (Result_names (held_cursor 5%N 7%N) 0 0
                    (ole_world (cursor_world unnamed_second)))) =
    [Call_GetNames 7%N names_flags;
     Call_SafeArrayGetLBound 9%N 1; Call_SafeArrayGetUBound 9%N 1;
     Call_SafeArrayGetElement 9%N 0; Call_SysFreeString 100%N;
     Call_SafeArrayGetElement 9%N 1; Call_SysFreeString 100%N;
     Call_SafeArrayDestroy 9%N].
Proof.
  assert (Hrecord : sp_get (_current (Result_base (held_cursor 5%N 7%N))) <> nullptr)
    by discriminate.
  assert (Hrange : 0 <= 1 < LONG_MAX) by (unfold LONG_MAX; lia).
  assert (Hp : (100 <> nullptr)%N) by discriminate.
  exact (proj2 (Result_names_element_status_unread (held_cursor 5%N 7%N) 0 0
                  (ole_world (cursor_world unnamed_second))
                  WBEM_NO_ERROR 0 0 0 9%N 100%N 0 1
                  unnamed_second unnamed_second unnamed_second unnamed_second
                  Hrecord eq_refl eq_refl eq_refl eq_refl Hrange eq_refl)
           Hp eq_refl (signed_of 32 E_OUTOFMEMORY) unnamed_second eq_refl).
Defined.

(** X21 at one input: the method [Create] of the scripted record, whose
    execution fails. *)
Lemma Helper_call_steps_run :
  exists v',
    Helper_call a_helper a_record (Lstr "Create") nullptr
      (ole_world (script_world one_record)) =
      (Ok (mkObjectWrapper (mk_shared_ptr nullptr (Some 0%N))), v') /\
    ole_trace v' =
      [] ++ [Call_GetMethodOrigin 7%N (Lstr "Create");
             Call_SysAllocString (Lstr "Create");
             Call_ExecMethod 2%N 50%N 60%N 0 7%N;
             Call_SysFreeString 60%N] /\
    trace (com v') = [] /\
    blocks (com v') = <[0%N := 1%nat]> ∅.
Proof.
  assert (Hrecord : sp_get (_current a_record) <> nullptr) by discriminate.
  assert (Hservices : _services a_helper <> nullptr) by discriminate.
  exact (proj2 (Helper_call_steps a_helper a_record (Lstr "Create") nullptr
                  (ole_world (script_world one_record)) WBEM_NO_ERROR 50%N one_record
                  Hrecord Hservices eq_refl)
           eq_refl 60%N one_record (signed_of 32 WBEM_E_FAILED) nullptr one_record
           eq_refl eq_refl).
Defined.

(** X22 at one input: the proxy of the scripted session. *)
Lemma Helper_setProxyBlanket_outcome_run :
  Helper_setProxyBlanket 2%N (ole_world (script_world no_record)) =
    (Ok tt,
     mkOleWorld (script_world no_record) [Call_CoSetProxyBlanket 2%N 10 0 3 3 0]).
Proof.
  assert (Hreply : CoSetProxyBlanket 2%N 10 0 3 3 0
                     (os (com (ole_world (script_world no_record)))) =
                   (WBEM_NO_ERROR, no_record)) by reflexivity.
  exact (proj1 (Helper_setProxyBlanket_outcome 2%N (ole_world (script_world no_record))
                  WBEM_NO_ERROR no_record Hreply)
           eq_refl).
Defined.
